(** * Wonder_rabbit: the double-entry ledger of the Discord economy bot

    A shallow embedding of [database.py] and of the command handlers that
    post to the ledger ([cogs/currency.py], [cogs/balance.py], [models.py],
    [cogs/monthly_allowance.py]), of the expiry sweep ([cogs/role_expiry.py])
    and of the hours computation of [utils.py].

    - Python [Decimal] values are a coefficient and a power of ten ([Dec.t]).
    - The SQLite file is a record of tables ([DB]); a connection carries the
      durable image and the working image of its open transaction ([Conn]).
    - Coroutines over a connection are a state-and-exception monad ([M]).
    - What the linked SQLite library decides and the sources do not (the
      floating-point accumulation of [sum()], and the declaration of the
      allowance history table) is the interface [Sqlite]. *)

From Stdlib Require Import ZArith QArith List String Ascii Bool Lia.
From Stdlib Require Import DecimalString DecimalZ Qround.
Import ListNotations.
Open Scope string_scope.
Open Scope Z_scope.

(** ** Text helpers *)

(** [str(n)] for a Python int. *)
Definition str_of_Z (n : Z) : string := NilEmpty.string_of_int (Z.to_int n).

Definition is_lower_ascii (c : ascii) : bool :=
  let n := N_of_ascii c in ((97 <=? n) && (n <=? 122))%N.


Definition upper_ascii (c : ascii) : ascii :=
  if is_lower_ascii c then ascii_of_N (N_of_ascii c - 32) else c.


(** [s.upper()] on the ASCII letters; other bytes are left alone. *)
Fixpoint upper (s : string) : string :=
  match s with
  | EmptyString => EmptyString
  | String c s' => String (upper_ascii c) (upper s')
  end.



Definition repeat_zero (n : Z) : string :=
  string_of_list_ascii (repeat "0"%char (Z.to_nat n)).

(** ** Python [Decimal] *)

Module Dec.

Record t : Set := mk { coeff : Z; expo : Z }.

(** The number a decimal denotes. *)
Definition value (d : t) : Q :=
  if 0 <=? expo d then inject_Z (coeff d * 10 ^ expo d)
  else Qmake (coeff d) (Z.to_pos (10 ^ (- expo d))).

Definition of_Z (n : Z) : t := mk n 0.

Definition ltb (a b : t) : bool := negb (Qle_bool (value b) (value a)).
Definition leb (a b : t) : bool := Qle_bool (value a) (value b).
Definition eqb (a b : t) : bool := Qeq_bool (value a) (value b).

(** Truth value of a [Decimal]: zero is false. *)
Definition truthy (d : t) : bool := negb (coeff d =? 0).

(** The default context keeps 28 significant digits. *)
Definition prec : Z := 28.

Fixpoint ndigits_fuel (fuel : nat) (n : Z) : Z :=
  match fuel with
  | O => 1
  | S f => if n <? 10 then 1 else 1 + ndigits_fuel f (n / 10)
  end.

Definition ndigits (n : Z) : Z := ndigits_fuel (Z.to_nat (Z.log2 n)) n.

Definition nearest_even (n d : Z) : Z :=
  let q := n / d in
  match 2 * (n mod d) ?= d with
  | Lt => q
  | Gt => q + 1
  | Eq => if Z.even q then q else q + 1
  end.

(** Rounding of an arithmetic result to the context precision
    (ROUND_HALF_EVEN); the identity up to 28 digits. *)
Definition fix_context (d : t) : t :=
  let a := Z.abs (coeff d) in
  if a <? 10 ^ prec then d
  else
    let k := ndigits a - prec in
    let m := nearest_even a (10 ^ k) in
    if m =? 10 ^ prec then mk (Z.sgn (coeff d) * 10 ^ (prec - 1)) (expo d + k + 1)
    else mk (Z.sgn (coeff d) * m) (expo d + k).

(** Unary minus, [-d]. *)
Definition neg (d : t) : t := fix_context (mk (- coeff d) (expo d)).

(** [d.quantize(Decimal(10) ** -decimals, rounding=ROUND_DOWN)]; [None] is
    [InvalidOperation], raised when the result needs more than 28 digits. *)
Definition quantize_down (d : t) (decimals : Z) : option t :=
  let target := - decimals in
  let c :=
    if target <=? expo d then coeff d * 10 ^ (expo d - target)
    else Z.quot (coeff d) (10 ^ (target - expo d)) in
  if Z.abs c <? 10 ^ prec then Some (mk c target) else None.

(** [str(d)], the text stored in an [amount] column. *)
Definition str (d : t) : string :=
  let digits := str_of_Z (Z.abs (coeff d)) in
  let n := Z.of_nat (String.length digits) in
  let leftdigits := expo d + n in
  let dotplace :=
    if (expo d <=? 0) && (-6 <? leftdigits) then leftdigits else 1 in
  let intpart :=
    if dotplace <=? 0 then "0"
    else if n <=? dotplace then digits ++ repeat_zero (dotplace - n)
    else substring 0 (Z.to_nat dotplace) digits in
  let fracpart :=
    if dotplace <=? 0 then "." ++ repeat_zero (- dotplace) ++ digits
    else if n <=? dotplace then ""
    else "." ++ substring (Z.to_nat dotplace) (Z.to_nat (n - dotplace)) digits in
  let exp :=
    if leftdigits =? dotplace then ""
    else "E" ++ (if 0 <=? leftdigits - dotplace then "+" else "")
             ++ str_of_Z (leftdigits - dotplace) in
  (if coeff d <? 0 then "-" else "") ++ intpart ++ fracpart ++ exp.

End Dec.

(** ** IEEE-754 binary64, the type of an SQLite REAL and of a Python float *)

Module B64.

(** A finite double: [mant * 2 ^ expo] with a significand below [2^53]. *)
Record t : Set :=
  mk { mant : Z; expo : Z; mant_ok : (Z.abs mant <? 2 ^ 53) = true }.

Definition zero : t := mk 0 0 eq_refl.

Definition make (m e : Z) : t :=
  match (Z.abs m <? 2 ^ 53) as b return ((Z.abs m <? 2 ^ 53) = b -> t) with
  | true => fun H => mk m e H
  | false => fun _ => zero
  end eq_refl.

Definition value (x : t) : Q :=
  if 0 <=? expo x then inject_Z (mant x * 2 ^ expo x)
  else Qmake (mant x) (Z.to_pos (2 ^ (- expo x))).

(** [n / (d * 2^e)] as a quotient of two integers. *)
Definition scaled (n d e : Z) : Z * Z :=
  if 0 <=? e then (n, d * 2 ^ e) else (n * 2 ^ (- e), d).

(** Round to nearest, ties to even, in the normal range. *)
Definition round (q : Q) : t :=
  let n := Z.abs (Qnum q) in
  let d := Z.pos (Qden q) in
  if n =? 0 then zero else
  let e0 := Z.log2 n - Z.log2 d - 52 in
  let '(n0, d0) := scaled n d e0 in
  let e := if n0 / d0 <? 2 ^ 52 then e0 - 1 else e0 in
  let '(n1, d1) := scaled n d e in
  let m := Dec.nearest_even n1 d1 in
  let '(m, e) := if m =? 2 ^ 53 then (2 ^ 52, e + 1) else (m, e) in
  make (Z.sgn (Qnum q) * m) e.

Definition add (x y : t) : t := round (value x + value y).

(** [Decimal(x)] for a float [x]: the exact value, no rounding. *)
Definition as_decimal (x : t) : Dec.t :=
  if 0 <=? expo x then Dec.mk (mant x * 2 ^ expo x) 0
  else Dec.mk (mant x * 5 ^ (- expo x)) (expo x).

End B64.

(** ** Exceptions, results *)

Inductive exn : Set :=
| RuntimeError        (* account_id_by_name: no such account *)
| IntegrityError      (* a UNIQUE constraint failed *)
| OperationalError    (* sum(): integer overflow *)
| InvalidOperation    (* decimal: quantize beyond the context precision *)
| TypeError.          (* subscript of a row that is None *)

Inductive res (A : Type) : Type :=
| Ok (a : A)
| Raise (e : exn).

Arguments Ok {A} a.
Arguments Raise {A} e.

(** ** Tables *)

(** A table with an INTEGER PRIMARY KEY AUTOINCREMENT: its rows in rowid
    order and the largest rowid handed out so far. *)
Record Table (A : Type) : Type := { rows : list A; seq : Z }.

Arguments rows {A} t.
Arguments seq {A} t.

Definition empty_table {A : Type} : Table A := {| rows := []; seq := 0 |}.

(** [INSERT]: the new row gets the next rowid. *)
Definition insert {A : Type} (row : Z -> A) (t : Table A) : Table A :=
  {| rows := (rows t ++ [row (seq t + 1)])%list; seq := seq t + 1 |}.

(** [INSERT OR IGNORE] under a UNIQUE constraint: nothing happens when a row
    already holds the key. *)
Definition insert_or_ignore {A : Type} (same_key : A -> bool) (row : Z -> A)
  (t : Table A) : Table A :=
  if existsb same_key (rows t) then t else insert row t.

Record User : Set := { u_id : Z; u_discord_user_id : Z }.

Record Account : Set :=
  { a_id : Z; a_user_id : option Z; a_guild_id : Z; a_name : string;
    a_type : string }.

Record Asset : Set :=
  { as_id : Z; as_guild_id : Z; as_symbol : string; as_name : string;
    as_decimals : Z }.

Record Transaction : Set :=
  { tx_id : Z; tx_kind : string; tx_reference : string;
    tx_created_by : option Z; tx_unique_hash : option string }.

(** [le_amount] is the decimal whose text [Dec.str] the column holds. *)
Record LedgerEntry : Set :=
  { le_id : Z; le_tx_id : Z; le_account_id : Z; le_asset_id : Z;
    le_amount : Dec.t }.

Record RolePlan : Set :=
  { rp_id : Z; rp_panel_id : Z; rp_plan_name : string; rp_role_id : Z;
    rp_price : Dec.t; rp_currency_symbol : string; rp_duration_hours : Z;
    rp_guild_id : Z }.

Record RolePurchase : Set :=
  { pu_id : Z; pu_user_id : Z; pu_plan_id : Z; pu_guild_id : Z;
    pu_expires_at : Z }.

(** Modelled from the spec: table [monthly_allowances] is declared in no
    source file; its columns are those the statements of
    cogs/monthly_allowance.py name (a setting per guild, role and asset). *)
Record MonthlyAllowance : Set :=
  { ma_id : Z; ma_guild_id : Z; ma_role_id : Z; ma_asset_id : Z;
    ma_amount : Dec.t; ma_enabled : bool }.

(** Modelled from the spec: table [monthly_allowance_history], the history
    table that guards the allowance against a second payment, is declared
    in no source file; its columns are those the SELECT and the INSERT of
    cogs/monthly_allowance.py name. *)
Record AllowanceHistory : Set :=
  { h_id : Z; h_guild_id : Z; h_role_id : Z; h_user_id : Z; h_asset_id : Z;
    h_amount : Dec.t; h_year_month : string }.

(** The database file. *)
Record DB : Type :=
  { users : Table User;
    accounts : Table Account;
    assets : Table Asset;
    transactions : Table Transaction;
    ledger_entries : Table LedgerEntry;
    role_plans : Table RolePlan;
    role_purchases : Table RolePurchase;
    monthly_allowances : Table MonthlyAllowance;
    monthly_allowance_history : Table AllowanceHistory }.

Definition empty_db : DB :=
  {| users := empty_table; accounts := empty_table; assets := empty_table;
     transactions := empty_table; ledger_entries := empty_table;
     role_plans := empty_table; role_purchases := empty_table;
     monthly_allowances := empty_table;
     monthly_allowance_history := empty_table |}.

Definition set_users (t : Table User) (d : DB) : DB :=
  {| users := t; accounts := accounts d; assets := assets d;
     transactions := transactions d; ledger_entries := ledger_entries d;
     role_plans := role_plans d; role_purchases := role_purchases d;
     monthly_allowances := monthly_allowances d;
     monthly_allowance_history := monthly_allowance_history d |}.

Definition set_accounts (t : Table Account) (d : DB) : DB :=
  {| users := users d; accounts := t; assets := assets d;
     transactions := transactions d; ledger_entries := ledger_entries d;
     role_plans := role_plans d; role_purchases := role_purchases d;
     monthly_allowances := monthly_allowances d;
     monthly_allowance_history := monthly_allowance_history d |}.

Definition set_assets (t : Table Asset) (d : DB) : DB :=
  {| users := users d; accounts := accounts d; assets := t;
     transactions := transactions d; ledger_entries := ledger_entries d;
     role_plans := role_plans d; role_purchases := role_purchases d;
     monthly_allowances := monthly_allowances d;
     monthly_allowance_history := monthly_allowance_history d |}.

Definition set_transactions (t : Table Transaction) (d : DB) : DB :=
  {| users := users d; accounts := accounts d; assets := assets d;
     transactions := t; ledger_entries := ledger_entries d;
     role_plans := role_plans d; role_purchases := role_purchases d;
     monthly_allowances := monthly_allowances d;
     monthly_allowance_history := monthly_allowance_history d |}.

Definition set_ledger_entries (t : Table LedgerEntry) (d : DB) : DB :=
  {| users := users d; accounts := accounts d; assets := assets d;
     transactions := transactions d; ledger_entries := t;
     role_plans := role_plans d; role_purchases := role_purchases d;
     monthly_allowances := monthly_allowances d;
     monthly_allowance_history := monthly_allowance_history d |}.

Definition set_role_purchases (t : Table RolePurchase) (d : DB) : DB :=
  {| users := users d; accounts := accounts d; assets := assets d;
     transactions := transactions d; ledger_entries := ledger_entries d;
     role_plans := role_plans d; role_purchases := t;
     monthly_allowances := monthly_allowances d;
     monthly_allowance_history := monthly_allowance_history d |}.

Definition set_history (t : Table AllowanceHistory) (d : DB) : DB :=
  {| users := users d; accounts := accounts d; assets := assets d;
     transactions := transactions d; ledger_entries := ledger_entries d;
     role_plans := role_plans d; role_purchases := role_purchases d;
     monthly_allowances := monthly_allowances d;
     monthly_allowance_history := t |}.

(** ** Connections and coroutines *)

(** An open [aiosqlite] connection: what the file holds ([durable]) and what
    this connection sees, its uncommitted writes included ([work]). *)
Record Conn : Type := { durable : DB; work : DB }.

Definition connect (d : DB) : Conn := {| durable := d; work := d |}.

(** A coroutine taking [db]: it may raise, and it leaves a connection
    behind either way. *)
Definition M (A : Type) : Type := Conn -> res A * Conn.

Definition ret {A : Type} (a : A) : M A := fun c => (Ok a, c).

Definition raise {A : Type} (e : exn) : M A := fun c => (Raise e, c).

Definition bind {A B : Type} (m : M A) (k : A -> M B) : M B :=
  fun c =>
    match m c with
    | (Ok a, c') => k a c'
    | (Raise e, c') => (Raise e, c')
    end.

Notation "x <- m ;; k" := (bind m (fun x => k))
  (at level 61, m at next level, right associativity).

(** [try: ... except Exception]: the exception is caught, the writes made
    before it stay in the working image. *)
Definition try_except {A : Type} (m : M A) : M (res A) :=
  fun c => let (r, c') := m c in (Ok r, c').

(** A SELECT. *)
Definition query {A : Type} (f : DB -> A) : M A :=
  fun c => (Ok (f (work c)), c).

(** A statement that changes rows. *)
Definition execute (f : DB -> DB) : M unit :=
  fun c => (Ok tt, {| durable := durable c; work := f (work c) |}).

(** A statement that may fail; a failed statement changes nothing. *)
Definition execute_res (f : DB -> res DB) : M unit :=
  fun c =>
    match f (work c) with
    | Ok d => (Ok tt, {| durable := durable c; work := d |})
    | Raise e => (Raise e, c)
    end.

(** [await db.commit()]. *)
Definition commit : M unit :=
  fun c => (Ok tt, {| durable := work c; work := work c |}).

(** A rollback: the pending writes are dropped. *)
Definition rollback (c : Conn) : Conn :=
  {| durable := durable c; work := durable c |}.

(** Closing a connection leaves the file with what was committed. *)
Definition close (c : Conn) : DB := durable c.

(** [async with aiosqlite.connect(DB_PATH) as db: body]. *)
Definition with_connection {A : Type} (body : M A) (d : DB) : res A * DB :=
  let (r, c) := body (connect d) in (r, close c).

(** ** The SQLite library *)

(** What is decided outside the sources:
    - [real_sum]: the value of [sum()] once one input is not an INTEGER.
      The library documents it as a floating-point approximation of the
      sum; how the doubles are accumulated depends on its version.
    - [history_unique]: whether table [monthly_allowance_history], which no
      source file declares, has a UNIQUE constraint on
      (guild_id, role_id, user_id, asset_id, year_month). *)
Class Sqlite : Type :=
  { real_sum : list Dec.t -> B64.t;
    history_unique : bool }.

Inductive SqlValue : Set :=
| SqlNull
| SqlInteger (i : Z)
| SqlReal (x : B64.t)
| SqlText (d : Dec.t).   (* a text that spells the decimal [d] *)

Definition in_int64 (z : Z) : bool := (- 2 ^ 63 <=? z) && (z <? 2 ^ 63).

(** Numeric affinity of the text [str(amount)]: an INTEGER when it is made
    of digits only (no point, no exponent) and fits 64 bits, a REAL
    otherwise. *)
Definition integer_text (d : Dec.t) : bool :=
  (Dec.expo d =? 0) && in_int64 (Dec.coeff d).

(** 64-bit accumulation; [None] on overflow. *)
Fixpoint int_sum (acc : Z) (l : list Z) : option Z :=
  match l with
  | [] => Some acc
  | x :: r => if in_int64 (acc + x) then int_sum (acc + x) r else None
  end.

(** The aggregate [SUM(CAST(amount AS TEXT))].  The amounts are texts, and
    [sum()] reads each by numeric affinity: the result is NULL without
    rows, an INTEGER when every input is one (an integer-overflow error
    when the 64-bit accumulator overflows), and a floating-point value as
    soon as one input is not an integer. *)
Definition sql_sum `{Sqlite} (l : list Dec.t) : res SqlValue :=
  match l with
  | [] => Ok SqlNull
  | _ =>
      if forallb integer_text l then
        match int_sum 0 (map Dec.coeff l) with
        | Some s => Ok (SqlInteger s)
        | None => Raise OperationalError
        end
      else Ok (SqlReal (real_sum l))
  end.

Definition coalesce (v dflt : SqlValue) : SqlValue :=
  match v with SqlNull => dflt | _ => v end.

(** [Decimal(row[0])] for an int, a float or a str. *)
Definition decimal_of_sql (v : SqlValue) : Dec.t :=
  match v with
  | SqlNull => Dec.of_Z 0
  | SqlInteger i => Dec.of_Z i
  | SqlReal x => B64.as_decimal x
  | SqlText d => d
  end.

(** The plain accumulation of the library versions without compensated
    summation: every input converted to a double, added left to right. *)
Definition plain_real_sum (l : list Dec.t) : B64.t :=
  fold_left (fun acc d => B64.add acc (B64.round (Dec.value d))) l B64.zero.

Definition plain_sqlite : Sqlite :=
  {| real_sum := plain_real_sum; history_unique := false |}.

Definition constrained_sqlite : Sqlite :=
  {| real_sum := plain_real_sum; history_unique := true |}.

(** ** database.py *)

Section Database.

Context {sqlite : Sqlite}.

(** *** Users *)

Definition insert_user (discord_user_id : Z) (d : DB) : DB :=
  set_users
    (insert_or_ignore (fun u => u_discord_user_id u =? discord_user_id)
       (fun i => {| u_id := i; u_discord_user_id := discord_user_id |})
       (users d)) d.

Definition select_user (discord_user_id : Z) (d : DB) : option User :=
  find (fun u => u_discord_user_id u =? discord_user_id) (rows (users d)).

Definition upsert_user (discord_user_id : Z) : M Z :=
  _ <- execute (insert_user discord_user_id) ;;
  row <- query (select_user discord_user_id) ;;
  match row with
  | Some u => ret (u_id u)
  | None => raise TypeError
  end.

(** *** Assets *)

Definition select_asset (symbol : string) (guild_id : Z) (d : DB)
  : option Asset :=
  find (fun a => String.eqb (as_symbol a) symbol && (as_guild_id a =? guild_id))
    (rows (assets d)).

Definition get_asset (symbol : string) (guild_id : Z) : M (option Asset) :=
  query (select_asset (upper symbol) guild_id).

(** The INSERT of [create_asset], under UNIQUE(guild_id, symbol). *)
Definition insert_asset (symbol name : string) (guild_id decimals : Z) (d : DB)
  : res DB :=
  match select_asset symbol guild_id d with
  | Some _ => Raise IntegrityError
  | None =>
      Ok (set_assets
            (insert (fun i => {| as_id := i; as_guild_id := guild_id;
                                 as_symbol := symbol; as_name := name;
                                 as_decimals := decimals |}) (assets d)) d)
  end.

Definition create_asset (symbol name : string) (guild_id decimals : Z) : M unit :=
  execute_res (insert_asset (upper symbol) name guild_id decimals).

(** *** Accounts *)

Definition insert_account (user_id : option Z) (guild_id : Z)
  (name type : string) (d : DB) : DB :=
  set_accounts
    (insert_or_ignore (fun a => String.eqb (a_name a) name)
       (fun i => {| a_id := i; a_user_id := user_id; a_guild_id := guild_id;
                    a_name := name; a_type := type |})
       (accounts d)) d.

Definition select_account (name : string) (d : DB) : option Account :=
  find (fun a => String.eqb (a_name a) name) (rows (accounts d)).

Definition ensure_system_accounts (guild_id : Z) : M unit :=
  _ <- execute (insert_account None guild_id
                  ("treasury:" ++ str_of_Z guild_id) "treasury") ;;
  execute (insert_account None guild_id ("burn:" ++ str_of_Z guild_id) "burn").

Definition user_account_name (discord_user_id guild_id : Z) : string :=
  "user:" ++ str_of_Z discord_user_id ++ ":" ++ str_of_Z guild_id.

Definition ensure_user_account (discord_user_id guild_id : Z) : M Z :=
  uid <- upsert_user discord_user_id ;;
  let name := user_account_name discord_user_id guild_id in
  _ <- execute (insert_account (Some uid) guild_id name "user") ;;
  row <- query (select_account name) ;;
  match row with
  | Some a => ret (a_id a)
  | None => raise TypeError
  end.

Definition account_id_by_name (name : string) (guild_id : Z) : M Z :=
  let full_name := name ++ ":" ++ str_of_Z guild_id in
  row <- query (select_account full_name) ;;
  match row with
  | Some a => ret (a_id a)
  | None => raise RuntimeError
  end.

(** *** Balances *)

(** The amounts of the rows [WHERE account_id=? AND asset_id=?]. *)
Definition postings (account_id asset_id : Z) (d : DB) : list Dec.t :=
  map le_amount
    (filter (fun e => (le_account_id e =? account_id)
                      && (le_asset_id e =? asset_id))
       (rows (ledger_entries d))).

(** [balance_of] as a function of the working image. *)
Definition balance_in (d : DB) (account_id asset_id : Z) : res Dec.t :=
  match sql_sum (postings account_id asset_id d) with
  | Ok v => Ok (decimal_of_sql (coalesce v (SqlText (Dec.of_Z 0))))
  | Raise e => Raise e
  end.

Definition balance_of (account_id asset_id : Z) : M Dec.t :=
  fun c => (balance_in (work c) account_id asset_id, c).

(** *** Transactions and postings *)

Definition new_transaction (kind : string) (created_by_user_id : option Z)
  (unique_hash : option string) (reference : string) : M Z :=
  _ <- execute (fun d =>
         set_transactions
           (insert (fun i => {| tx_id := i; tx_kind := kind;
                                tx_reference := reference;
                                tx_created_by := created_by_user_id;
                                tx_unique_hash := unique_hash |})
              (transactions d)) d) ;;
  query (fun d => seq (transactions d)).

Definition post_ledger (tx account_id asset_id : Z) (amount : Dec.t) : M unit :=
  execute (fun d =>
    set_ledger_entries
      (insert (fun i => {| le_id := i; le_tx_id := tx;
                           le_account_id := account_id;
                           le_asset_id := asset_id; le_amount := amount |})
         (ledger_entries d)) d).

(** *** Treasury refill *)

Definition refill_amount : Dec.t := Dec.of_Z 1000000000.

Definition should_refill (current_balance : Dec.t)
  (required_amount : option Dec.t) : bool :=
  if match required_amount with
     | Some r => Dec.truthy r && Dec.ltb current_balance r
     | None => false
     end
  then true
  else if Dec.leb current_balance (Dec.of_Z 0) then true
  else false.

Definition select_asset_by_id (asset_id : Z) (d : DB) : option Asset :=
  find (fun a => as_id a =? asset_id) (rows (assets d)).

Definition auto_refill_treasury_if_needed (treasury_acc_id asset_id guild_id : Z)
  (required_amount : option Dec.t) : M bool :=
  current_balance <- balance_of treasury_acc_id asset_id ;;
  if should_refill current_balance required_amount then
    asset_info <- query (select_asset_by_id asset_id) ;;
    let symbol :=
      match asset_info with Some a => as_symbol a | None => "UNKNOWN" end in
    tx <- new_transaction "auto_treasury_refill" None None
            ("Auto refill " ++ Dec.str refill_amount ++ " " ++ symbol) ;;
    _ <- post_ledger tx treasury_acc_id asset_id refill_amount ;;
    _ <- commit ;;
    ret true
  else ret false.

End Database.

(** ** Command handlers *)

Section Cogs.

Context {sqlite : Sqlite}.

(** *** cogs/currency.py: /create *)

Inductive CreateResponse : Set :=
| CreateGuildOnly
| CreateDuplicate (symbol : string)
| Created (symbol : string).

Definition initial_amount : Dec.t := Dec.of_Z 1000000000.

Definition create_currency (guild : option Z) (user : Z) (symbol name : string)
  (decimals : Z) (d : DB) : res CreateResponse * DB :=
  match guild with
  | None => (Ok CreateGuildOnly, d)
  | Some g =>
      let symbol := upper symbol in
      with_connection
        (existing <- get_asset symbol g ;;
         match existing with
         | Some _ => ret (CreateDuplicate symbol)
         | None =>
             _ <- create_asset symbol name g decimals ;;
             _ <- ensure_system_accounts g ;;
             asset <- get_asset symbol g ;;
             match asset with
             | None => raise TypeError
             | Some a =>
                 let asset_id := as_id a in
                 treasury_acc <- account_id_by_name "treasury" g ;;
                 uid <- upsert_user user ;;
                 tx <- new_transaction "initial_issue" (Some uid) None
                         ("Initial treasury balance for " ++ symbol) ;;
                 _ <- post_ledger tx treasury_acc asset_id initial_amount ;;
                 _ <- commit ;;
                 ret (Created symbol)
             end
         end) d
  end.

(** *** cogs/balance.py: /pay *)

Inductive PayResponse : Set :=
| PayGuildOnly
| PaySelf
| PayBadAmount
| PayNoAsset
| PayInsufficient (bal : Dec.t)
| PaySent (qamt : Dec.t).

(** [amount] is the result of [to_decimal]: [None] when the text is not a
    finite number. *)
Definition pay (guild : option Z) (user to : Z) (symbol : string)
  (amount : option Dec.t) (memo : option string) (d : DB)
  : res PayResponse * DB :=
  match guild with
  | None => (Ok PayGuildOnly, d)
  | Some g =>
      if to =? user then (Ok PaySelf, d)
      else
        match amount with
        | None => (Ok PayBadAmount, d)
        | Some amt =>
            if Dec.leb amt (Dec.of_Z 0) then (Ok PayBadAmount, d)
            else
              with_connection
                (asset <- get_asset (upper symbol) g ;;
                 match asset with
                 | None => ret PayNoAsset
                 | Some a =>
                     from_acc <- ensure_user_account user g ;;
                     to_acc <- ensure_user_account to g ;;
                     bal <- balance_of from_acc (as_id a) ;;
                     match Dec.quantize_down amt (as_decimals a) with
                     | None => raise InvalidOperation
                     | Some qamt =>
                         if Dec.ltb bal qamt then ret (PayInsufficient bal)
                         else
                           uid <- upsert_user user ;;
                           tx <- new_transaction "transfer" (Some uid) None
                                   (match memo with Some m => m | None => "" end) ;;
                           _ <- post_ledger tx from_acc (as_id a) (Dec.neg qamt) ;;
                           _ <- post_ledger tx to_acc (as_id a) qamt ;;
                           _ <- commit ;;
                           ret (PaySent qamt)
                     end
                 end) d
        end
  end.

(** *** models.py: RolePlanSelectDropdown.callback *)

Inductive PurchaseResponse : Set :=
| PurchaseNoPlan
| PurchaseNoAsset
| PurchaseInsufficient (price bal : Dec.t)
| Purchased
| PurchasedRoleMissing.

Definition select_plan (plan_id panel_id : Z) (d : DB) : option RolePlan :=
  find (fun p => (rp_id p =? plan_id) && (rp_panel_id p =? panel_id))
    (rows (role_plans d)).

(** [guild_roles] are the roles the guild has, [now] the clock in hours. *)
Definition role_plan_callback (panel_id plan_id guild user now : Z)
  (guild_roles : list Z) (d : DB) : res PurchaseResponse * DB :=
  with_connection
    (plan <- query (select_plan plan_id panel_id) ;;
     match plan with
     | None => ret PurchaseNoPlan
     | Some p =>
         let price_decimal := rp_price p in
         asset <- get_asset (rp_currency_symbol p) guild ;;
         match asset with
         | None => ret PurchaseNoAsset
         | Some a =>
             uid <- upsert_user user ;;
             user_acc <- ensure_user_account user guild ;;
             user_balance <- balance_of user_acc (as_id a) ;;
             if Dec.ltb user_balance price_decimal
             then ret (PurchaseInsufficient price_decimal user_balance)
             else
               treasury_acc <- account_id_by_name "treasury" guild ;;
               tx <- new_transaction "role_purchase" (Some uid) None
                       ("Role purchase: " ++ str_of_Z (rp_role_id p)) ;;
               _ <- post_ledger tx user_acc (as_id a) (Dec.neg price_decimal) ;;
               _ <- post_ledger tx treasury_acc (as_id a) price_decimal ;;
               _ <- execute (fun d =>
                      set_role_purchases
                        (insert (fun i =>
                           {| pu_id := i; pu_user_id := uid;
                              pu_plan_id := rp_id p; pu_guild_id := guild;
                              pu_expires_at := now + rp_duration_hours p |})
                           (role_purchases d)) d) ;;
               _ <- commit ;;
               if existsb (Z.eqb (rp_role_id p)) guild_roles
               then ret Purchased else ret PurchasedRoleMissing
         end
     end) d.

(** *** cogs/monthly_allowance.py *)

(** What the handlers read from Discord. *)
Record Member : Set := { m_id : Z; m_roles : list Z; m_bot : bool }.

Record Guild : Set := { g_id : Z; g_roles : list Z; g_members : list Member }.

Definition same_period (guild_id role_id user_id asset_id : Z)
  (year_month : string) (h : AllowanceHistory) : bool :=
  (h_guild_id h =? guild_id) && (h_role_id h =? role_id)
  && (h_user_id h =? user_id) && (h_asset_id h =? asset_id)
  && String.eqb (h_year_month h) year_month.

(** The history check [SELECT id FROM monthly_allowance_history WHERE ...]. *)
Definition select_history (guild_id role_id user_id asset_id : Z)
  (year_month : string) (d : DB) : option AllowanceHistory :=
  find (same_period guild_id role_id user_id asset_id year_month)
    (rows (monthly_allowance_history d)).

Definition insert_history (guild_id role_id user_id asset_id : Z)
  (amount : Dec.t) (year_month : string) (d : DB) : res DB :=
  if history_unique
     && existsb (same_period guild_id role_id user_id asset_id year_month)
          (rows (monthly_allowance_history d))
  then Raise IntegrityError
  else
    Ok (set_history
          (insert (fun i => {| h_id := i; h_guild_id := guild_id;
                               h_role_id := role_id; h_user_id := user_id;
                               h_asset_id := asset_id; h_amount := amount;
                               h_year_month := year_month |})
             (monthly_allowance_history d)) d).

Definition transfer_allowance (guild_id role_id user_id asset_id : Z)
  (amount : Dec.t) (year_month : string) : M unit :=
  uid <- upsert_user user_id ;;
  let name := user_account_name user_id guild_id in
  _ <- execute (insert_account (Some uid) guild_id name "user") ;;
  user_account_row <- query (select_account name) ;;
  match user_account_row with
  | None => raise TypeError
  | Some acc =>
      let user_account_id := a_id acc in
      treasury_account_id <- account_id_by_name "treasury" guild_id ;;
      let amount_decimal := amount in
      _ <- auto_refill_treasury_if_needed treasury_account_id asset_id
             guild_id (Some amount_decimal) ;;
      asset_info <- query (select_asset_by_id asset_id) ;;
      let symbol :=
        match asset_info with Some a => as_symbol a | None => "UNKNOWN" end in
      tx <- new_transaction "monthly_allowance" None None
              ("Monthly allowance: " ++ Dec.str amount ++ " " ++ symbol) ;;
      _ <- post_ledger tx treasury_account_id asset_id (Dec.neg amount_decimal) ;;
      _ <- post_ledger tx user_account_id asset_id amount_decimal ;;
      _ <- execute_res
             (insert_history guild_id role_id uid asset_id amount year_month) ;;
      commit
  end.

(** The loop over [guild.members] for one setting; the pair counts the
    payments sent and failed. *)
Fixpoint pay_members (s : MonthlyAllowance) (year_month : string)
  (members : list Member) (counts : Z * Z) : M (Z * Z) :=
  match members with
  | [] => ret counts
  | member :: rest =>
      if existsb (Z.eqb (ma_role_id s)) (m_roles member) && negb (m_bot member)
      then
        existing <- query (select_history (ma_guild_id s) (ma_role_id s)
                             (m_id member) (ma_asset_id s) year_month) ;;
        match existing with
        | Some _ => pay_members s year_month rest counts
        | None =>
            r <- try_except (transfer_allowance (ma_guild_id s) (ma_role_id s)
                        (m_id member) (ma_asset_id s) (ma_amount s)
                        year_month) ;;
            match r with
            | Ok _ => pay_members s year_month rest (fst counts + 1, snd counts)
            | Raise _ => pay_members s year_month rest (fst counts, snd counts + 1)
            end
        end
      else pay_members s year_month rest counts
  end.

Fixpoint pay_settings (bot : list Guild) (year_month : string)
  (settings : list MonthlyAllowance) (counts : Z * Z) : M (Z * Z) :=
  match settings with
  | [] => ret counts
  | s :: rest =>
      match find (fun g => g_id g =? ma_guild_id s) bot with
      | None => pay_settings bot year_month rest counts
      | Some guild =>
          if existsb (Z.eqb (ma_role_id s)) (g_roles guild) then
            counts' <- pay_members s year_month (g_members guild) counts ;;
            pay_settings bot year_month rest counts'
          else pay_settings bot year_month rest counts
      end
  end.

Definition execute_monthly_allowances (bot : list Guild) (year_month : string)
  (d : DB) : res (Z * Z) * DB :=
  with_connection
    (settings <- query (fun d => filter ma_enabled (rows (monthly_allowances d))) ;;
     pay_settings bot year_month settings (0, 0)) d.

End Cogs.

(** ** Concurrent callers of [ensure_user_account] *)

(** Where one call stands among its four statements. *)
Inductive Call : Set :=
| AtInsertUser
| AtSelectUser
| AtInsertAccount (uid : Z)
| AtSelectAccount
| Returned (account_id : Z)
| Failed (e : exn).

(** The next statement of a call for [(discord_user_id, guild_id)], run on
    the shared file. *)
Definition call_step (discord_user_id guild_id : Z) (pc : Call) (d : DB)
  : Call * DB :=
  let name := user_account_name discord_user_id guild_id in
  match pc with
  | AtInsertUser => (AtSelectUser, insert_user discord_user_id d)
  | AtSelectUser =>
      match select_user discord_user_id d with
      | Some u => (AtInsertAccount (u_id u), d)
      | None => (Failed TypeError, d)
      end
  | AtInsertAccount uid =>
      (AtSelectAccount, insert_account (Some uid) guild_id name "user" d)
  | AtSelectAccount =>
      match select_account name d with
      | Some a => (Returned (a_id a), d)
      | None => (Failed TypeError, d)
      end
  | Returned _ | Failed _ => (pc, d)
  end.

(** The call picked by the scheduler takes one step. *)
Fixpoint step_nth (discord_user_id guild_id : Z) (i : nat) (calls : list Call)
  (d : DB) {struct calls} : list Call * DB :=
  match calls, i with
  | [], _ => ([], d)
  | pc :: rest, O =>
      let (pc', d') := call_step discord_user_id guild_id pc d in
      (pc' :: rest, d')
  | pc :: rest, S j =>
      let (rest', d') := step_nth discord_user_id guild_id j rest d in
      (pc :: rest', d')
  end.

(** A schedule names, step after step, the call that runs. *)
Fixpoint run_schedule (discord_user_id guild_id : Z) (schedule : list nat)
  (calls : list Call) (d : DB) : list Call * DB :=
  match schedule with
  | [] => (calls, d)
  | i :: rest =>
      let (calls', d') := step_nth discord_user_id guild_id i calls d in
      run_schedule discord_user_id guild_id rest calls' d'
  end.

Definition finished (pc : Call) : bool :=
  match pc with Returned _ | Failed _ => true | _ => false end.


(** ** Notions the properties are stated with *)

(** The exact sum of a list of decimals. *)
Definition exact_sum (l : list Dec.t) : Q :=
  fold_right (fun d acc => Dec.value d + acc)%Q 0%Q l.





(** Postings refer to assets that were created. *)
Definition asset_ids_bounded (d : DB) : Prop :=
  Forall (fun e => le_asset_id e <= seq (assets d)) (rows (ledger_entries d)).

(** The id [SELECT id FROM accounts WHERE name=?] finds, or the rowid the
    next INSERT would hand out. *)
Definition account_id_or_next (name : string) (d : DB) : Z :=
  match select_account name d with
  | Some a => a_id a
  | None => seq (accounts d) + 1
  end.

Definition user_account_id (discord_user_id guild_id : Z) (d : DB) : Z :=
  account_id_or_next (user_account_name discord_user_id guild_id) d.

Definition treasury_name (guild_id : Z) : string :=
  "treasury:" ++ str_of_Z guild_id.



Definition refill_entry_row (d : DB) (treasury_acc_id asset_id : Z) : LedgerEntry :=
  {| le_id := seq (ledger_entries d) + 1; le_tx_id := seq (transactions d) + 1;
     le_account_id := treasury_acc_id; le_asset_id := asset_id;
     le_amount := Dec.of_Z 1000000000 |}.

(** The image a refill leaves. *)
Definition refilled (d : DB) (treasury_acc_id asset_id : Z) : DB :=
  set_ledger_entries
    (insert (fun i => {| le_id := i; le_tx_id := seq (transactions d) + 1;
                         le_account_id := treasury_acc_id;
                         le_asset_id := asset_id;
                         le_amount := refill_amount |})
       (ledger_entries d))
    (set_transactions
       (insert (fun i => {| tx_id := i; tx_kind := "auto_treasury_refill";
                            tx_reference :=
                              "Auto refill " ++ Dec.str refill_amount ++ " "
                              ++ match select_asset_by_id asset_id d with
                                 | Some a => as_symbol a
                                 | None => "UNKNOWN"
                                 end;
                            tx_created_by := None; tx_unique_hash := None |})
          (transactions d)) d).

(** The posting of currency creation on image [d]. *)
Definition initial_issue_entry (d : DB) (guild_id : Z) : LedgerEntry :=
  {| le_id := seq (ledger_entries d) + 1;
     le_tx_id := seq (transactions d) + 1;
     le_account_id := account_id_or_next (treasury_name guild_id) d;
     le_asset_id := seq (assets d) + 1;
     le_amount := Dec.of_Z 1000000000 |}.

(** The two postings of a transfer of [q] on image [d]. *)
Definition transfer_entries (d : DB) (from_acc to_acc asset_id : Z) (q : Dec.t)
  : list LedgerEntry :=
  [ {| le_id := seq (ledger_entries d) + 1; le_tx_id := seq (transactions d) + 1;
       le_account_id := from_acc; le_asset_id := asset_id; le_amount := Dec.neg q |};
    {| le_id := seq (ledger_entries d) + 1 + 1; le_tx_id := seq (transactions d) + 1;
       le_account_id := to_acc; le_asset_id := asset_id; le_amount := q |} ].

(** A credit of [x] followed by a debit of [x] on one account. *)
Definition credit_then_debit (tx account_id asset_id : Z) (x : Dec.t) : M unit :=
  _ <- post_ledger tx account_id asset_id x ;;
  post_ledger tx account_id asset_id (Dec.neg x).

(** ** Sample databases *)

(** A file whose only table with rows is the ledger. *)
Definition ledger_of (entries : list LedgerEntry) : DB :=
  set_ledger_entries
    {| rows := entries; seq := Z.of_nat (List.length entries) |} empty_db.

(** One posting of 0.1 on account 1, asset 1. *)
Definition tenth_ledger : DB :=
  ledger_of [ {| le_id := 1; le_tx_id := 1; le_account_id := 1;
                 le_asset_id := 1; le_amount := Dec.mk 1 (-1) |} ].

(** One posting of 2^53 + 1 on account 1, asset 1. *)
Definition big_ledger : DB :=
  ledger_of [ {| le_id := 1; le_tx_id := 1; le_account_id := 1;
                 le_asset_id := 1; le_amount := Dec.of_Z 9007199254740993 |} ].

(** Guild 1 after [/create gold] by user 42: asset 1 (GOLD, 2 decimals),
    treasury account 1, one transaction, one posting. *)
Definition gold_db : DB :=
  snd (create_currency (Some 1) 42 "gold" "Gold coin" 2 empty_db).

(** The same guild after the treasury handed 10.00 GOLD to user 42
    (account 3). *)
Definition alice_db : DB :=
  snd (with_connection
         (acc <- ensure_user_account 42 1 ;;
          tx <- new_transaction "issue" None None "" ;;
          _ <- post_ledger tx 1 1 (Dec.mk (-1000) (-2)) ;;
          _ <- post_ledger tx acc 1 (Dec.mk 1000 (-2)) ;;
          commit) gold_db).

(** ... and with two role plans, one for 10.01 GOLD and one for 2.50. *)
Definition shop_db : DB :=
  {| users := users alice_db; accounts := accounts alice_db;
     assets := assets alice_db; transactions := transactions alice_db;
     ledger_entries := ledger_entries alice_db;
     role_plans :=
       insert (fun i => {| rp_id := i; rp_panel_id := 1; rp_plan_name := "Guest";
                           rp_role_id := 8; rp_price := Dec.mk 250 (-2);
                           rp_currency_symbol := "GOLD";
                           rp_duration_hours := 24; rp_guild_id := 1 |})
         (insert (fun i => {| rp_id := i; rp_panel_id := 1; rp_plan_name := "VIP";
                              rp_role_id := 7; rp_price := Dec.mk 1001 (-2);
                              rp_currency_symbol := "GOLD";
                              rp_duration_hours := 24; rp_guild_id := 1 |})
            empty_table);
     role_purchases := role_purchases alice_db;
     monthly_allowances := monthly_allowances alice_db;
     monthly_allowance_history := monthly_allowance_history alice_db |}.


(** User 42 pays 10.00 GOLD to user 43. *)
Definition paid_db : DB :=
  snd (@pay plain_sqlite (Some 1) 42 43 "gold" (Some (Dec.mk 1000 (-2))) None
         alice_db).

(** User 42 buys plan 2 (2.50 GOLD). *)
Definition purchased_db : DB :=
  snd (@role_plan_callback plain_sqlite 1 2 1 42 0 [7; 8] shop_db).


(** [gold_db] with a monthly allowance of 100 GOLD for role 7. *)
Definition payroll_db : DB :=
  {| users := users gold_db; accounts := accounts gold_db;
     assets := assets gold_db; transactions := transactions gold_db;
     ledger_entries := ledger_entries gold_db;
     role_plans := role_plans gold_db; role_purchases := role_purchases gold_db;
     monthly_allowances :=
       insert (fun i => {| ma_id := i; ma_guild_id := 1; ma_role_id := 7;
                           ma_asset_id := 1; ma_amount := Dec.of_Z 100;
                           ma_enabled := true |}) empty_table;
     monthly_allowance_history := monthly_allowance_history gold_db |}.

(** Guild 1 when the sweep first runs on the 28th: user 42 has role 7. *)
Definition guild_at_first_run : list Guild :=
  [ {| g_id := 1; g_roles := [7];
       g_members := [ {| m_id := 42; m_roles := [7]; m_bot := false |} ] |} ].

(** An hour later user 43 has the role as well. *)
Definition guild_at_second_run : list Guild :=
  [ {| g_id := 1; g_roles := [7];
       g_members := [ {| m_id := 42; m_roles := [7]; m_bot := false |};
                      {| m_id := 43; m_roles := [7]; m_bot := false |} ] |} ].

(** A caller that has registered user 43 and not committed yet, as
    [claim_reward] and [transfer_allowance] have when they come to the
    refill. *)
Definition caller_conn : Conn := snd (upsert_user 43 (connect gold_db)).




(** ** More of database.py *)

Section MoreDatabase.

Context {sqlite : Sqlite}.

(** [SELECT symbol, decimals FROM assets WHERE id = ?]. *)
Definition get_asset_info_by_id (asset_id : Z) : M (option (string * Z)) :=
  query (fun d =>
    match select_asset_by_id asset_id d with
    | Some a => Some (as_symbol a, as_decimals a)
    | None => None
    end).

(** [ensure_guild_setup] opens a connection of its own. *)
Definition ensure_guild_setup (guild_id : Z) (d : DB) : res unit * DB :=
  with_connection (_ <- ensure_system_accounts guild_id ;; commit) d.

End MoreDatabase.

(** ** More handlers *)

(** [d.quantize(Decimal(10) ** -decimals)] with the rounding of the default
    context, ROUND_HALF_EVEN; [None] is [InvalidOperation].  The result has
    the exponent of [Decimal(10) ** -decimals]: [-decimals], and 0 when
    [decimals] is negative (a positive power of ten is written out). *)
Definition quantize_half_even (d : Dec.t) (decimals : Z) : option Dec.t :=
  let target := if 0 <=? decimals then - decimals else 0 in
  let c :=
    if target <=? Dec.expo d then Dec.coeff d * 10 ^ (Dec.expo d - target)
    else Z.sgn (Dec.coeff d)
         * Dec.nearest_even (Z.abs (Dec.coeff d)) (10 ^ (target - Dec.expo d)) in
  if Z.abs c <? 10 ^ Dec.prec then Some (Dec.mk c target) else None.

Section MoreCogs.

Context {sqlite : Sqlite}.

(** *** cogs/currency.py: /give *)

Inductive GiveResponse : Set :=
| GiveGuildOnly
| GiveBadAmount
| GiveNoAsset
| GiveSent (qamt : Dec.t).

(** [amount] is the result of [to_decimal], as for [pay]. *)
Definition give_currency (guild : option Z) (user to : Z) (symbol : string)
  (amount : option Dec.t) (memo : option string) (d : DB)
  : res GiveResponse * DB :=
  match guild with
  | None => (Ok GiveGuildOnly, d)
  | Some g =>
      match amount with
      | None => (Ok GiveBadAmount, d)
      | Some amt =>
          if Dec.leb amt (Dec.of_Z 0) then (Ok GiveBadAmount, d)
          else
            with_connection
              (asset <- get_asset (upper symbol) g ;;
               match asset with
               | None => ret GiveNoAsset
               | Some a =>
                   treasury_acc <- account_id_by_name "treasury" g ;;
                   to_acc <- ensure_user_account to g ;;
                   match quantize_half_even amt (as_decimals a) with
                   | None => raise InvalidOperation
                   | Some qamt =>
                       _ <- auto_refill_treasury_if_needed treasury_acc (as_id a)
                              g (Some qamt) ;;
                       uid <- upsert_user user ;;
                       tx <- new_transaction "issue" (Some uid) None
                               (match memo with Some m => m | None => "" end) ;;
                       _ <- post_ledger tx treasury_acc (as_id a) (Dec.neg qamt) ;;
                       _ <- post_ledger tx to_acc (as_id a) qamt ;;
                       _ <- commit ;;
                       ret (GiveSent qamt)
                   end
               end) d
      end
  end.

(** *** models.py: CurrencyDeleteConfirmView *)

(** The view that /delete builds: who ran the command and the asset row it
    read then. *)
Record CurrencyDeleteConfirmView : Set :=
  { dv_symbol : string; dv_guild_id : Z; dv_user : Z; dv_asset_info : Asset }.

Inductive DeleteResponse : Set :=
| DeleteNotOwner
| DeleteDone
| DeleteFailed (e : exn).

Definition delete_ledger_entries (asset_id : Z) (d : DB) : DB :=
  set_ledger_entries
    {| rows := filter (fun e => negb (le_asset_id e =? asset_id))
                 (rows (ledger_entries d));
       seq := seq (ledger_entries d) |} d.

Definition delete_asset (asset_id : Z) (d : DB) : DB :=
  set_assets
    {| rows := filter (fun a => negb (as_id a =? asset_id)) (rows (assets d));
       seq := seq (assets d) |} d.

(** The statements on [ledger_entries] and [assets]; the DELETEs in between
    empty tables that are not part of [DB] (claims, daily_role_rewards,
    daily_log, autorewards, auto_reward_configs). *)
Definition execute_deletion (view : CurrencyDeleteConfirmView) (d : DB)
  : res DeleteResponse * DB :=
  with_connection
    (let asset_id := as_id (dv_asset_info view) in
     r <- try_except
            (_ <- execute (delete_ledger_entries asset_id) ;;
             _ <- execute (delete_asset asset_id) ;;
             commit) ;;
     match r with
     | Ok _ => ret DeleteDone
     | Raise e => ret (DeleteFailed e)
     end) d.

(** The red button, pressed by [user]. *)
Definition confirm_delete (view : CurrencyDeleteConfirmView) (user : Z) (d : DB)
  : res DeleteResponse * DB :=
  if negb (user =? dv_user view) then (Ok DeleteNotOwner, d)
  else execute_deletion view d.

(** *** cogs/role_expiry.py *)

(** A row of the SELECT over [role_purchases], [role_plans] and [users]. *)
Record ExpiredPurchase : Set :=
  { ex_purchase_id : Z; ex_guild_id : Z; ex_role_id : Z;
    ex_discord_user_id : Z }.

(** The purchases [WHERE datetime(rp.expires_at) <= datetime(now)] that join
    a plan and a user; times are on the clock of [role_plan_callback]. *)
Definition expired_purchases (now : Z) (d : DB) : list ExpiredPurchase :=
  flat_map
    (fun rp =>
       match find (fun pl => rp_id pl =? pu_plan_id rp) (rows (role_plans d)),
             find (fun u => u_id u =? pu_user_id rp) (rows (users d)) with
       | Some pl, Some u =>
           if pu_expires_at rp <=? now then
             [ {| ex_purchase_id := pu_id rp; ex_guild_id := pu_guild_id rp;
                  ex_role_id := rp_role_id pl;
                  ex_discord_user_id := u_discord_user_id u |} ]
           else []
       | _, _ => []
       end)
    (rows (role_purchases d)).

(** [DELETE FROM role_purchases WHERE id = ?]. *)
Definition delete_purchase (purchase_id : Z) (d : DB) : DB :=
  set_role_purchases
    {| rows := filter (fun p => negb (pu_id p =? purchase_id))
                 (rows (role_purchases d));
       seq := seq (role_purchases d) |} d.

(** The loop of [check_expired_roles] over the selected rows.  What it reads
    from Discord: the guilds of the bot, and [refused guild member role],
    whether [member.remove_roles(role)] raises.  A purchase record stays
    when the guild is unknown or the removal raised. *)
Fixpoint strip_expired (bot : list Guild) (refused : Z -> Z -> Z -> bool)
  (expired : list ExpiredPurchase) : M unit :=
  match expired with
  | [] => ret tt
  | x :: rest =>
      match find (fun g => g_id g =? ex_guild_id x) bot with
      | None => strip_expired bot refused rest
      | Some guild =>
          match find (fun m => m_id m =? ex_discord_user_id x) (g_members guild) with
          | None =>
              _ <- execute (delete_purchase (ex_purchase_id x)) ;;
              strip_expired bot refused rest
          | Some member =>
              if negb (existsb (Z.eqb (ex_role_id x)) (g_roles guild)) then
                _ <- execute (delete_purchase (ex_purchase_id x)) ;;
                strip_expired bot refused rest
              else if existsb (Z.eqb (ex_role_id x)) (m_roles member)
                      && refused (g_id guild) (m_id member) (ex_role_id x)
              then strip_expired bot refused rest
              else
                _ <- execute (delete_purchase (ex_purchase_id x)) ;;
                strip_expired bot refused rest
          end
      end
  end.

Definition check_expired_roles (bot : list Guild) (refused : Z -> Z -> Z -> bool)
  (now : Z) (d : DB) : res unit * DB :=
  with_connection
    (expired <- query (expired_purchases now) ;;
     _ <- strip_expired bot refused expired ;;
     commit) d.

End MoreCogs.

(** ** utils.py *)

(** [a / b] on two ints: the quotient rounded once to a double. *)
Definition true_div (a b : Z) : B64.t := B64.round (a # Z.to_pos b).

(** [math.ceil] of a double. *)
Definition ceil (x : B64.t) : Z := Qceiling (B64.value x).

Definition SALARY_MIN_MINUTES : Z := 15.
Definition SALARY_UNIT_MINUTES : Z := 15.
Definition SALARY_HOUR_TO_MINUTES : Z := 60.

Definition calculate_hours_15min_ceil (minutes : Z) : B64.t :=
  if minutes <? SALARY_MIN_MINUTES then B64.zero
  else true_div (ceil (true_div minutes SALARY_UNIT_MINUTES) * SALARY_UNIT_MINUTES)
         SALARY_HOUR_TO_MINUTES.

(** ** Notions the further properties are stated with *)

(** An INTEGER PRIMARY KEY AUTOINCREMENT column: the ids of the rows differ
    and none exceeds the largest id handed out. *)
Definition keyed {A : Type} (id : A -> Z) (t : Table A) : Prop :=
  NoDup (map id (rows t)) /\ Forall (fun r => id r <= seq t) (rows t).

(** UNIQUE(guild_id, symbol) on [assets]. *)
Definition symbols_unique (d : DB) : Prop :=
  forall a b, In a (rows (assets d)) -> In b (rows (assets d)) ->
    as_guild_id a = as_guild_id b -> as_symbol a = as_symbol b -> a = b.

(** All amounts posted in one asset, summed exactly. *)
Definition supply (asset_id : Z) (d : DB) : Q :=
  exact_sum
    (map le_amount
       (filter (fun e => le_asset_id e =? asset_id) (rows (ledger_entries d)))).

(** Whether the monthly sweep pays [m] under setting [s]. *)
Definition eligible (s : MonthlyAllowance) (m : Member) : bool :=
  existsb (Z.eqb (ma_role_id s)) (m_roles m) && negb (m_bot m).

(** Whether the expiry sweep deletes the purchase record of a selected row:
    it does unless the guild is unknown to the bot or the removal of a role
    the member holds raised. *)
Definition expiry_deletes (bot : list Guild) (refused : Z -> Z -> Z -> bool)
  (x : ExpiredPurchase) : bool :=
  match find (fun g => g_id g =? ex_guild_id x) bot with
  | None => false
  | Some guild =>
      match find (fun m => m_id m =? ex_discord_user_id x) (g_members guild) with
      | None => true
      | Some member =>
          negb (existsb (Z.eqb (ex_role_id x)) (g_roles guild)
                && existsb (Z.eqb (ex_role_id x)) (m_roles member)
                && refused (g_id guild) (m_id member) (ex_role_id x))
      end
  end.

(** A guild as the bot would see it without its bot members. *)
Definition without_bots (g : Guild) : Guild :=
  {| g_id := g_id g; g_roles := g_roles g;
     g_members := filter (fun m => negb (m_bot m)) (g_members g) |}.


(** ** Lists *)

Lemma find_none_existsb {A : Type} (p : A -> bool) (l : list A) :
  find p l = None <-> existsb p l = false.
Proof.
  induction l as [ | x l IH ]; cbn; [ tauto | ].
  destruct (p x); cbn; [ split; discriminate | exact IH ].
Qed.

Lemma find_app_last {A : Type} (p : A -> bool) (l : list A) (x : A) :
  find p (l ++ [x]) =
  match find p l with Some a => Some a | None => if p x then Some x else None end.
Proof.
  induction l as [ | y l IH ]; cbn; [ reflexivity | ].
  destruct (p y); [ reflexivity | exact IH ].
Qed.

Lemma find_insert_or_ignore {A : Type} (p : A -> bool) (row : Z -> A) (t : Table A) :
  p (row (seq t + 1)) = true ->
  find p (rows (insert_or_ignore p row t)) =
  match find p (rows t) with Some a => Some a | None => Some (row (seq t + 1)) end.
Proof.
  intros Hp. unfold insert_or_ignore.
  destruct (existsb p (rows t)) eqn:E.
  - destruct (find p (rows t)) eqn:F; [ reflexivity | ].
    apply find_none_existsb in F. congruence.
  - apply find_none_existsb in E. cbn [insert rows]. rewrite find_app_last, E, Hp.
    reflexivity.
Qed.

Lemma find_insert_or_ignore_other {A : Type} (p q : A -> bool) (row : Z -> A)
  (t : Table A) :
  p (row (seq t + 1)) = false ->
  find p (rows (insert_or_ignore q row t)) = find p (rows t).
Proof.
  intros Hp. unfold insert_or_ignore.
  destruct (existsb q (rows t)); [ reflexivity | ].
  cbn [insert rows]. rewrite find_app_last, Hp.
  destruct (find p (rows t)); reflexivity.
Qed.

Lemma filter_none {A : Type} (p : A -> bool) (l : list A) :
  Forall (fun x => p x = false) l -> filter p l = [].
Proof.
  induction 1 as [ | x l Hx _ IH ]; cbn; [ reflexivity | ].
  rewrite Hx. exact IH.
Qed.


(** ** Text *)

Lemma upper_ascii_idem (c : ascii) : upper_ascii (upper_ascii c) = upper_ascii c.
Proof. destruct c as [[] [] [] [] [] [] [] []]; reflexivity. Qed.

Lemma upper_idem (s : string) : upper (upper s) = upper s.
Proof. induction s as [ | c s IH ]; cbn; [ reflexivity | ]. now rewrite upper_ascii_idem, IH. Qed.


(** ** Decimals and doubles *)

Lemma ltb_spec (a b : Dec.t) : Dec.ltb a b = true <-> (Dec.value a < Dec.value b)%Q.
Proof.
  unfold Dec.ltb. rewrite negb_true_iff. split.
  - intros H. apply Qnot_le_lt. intros Hle. apply Qle_bool_iff in Hle. congruence.
  - intros H. destruct (Qle_bool (Dec.value b) (Dec.value a)) eqn:E; [ | reflexivity ].
    apply Qle_bool_iff in E. exfalso. exact (Qlt_not_le _ _ H E).
Qed.

Lemma leb_spec (a b : Dec.t) : Dec.leb a b = true <-> (Dec.value a <= Dec.value b)%Q.
Proof. unfold Dec.leb. apply Qle_bool_iff. Qed.

Lemma value_of_Z (n : Z) : (Dec.value (Dec.of_Z n) == inject_Z n)%Q.
Proof. unfold Dec.value, Dec.of_Z. cbn. rewrite Z.mul_1_r. reflexivity. Qed.


Lemma value_neg (q : Dec.t) :
  Z.abs (Dec.coeff q) < 10 ^ Dec.prec ->
  (Dec.value (Dec.neg q) == - Dec.value q)%Q.
Proof.
  intros H. unfold Dec.neg, Dec.fix_context. cbn [Dec.coeff Dec.expo].
  rewrite Z.abs_opp. apply Z.ltb_lt in H. rewrite H.
  unfold Dec.value. cbn [Dec.coeff Dec.expo].
  destruct (0 <=? Dec.expo q); unfold Qeq, Qopp, inject_Z; cbn [Qnum Qden]; ring.
Qed.

Lemma quantize_down_fits (x q : Dec.t) (decimals : Z) :
  Dec.quantize_down x decimals = Some q -> Z.abs (Dec.coeff q) < 10 ^ Dec.prec.
Proof.
  unfold Dec.quantize_down.
  destruct (_ <? _) eqn:E; [ | discriminate ].
  intros H. injection H as <-. cbn [Dec.coeff]. apply Z.ltb_lt. exact E.
Qed.

Lemma pow2_not_mult5 (k : Z) : 0 <= k -> (2 ^ k) mod 5 <> 0.
Proof.
  intros Hk. pattern k. apply natlike_ind; [ vm_compute; discriminate | | exact Hk ].
  intros x Hx IH. rewrite Z.pow_succ_r by exact Hx.
  rewrite <- Z.mul_mod_idemp_r by lia.
  assert (H5 : 0 <= 2 ^ x mod 5 < 5) by (apply Z.mod_pos_bound; lia).
  assert (Hc : 2 ^ x mod 5 = 1 \/ 2 ^ x mod 5 = 2 \/ 2 ^ x mod 5 = 3 \/ 2 ^ x mod 5 = 4) by lia.
  destruct Hc as [E | [E | [E | E]]]; rewrite E; vm_compute; discriminate.
Qed.

Lemma to_pos_pow2 (k : Z) : 0 <= k -> Z.pos (Z.to_pos (2 ^ k)) = 2 ^ k.
Proof. intros Hk. apply Z2Pos.id. apply Z.pow_pos_nonneg; lia. Qed.

Lemma b64_value_not_tenth (x : B64.t) : ~ (B64.value x == 1 # 10)%Q.
Proof.
  unfold B64.value. destruct (0 <=? B64.expo x) eqn:He.
  - unfold Qeq, inject_Z. cbn [Qnum Qden]. lia.
  - apply Z.leb_gt in He. unfold Qeq. cbn [Qnum Qden].
    rewrite to_pos_pow2 by lia. intros H.
    apply (pow2_not_mult5 (- B64.expo x)); [ lia | ].
    replace (2 ^ (- B64.expo x)) with (B64.mant x * 2 * 5) by lia.
    apply Z.mod_mul; lia.
Qed.

Lemma b64_value_not_2p53_1 (x : B64.t) : ~ (B64.value x == inject_Z 9007199254740993)%Q.
Proof.
  pose proof (B64.mant_ok x) as Hm. apply Z.ltb_lt in Hm.
  change (2 ^ 53) with 9007199254740992 in Hm.
  unfold B64.value. destruct (0 <=? B64.expo x) eqn:He.
  - apply Z.leb_le in He. unfold Qeq, inject_Z. cbn [Qnum Qden]. intros H.
    assert (Hc : B64.expo x = 0 \/ 0 < B64.expo x) by lia.
    destruct Hc as [E | E].
    + rewrite E in H. cbn in H. lia.
    + replace (B64.expo x) with (Z.succ (B64.expo x - 1)) in H by lia.
      rewrite Z.pow_succ_r in H by lia. lia.
  - apply Z.leb_gt in He. unfold Qeq, inject_Z. cbn [Qnum Qden].
    rewrite to_pos_pow2 by lia. intros H.
    assert (Hp : 0 < 2 ^ (- B64.expo x)) by (apply Z.pow_pos_nonneg; lia).
    nia.
Qed.

Lemma as_decimal_value (x : B64.t) : (Dec.value (B64.as_decimal x) == B64.value x)%Q.
Proof.
  unfold B64.as_decimal, B64.value, Dec.value.
  destruct (0 <=? B64.expo x) eqn:He; cbn [Dec.expo Dec.coeff].
  - cbn. rewrite Z.mul_1_r. reflexivity.
  - rewrite He. apply Z.leb_gt in He. unfold Qeq. cbn [Qnum Qden].
    rewrite to_pos_pow2 by lia.
    rewrite Z2Pos.id by (apply Z.pow_pos_nonneg; lia).
    replace 10 with (2 * 5) by reflexivity. rewrite Z.pow_mul_l. ring.
Qed.


(** ** What the coroutines of database.py compute *)

Ltac run_statements :=
  cbv beta iota delta [bind new_transaction post_ledger execute query commit
                         ret close work durable].

Lemma upsert_user_run (u : Z) (c : Conn) :
  exists uid,
    upsert_user u c
    = (Ok uid, {| durable := durable c; work := insert_user u (work c) |}).
Proof.
  unfold upsert_user, bind, execute, query. cbn [work durable].
  unfold select_user, insert_user. cbn [users set_users].
  rewrite find_insert_or_ignore by (cbn; apply Z.eqb_refl).
  destruct (find _ (rows (users (work c)))); eexists; reflexivity.
Qed.

Lemma ensure_user_account_run (u g : Z) (c : Conn) :
  exists uid,
    ensure_user_account u g c
    = (Ok (user_account_id u g (work c)),
       {| durable := durable c;
          work := insert_account (Some uid) g (user_account_name u g) "user"
                    (insert_user u (work c)) |}).
Proof.
  unfold ensure_user_account, bind.
  destruct (upsert_user_run u c) as [uid ->]. exists uid.
  unfold execute, query. cbn [work durable].
  unfold select_account, insert_account, user_account_id, account_id_or_next, select_account.
  cbn [accounts set_accounts].
  rewrite find_insert_or_ignore by (cbn; apply String.eqb_refl).
  unfold insert_user. cbn [accounts set_users].
  destruct (find _ (rows (accounts (work c)))); reflexivity.
Qed.

Lemma balance_in_ext (S : Sqlite) (d1 d2 : DB) (acc asset : Z) :
  ledger_entries d1 = ledger_entries d2 ->
  balance_in d1 acc asset = balance_in d2 acc asset.
Proof. intros H. unfold balance_in, postings. rewrite H. reflexivity. Qed.


Lemma auto_refill_run (S : Sqlite) (c : Conn) (treasury asset guild : Z)
  (required : option Dec.t) :
  auto_refill_treasury_if_needed treasury asset guild required c =
  match balance_in (work c) treasury asset with
  | Raise e => (Raise e, c)
  | Ok bal =>
      if should_refill bal required
      then (Ok true, {| durable := refilled (work c) treasury asset;
                        work := refilled (work c) treasury asset |})
      else (Ok false, c)
  end.
Proof.
  unfold auto_refill_treasury_if_needed, bind at 1, balance_of.
  destruct (balance_in (work c) treasury asset) as [bal | e]; [ | reflexivity ].
  destruct (should_refill bal required); reflexivity.
Qed.



Lemma transfer_entries_sum (d : DB) (from_acc to_acc asset_id : Z) (q : Dec.t) (a : Z) :
  Z.abs (Dec.coeff q) < 10 ^ Dec.prec ->
  (exact_sum (map le_amount
     (filter (fun e => le_asset_id e =? a) (transfer_entries d from_acc to_acc asset_id q)))
   == 0)%Q.
Proof.
  intros Hq. unfold transfer_entries. cbn [filter le_asset_id].
  destruct (asset_id =? a); cbn [map exact_sum fold_right le_amount]; [ | reflexivity ].
  rewrite value_neg by exact Hq. ring.
Qed.


(** ** What the handlers compute *)

Lemma pay_sent_run (S : Sqlite) (d d' : DB) (guild : option Z) (user to : Z)
  (symbol : string) (amount : option Dec.t) (memo : option string) (q : Dec.t) :
  pay guild user to symbol amount memo d = (Ok (PaySent q), d') ->
  exists g a to_acc tx,
    guild = Some g
    /\ select_asset (upper symbol) g d = Some a
    /\ Z.abs (Dec.coeff q) < 10 ^ Dec.prec
    /\ rows (transactions d') = (rows (transactions d) ++ [tx])%list
    /\ tx_id tx = seq (transactions d) + 1
    /\ tx_kind tx = "transfer"
    /\ rows (ledger_entries d')
       = (rows (ledger_entries d)
            ++ transfer_entries d (user_account_id user g d) to_acc (as_id a) q)%list.
Proof.
  unfold pay. destruct guild as [g | ]; [ | discriminate ].
  destruct (to =? user); [ discriminate | ].
  destruct amount as [amt | ]; [ | discriminate ].
  destruct (Dec.leb amt (Dec.of_Z 0)); [ discriminate | ].
  unfold with_connection, bind at 1, get_asset, query. cbn [work connect].
  rewrite upper_idem. destruct (select_asset (upper symbol) g d) as [a | ] eqn:Ha;
    [ | discriminate ].
  unfold bind at 1.
  destruct (ensure_user_account_run user g (connect d)) as [uid1 ->].
  unfold bind at 1.
  match goal with |- context [ensure_user_account to g ?c] =>
    destruct (ensure_user_account_run to g c) as [uid2 ->] end.
  unfold bind at 1, balance_of. cbn [work connect durable].
  destruct (balance_in _ _ _) as [bal | e]; [ | discriminate ].
  destruct (Dec.quantize_down amt (as_decimals a)) as [qamt | ] eqn:Hq; [ | discriminate ].
  destruct (Dec.ltb bal qamt); [ discriminate | ].
  unfold bind at 1.
  match goal with |- context [upsert_user user ?c] =>
    destruct (upsert_user_run user c) as [uid ->] end.
  cbv beta iota delta [bind new_transaction post_ledger execute query commit
                         ret close work durable].
  intros H. injection H as Hq' Hd. subst q d'.
  exists g, a. eexists. eexists. split; [ reflexivity | ]. split; [ exact Ha | ].
  split; [ eapply quantize_down_fits; exact Hq | ].
  cbn [insert_user insert_account set_users set_accounts set_transactions
       set_ledger_entries transactions ledger_entries insert rows seq].
  split; [ reflexivity | ]. split; [ reflexivity | ]. split; [ reflexivity | ].
  unfold transfer_entries. rewrite <- app_assoc. reflexivity.
Qed.

Lemma role_purchase_run (S : Sqlite) (d d' : DB) (panel_id plan_id g user now : Z)
  (roles : list Z) (r : PurchaseResponse) :
  role_plan_callback panel_id plan_id g user now roles d = (Ok r, d') ->
  r = Purchased \/ r = PurchasedRoleMissing ->
  exists p a treasury tx,
    select_plan plan_id panel_id d = Some p
    /\ select_asset (upper (rp_currency_symbol p)) g d = Some a
    /\ select_account (treasury_name g) d = Some treasury
    /\ rows (transactions d') = (rows (transactions d) ++ [tx])%list
    /\ tx_id tx = seq (transactions d) + 1
    /\ tx_kind tx = "role_purchase"
    /\ rows (ledger_entries d')
       = (rows (ledger_entries d)
            ++ transfer_entries d (user_account_id user g d) (a_id treasury)
                 (as_id a) (rp_price p))%list.
Proof.
  unfold role_plan_callback, with_connection, bind at 1, query. cbn [work connect].
  destruct (select_plan plan_id panel_id d) as [p | ] eqn:Hp.
  2:{ intros H [-> | ->]; discriminate H. }
  unfold bind at 1, get_asset, query. cbn [work connect].
  destruct (select_asset (upper (rp_currency_symbol p)) g d) as [a | ] eqn:Ha.
  2:{ intros H [-> | ->]; discriminate H. }
  unfold bind at 1.
  destruct (upsert_user_run user (connect d)) as [uid ->].
  unfold bind at 1.
  match goal with |- context [ensure_user_account user g ?c] =>
    destruct (ensure_user_account_run user g c) as [uid1 E] end.
  rewrite E. clear E.
  unfold bind at 1, balance_of. cbn [work connect durable].
  destruct (balance_in _ _ _) as [bal | e].
  2:{ intros H; discriminate H. }
  destruct (Dec.ltb bal (rp_price p)).
  { intros H [-> | ->]; discriminate H. }
  unfold bind at 1, account_id_by_name, bind at 1, query. cbn [work durable].
  fold (treasury_name g).
  assert (Hsel : forall uid', select_account (treasury_name g)
            (insert_account (Some uid') g (user_account_name user g) "user"
               (insert_user user (insert_user user d)))
          = select_account (treasury_name g) d).
  { intros uid'. unfold select_account, insert_account. cbn [accounts set_accounts].
    rewrite find_insert_or_ignore_other by reflexivity. reflexivity. }
  rewrite Hsel.
  destruct (select_account (treasury_name g) d) as [treasury | ] eqn:Ht.
  2:{ intros H; discriminate H. }
  run_statements.
  intros H _.
  assert (Hd : d' = snd (Ok r, d')) by reflexivity. rewrite <- H in Hd.
  clear H. exists p, a, treasury. eexists.
  split; [ first [ reflexivity | assumption ] | ].
  split; [ first [ reflexivity | assumption ] | ].
  split; [ first [ reflexivity | assumption ] | ].
  rewrite Hd.
  destruct (existsb (Z.eqb (rp_role_id p)) roles); cbn [snd];
    cbn [insert_user insert_account set_users set_accounts set_transactions
         set_ledger_entries set_role_purchases transactions ledger_entries
         insert rows seq];
    (split; [ reflexivity | ]; split; [ reflexivity | ]; split; [ reflexivity | ]);
    unfold transfer_entries; rewrite <- app_assoc; reflexivity.
Qed.


Lemma ensure_system_accounts_run (g : Z) (c : Conn) :
  exists d' t,
    ensure_system_accounts g c = (Ok tt, {| durable := durable c; work := d' |})
    /\ select_account (treasury_name g) d' = Some t
    /\ a_id t = account_id_or_next (treasury_name g) (work c)
    /\ users d' = users (work c) /\ assets d' = assets (work c)
    /\ transactions d' = transactions (work c)
    /\ ledger_entries d' = ledger_entries (work c).
Proof.
  unfold ensure_system_accounts, bind, execute. cbn [work durable].
  eexists.
  assert (Hsel : select_account (treasury_name g)
            (insert_account None g ("burn:" ++ str_of_Z g) "burn"
               (insert_account None g ("treasury:" ++ str_of_Z g) "treasury" (work c)))
          = match select_account (treasury_name g) (work c) with
            | Some a => Some a
            | None => Some {| a_id := seq (accounts (work c)) + 1; a_user_id := None;
                              a_guild_id := g; a_name := treasury_name g;
                              a_type := "treasury" |}
            end).
  { unfold select_account, insert_account. cbn [accounts set_accounts].
    rewrite find_insert_or_ignore_other by reflexivity.
    rewrite find_insert_or_ignore by (cbn; apply String.eqb_refl).
    reflexivity. }
  unfold account_id_or_next.
  destruct (select_account (treasury_name g) (work c)) as [t | ];
    eexists; (split; [ reflexivity | ]); (split; [ exact Hsel | ]); repeat split.
Qed.

Lemma create_currency_run (d : DB) (g user decimals : Z) (symbol name : string) :
  select_asset (upper symbol) g d = None ->
  exists d' uid t,
    create_currency (Some g) user symbol name decimals d
    = (Ok (Created (upper symbol)), d')
    /\ select_asset (upper symbol) g d'
       = Some {| as_id := seq (assets d) + 1; as_guild_id := g;
                 as_symbol := upper symbol; as_name := name;
                 as_decimals := decimals |}
    /\ select_account (treasury_name g) d' = Some t
    /\ a_id t = account_id_or_next (treasury_name g) d
    /\ rows (transactions d')
       = (rows (transactions d)
            ++ [ {| tx_id := seq (transactions d) + 1;
                    tx_kind := "initial_issue";
                    tx_reference := "Initial treasury balance for " ++ upper symbol;
                    tx_created_by := Some uid; tx_unique_hash := None |} ])%list
    /\ rows (ledger_entries d')
       = (rows (ledger_entries d) ++ [initial_issue_entry d g])%list.
Proof.
  intros Hnone.
  unfold create_currency, with_connection, bind at 1, get_asset, query.
  cbn [work connect]. rewrite !upper_idem, Hnone.
  unfold bind at 1, create_asset, execute_res, insert_asset. cbn [work connect durable].
  rewrite !upper_idem, Hnone.
  unfold bind at 1.
  match goal with |- context [ensure_system_accounts g ?c] =>
    destruct (ensure_system_accounts_run g c)
      as (d1 & t & -> & Ht & Hid & Hu & Has & Htx & Hle) end.
  cbn [work durable set_assets users assets transactions ledger_entries] in *.
  unfold bind at 1, query. cbn [work durable].
  assert (Hsel : select_asset (upper symbol) g d1
                 = Some {| as_id := seq (assets d) + 1; as_guild_id := g;
                           as_symbol := upper symbol; as_name := name;
                           as_decimals := decimals |}).
  { unfold select_asset. rewrite Has. cbn [insert rows].
    rewrite find_app_last. unfold select_asset in Hnone. rewrite Hnone.
    cbn [as_symbol as_guild_id]. rewrite String.eqb_refl, Z.eqb_refl. reflexivity. }
  rewrite Hsel. unfold bind at 1, account_id_by_name, bind at 1, query.
  cbn [work durable].
  change ("treasury" ++ ":" ++ str_of_Z g) with (treasury_name g). rewrite Ht.
  unfold ret at 1. unfold bind at 1.
  match goal with |- context [upsert_user user ?c] =>
    destruct (upsert_user_run user c) as [uid ->] end.
  run_statements. cbn [as_id].
  eexists. exists uid, t. split; [ reflexivity | ].
  cbn [insert_user set_users set_transactions set_ledger_entries assets
       transactions ledger_entries users accounts insert rows seq].
  assert (Hacc : account_id_or_next (treasury_name g) d = a_id t).
  { rewrite Hid. unfold account_id_or_next, select_account. reflexivity. }
  split; [ exact Hsel | ].
  split; [ exact Ht | ].
  split; [ symmetry; exact Hacc | ].
  rewrite Htx, Hle.
  split; [ reflexivity | ].
  unfold initial_issue_entry; rewrite Hacc; reflexivity.
Qed.

Lemma initial_issue_postings (d d' : DB) (g : Z) :
  asset_ids_bounded d ->
  rows (ledger_entries d')
  = (rows (ledger_entries d) ++ [initial_issue_entry d g])%list ->
  postings (account_id_or_next (treasury_name g) d) (seq (assets d) + 1) d'
  = [Dec.of_Z 1000000000].
Proof.
  intros Hwf Hrows. unfold postings. rewrite Hrows.
  rewrite filter_app, map_app, filter_none.
  - cbn [filter map app initial_issue_entry le_account_id le_asset_id le_amount].
    rewrite !Z.eqb_refl. reflexivity.
  - eapply Forall_impl; [ | exact Hwf ].
    cbn. intros e He. apply andb_false_iff. right. apply Z.eqb_neq. lia.
Qed.




(** ** The ledger claims *)

(** The texts of some amounts: a transfer of 10.00 in a 2-decimal asset and
    of 0.00000001 in an 8-decimal asset are not integer texts, the refill
    quantum is. *)
Example amount_texts :
  Dec.str (Dec.mk 1000 (-2)) = "10.00"
  /\ integer_text (Dec.mk 1000 (-2)) = false
  /\ Dec.str (Dec.mk 1 (-8)) = "1E-8"
  /\ integer_text (Dec.mk 1 (-8)) = false
  /\ Dec.str refill_amount = "1000000000"
  /\ integer_text refill_amount = true.
Proof. repeat split. Qed.

(** C2, at a failing input: [balance_of] does not return the exact sum.
    A ledger holds one posting of 0.1 for (account 1, asset 1), so the exact
    sum is 1/10.  Whatever double the library's [sum()] produces,
    [balance_of] returns the decimal expansion of that double, and no double
    equals 1/10. *)
Theorem balance_of_rounds_through_float (S : Sqlite) :
  (exact_sum (postings 1 1 tenth_ledger) == 1 # 10)%Q /\
  exists b, balance_in tenth_ledger 1 1 = Ok b /\
            ~ (Dec.value b == exact_sum (postings 1 1 tenth_ledger))%Q.
Proof.
  split; [ reflexivity | ].
  exists (B64.as_decimal (real_sum [Dec.mk 1 (-1)])). split; [ reflexivity | ].
  rewrite as_decimal_value. intros H.
  apply (b64_value_not_tenth (real_sum [Dec.mk 1 (-1)])).
  rewrite H. reflexivity.
Qed.

(** With the plain accumulation the value returned for that ledger is
    0.1000000000000000055511151231257827021181583404541015625. *)
Example plain_balance_of_tenth :
  @balance_in plain_sqlite tenth_ledger 1 1
  = Ok (Dec.mk 10000000000000000555111512312578270211815834045410156250 (-56)).
Proof. vm_compute. reflexivity. Qed.

(** Where [balance_of] is exact: without postings it is zero, and on
    postings that are all integer texts it is their sum, unless the 64-bit
    accumulator overflows. *)
Lemma balance_in_no_postings (S : Sqlite) (d : DB) (account_id asset_id : Z) :
  postings account_id asset_id d = [] ->
  balance_in d account_id asset_id = Ok (Dec.of_Z 0).
Proof. intros H. unfold balance_in. rewrite H. reflexivity. Qed.

Lemma integer_text_value (x : Dec.t) :
  integer_text x = true -> (Dec.value x == inject_Z (Dec.coeff x))%Q.
Proof.
  unfold integer_text. intros H. apply andb_true_iff in H as [He _].
  apply Z.eqb_eq in He. unfold Dec.value. rewrite He.
  change (0 <=? 0) with true. cbv iota. rewrite Z.pow_0_r, Z.mul_1_r. reflexivity.
Qed.

Lemma int_sum_exact (l : list Dec.t) (acc s : Z) :
  forallb integer_text l = true ->
  int_sum acc (map Dec.coeff l) = Some s ->
  (inject_Z s == inject_Z acc + exact_sum l)%Q.
Proof.
  revert acc. induction l as [ | x l IH ]; intros acc Hall Hsum.
  - cbn in Hsum. injection Hsum as <-. cbn [exact_sum fold_right].
    rewrite Qplus_0_r. reflexivity.
  - cbn [forallb] in Hall. apply andb_true_iff in Hall as [Hx Hl].
    cbn [map int_sum] in Hsum.
    destruct (in_int64 (acc + Dec.coeff x)); [ | discriminate ].
    rewrite (IH _ Hl Hsum). cbn [exact_sum fold_right].
    rewrite (integer_text_value x Hx), inject_Z_plus, Qplus_assoc. reflexivity.
Qed.

Lemma balance_in_integers (S : Sqlite) (d : DB) (account_id asset_id : Z) (b : Dec.t) :
  forallb integer_text (postings account_id asset_id d) = true ->
  balance_in d account_id asset_id = Ok b ->
  (Dec.value b == exact_sum (postings account_id asset_id d))%Q.
Proof.
  intros Hall. unfold balance_in, sql_sum.
  destruct (postings account_id asset_id d) as [ | x l ] eqn:E.
  - intros H. injection H as <-. reflexivity.
  - rewrite Hall.
    destruct (int_sum 0 (map Dec.coeff (x :: l))) as [s | ] eqn:Hs; [ | discriminate ].
    intros H. injection H as <-. cbn [coalesce decimal_of_sql].
    rewrite value_of_Z, (int_sum_exact _ _ _ Hall Hs). apply Qplus_0_l.
Qed.

(** C3, at a failing input: a credit of X followed by a debit of X moves
    the balance.  Account 1 holds one posting of 9007199254740993 (an
    integer text, summed exactly); after a credit and a debit of 0.00000001
    the sum is a double, and no double equals 9007199254740993. *)
Theorem credit_then_debit_drifts (S : Sqlite) :
  let x := Dec.mk 1 (-8) in
  let c := connect big_ledger in
  let c' := snd (credit_then_debit 2 1 1 x c) in
  exists before after,
    balance_in (work c) 1 1 = Ok before /\
    balance_in (work c') 1 1 = Ok after /\
    (Dec.value before == inject_Z 9007199254740993)%Q /\
    ~ (Dec.value after == Dec.value before)%Q.
Proof.
  intros x c c'.
  exists (Dec.of_Z 9007199254740993).
  exists (B64.as_decimal
            (real_sum [Dec.of_Z 9007199254740993; Dec.mk 1 (-8); Dec.mk (-1) (-8)])).
  split; [ reflexivity | ]. split; [ reflexivity | ]. split; [ reflexivity | ].
  rewrite as_decimal_value. intros H.
  apply (b64_value_not_2p53_1 _ H).
Qed.

(** With the plain accumulation small amounts drift as well: a balance of
    0.1, a credit of 0.2 and a debit of 0.2 leave
    0.1000000000000000333..., not 0.1000000000000000055... *)
Example plain_credit_then_debit :
  let c' := snd (credit_then_debit 2 1 1 (Dec.mk 2 (-1)) (connect tenth_ledger)) in
  @balance_in plain_sqlite (work c') 1 1
  = Ok (B64.as_decimal (B64.make 7205759403792796 (-56)))
  /\ @balance_in plain_sqlite tenth_ledger 1 1
     = Ok (B64.as_decimal (B64.make 7205759403792794 (-56))).
Proof. split; vm_compute; reflexivity. Qed.



(** C5: a debit larger than the balance is refused and nothing is written.
    In [/pay] and in the role-plan purchase, when the amount to debit
    exceeds what [balance_of] returns for the payer, the handler answers
    with the insufficient-balance message and the database file is the one
    it started from. *)
Theorem insufficient_balance_rejected (S : Sqlite) :
  (forall d g user to symbol amt memo a qamt bal,
      to <> user ->
      (0 < Dec.value amt)%Q ->
      select_asset (upper symbol) g d = Some a ->
      Dec.quantize_down amt (as_decimals a) = Some qamt ->
      balance_in d (user_account_id user g d) (as_id a) = Ok bal ->
      (Dec.value bal < Dec.value qamt)%Q ->
      pay (Some g) user to symbol (Some amt) memo d
      = (Ok (PayInsufficient bal), d))
  /\
  (forall d panel_id plan_id g user now roles p a bal,
      select_plan plan_id panel_id d = Some p ->
      select_asset (upper (rp_currency_symbol p)) g d = Some a ->
      balance_in d (user_account_id user g d) (as_id a) = Ok bal ->
      (Dec.value bal < Dec.value (rp_price p))%Q ->
      role_plan_callback panel_id plan_id g user now roles d
      = (Ok (PurchaseInsufficient (rp_price p) bal), d)).
Proof.
  split.
  - intros d g user to symbol amt memo a qamt bal Hto Hamt Ha Hq Hb Hlt.
    unfold pay. apply Z.eqb_neq in Hto. rewrite Hto.
    assert (Hle : Dec.leb amt (Dec.of_Z 0) = false).
    { destruct (Dec.leb amt (Dec.of_Z 0)) eqn:E; [ | reflexivity ].
      apply leb_spec in E. rewrite value_of_Z in E.
      exfalso. exact (Qlt_not_le _ _ Hamt E). }
    rewrite Hle. unfold with_connection, bind at 1, get_asset, query.
    cbn [work connect]. rewrite upper_idem, Ha.
    unfold bind at 1.
    destruct (ensure_user_account_run user g (connect d)) as [uid1 ->].
    unfold bind at 1.
    match goal with |- context [ensure_user_account to g ?c] =>
      destruct (ensure_user_account_run to g c) as [uid2 ->] end.
    unfold bind at 1, balance_of. cbn [work connect durable].
    rewrite (balance_in_ext S _ d) by reflexivity.
    rewrite Hb, Hq. apply ltb_spec in Hlt. rewrite Hlt. reflexivity.
  - intros d panel_id plan_id g user now roles p a bal Hp Ha Hb Hlt.
    unfold role_plan_callback, with_connection, bind at 1, query.
    cbn [work connect]. rewrite Hp.
    unfold bind at 1, get_asset, query. cbn [work connect]. rewrite Ha.
    unfold bind at 1.
    destruct (upsert_user_run user (connect d)) as [uid0 ->].
    unfold bind at 1.
    match goal with |- context [ensure_user_account user g ?c] =>
      destruct (ensure_user_account_run user g c) as [uid1 E] end.
    rewrite E. clear E.
    unfold bind at 1, balance_of. cbn [work connect durable].
    assert (Hid : user_account_id user g (insert_user user d)
                  = user_account_id user g d) by reflexivity.
    rewrite Hid.
    rewrite (balance_in_ext S _ d) by reflexivity.
    rewrite Hb. apply ltb_spec in Hlt. rewrite Hlt. reflexivity.
Qed.

(** User 42 holds 10.00 GOLD: a payment of 10.01 and the purchase of a plan
    priced 10.01 are both refused, the file untouched. *)
Lemma insufficient_balance_rejected_witness :
  @pay plain_sqlite (Some 1) 42 43 "gold" (Some (Dec.mk 1001 (-2))) None alice_db
  = (Ok (PayInsufficient (B64.as_decimal (B64.make 5629499534213120 (-49)))),
     alice_db)
  /\ @role_plan_callback plain_sqlite 1 1 1 42 0 [7] shop_db
     = (Ok (PurchaseInsufficient (Dec.mk 1001 (-2))
              (B64.as_decimal (B64.make 5629499534213120 (-49)))), shop_db).
Proof.
  split.
  - apply (proj1 (insufficient_balance_rejected plain_sqlite)
             alice_db 1 42 43 "gold" (Dec.mk 1001 (-2)) None
             {| as_id := 1; as_guild_id := 1; as_symbol := "GOLD";
                as_name := "Gold coin"; as_decimals := 2 |}
             (Dec.mk 1001 (-2))).
    + discriminate.
    + reflexivity.
    + reflexivity.
    + reflexivity.
    + vm_compute. reflexivity.
    + reflexivity.
  - apply (proj2 (insufficient_balance_rejected plain_sqlite)
             shop_db 1 1 1 42 0 [7]
             {| rp_id := 1; rp_panel_id := 1; rp_plan_name := "VIP";
                rp_role_id := 7; rp_price := Dec.mk 1001 (-2);
                rp_currency_symbol := "GOLD";
                rp_duration_hours := 24; rp_guild_id := 1 |}
             {| as_id := 1; as_guild_id := 1; as_symbol := "GOLD";
                as_name := "Gold coin"; as_decimals := 2 |}).
    + reflexivity.
    + reflexivity.
    + vm_compute. reflexivity.
    + reflexivity.
Defined.

(** C10: creating a currency issues 1000000000 to the treasury.  When the
    guild has no asset of that symbol, [/create] adds the asset, one
    transaction of kind initial_issue and one posting of 1000000000 on the
    guild's treasury account, and [balance_of] for the treasury and the new
    asset is then exactly 1000000000. *)
Theorem create_currency_issues_initial_supply (S : Sqlite) (d : DB)
  (g user decimals : Z) (symbol name : string) :
  asset_ids_bounded d ->
  select_asset (upper symbol) g d = None ->
  exists d' uid t,
    create_currency (Some g) user symbol name decimals d
    = (Ok (Created (upper symbol)), d')
    /\ select_asset (upper symbol) g d'
       = Some {| as_id := seq (assets d) + 1; as_guild_id := g;
                 as_symbol := upper symbol; as_name := name;
                 as_decimals := decimals |}
    /\ select_account (treasury_name g) d' = Some t
    /\ rows (transactions d')
       = (rows (transactions d)
            ++ [ {| tx_id := seq (transactions d) + 1;
                    tx_kind := "initial_issue";
                    tx_reference := "Initial treasury balance for " ++ upper symbol;
                    tx_created_by := Some uid; tx_unique_hash := None |} ])%list
    /\ rows (ledger_entries d')
       = (rows (ledger_entries d)
            ++ [ {| le_id := seq (ledger_entries d) + 1;
                    le_tx_id := seq (transactions d) + 1;
                    le_account_id := a_id t;
                    le_asset_id := seq (assets d) + 1;
                    le_amount := Dec.of_Z 1000000000 |} ])%list
    /\ postings (a_id t) (seq (assets d) + 1) d' = [Dec.of_Z 1000000000]
    /\ balance_in d' (a_id t) (seq (assets d) + 1) = Ok (Dec.of_Z 1000000000).
Proof.
  intros Hwf Hnone.
  destruct (create_currency_run d g user decimals symbol name Hnone)
    as (d' & uid & t & Hrun & Hasset & Ht & Hid & Htx & Hle).
  exists d', uid, t.
  pose proof (initial_issue_postings d d' g Hwf Hle) as Hpost.
  rewrite <- Hid in Hpost.
  split; [ exact Hrun | ]. split; [ exact Hasset | ]. split; [ exact Ht | ].
  split; [ exact Htx | ].
  split; [ rewrite Hle, Hid; reflexivity | ].
  split; [ exact Hpost | ].
  unfold balance_in. rewrite Hpost. reflexivity.
Qed.

(** The first currency of guild 1, created on an empty file. *)
Lemma create_currency_issues_initial_supply_witness :
  asset_ids_bounded empty_db /\ select_asset (upper "gold") 1 empty_db = None
  /\ exists d' uid t,
       create_currency (Some 1) 42 "gold" "Gold coin" 2 empty_db
       = (Ok (Created (upper "gold")), d')
       /\ select_asset (upper "gold") 1 d'
          = Some {| as_id := seq (assets empty_db) + 1; as_guild_id := 1;
                    as_symbol := upper "gold"; as_name := "Gold coin";
                    as_decimals := 2 |}
       /\ select_account (treasury_name 1) d' = Some t
       /\ rows (transactions d')
          = (rows (transactions empty_db)
               ++ [ {| tx_id := seq (transactions empty_db) + 1;
                       tx_kind := "initial_issue";
                       tx_reference := "Initial treasury balance for " ++ upper "gold";
                       tx_created_by := Some uid; tx_unique_hash := None |} ])%list
       /\ rows (ledger_entries d')
          = (rows (ledger_entries empty_db)
               ++ [ {| le_id := seq (ledger_entries empty_db) + 1;
                       le_tx_id := seq (transactions empty_db) + 1;
                       le_account_id := a_id t;
                       le_asset_id := seq (assets empty_db) + 1;
                       le_amount := Dec.of_Z 1000000000 |} ])%list
       /\ postings (a_id t) (seq (assets empty_db) + 1) d' = [Dec.of_Z 1000000000]
       /\ @balance_in plain_sqlite d' (a_id t) (seq (assets empty_db) + 1)
          = Ok (Dec.of_Z 1000000000).
Proof.
  split; [ constructor | ]. split; [ reflexivity | ].
  apply (create_currency_issues_initial_supply plain_sqlite empty_db 1 42 2
           "gold" "Gold coin").
  - constructor.
  - reflexivity.
Defined.





(** C6, at a failing input: the allowance is paid twice for one period.
    The sweep looks the history up under the member's Discord id (42) while
    [transfer_allowance] writes the row under the internal [users.id] (1),
    so the second sweep of the same month finds no record and pays user 42
    again; this holds with and without a uniqueness constraint on the
    history table. *)
Theorem allowance_paid_twice (S : Sqlite) :
  let d1 := snd (execute_monthly_allowances guild_at_first_run "2025-01" payroll_db) in
  let d2 := snd (execute_monthly_allowances guild_at_second_run "2025-01" d1) in
  user_account_id 42 1 d1 = 3
  /\ postings 3 1 d1 = [Dec.of_Z 100]
  /\ (exists h, select_history 1 7 1 1 "2025-01" d1 = Some h)
  /\ select_history 1 7 42 1 "2025-01" d1 = None
  /\ postings 3 1 d2 = [Dec.of_Z 100; Dec.of_Z 100].
Proof.
  destruct S as [rs [ | ]]; vm_compute;
    (split; [ reflexivity | ]); (split; [ reflexivity | ]);
    (split; [ eexists; reflexivity | ]); split; reflexivity.
Qed.

(** With the constraint and the same members, the second sweep fails on the
    INSERT after it has posted; nothing later commits, so the close drops
    the postings, and the sweep counts a failure. *)
Example allowance_second_sweep_constrained :
  let r1 := @execute_monthly_allowances constrained_sqlite guild_at_first_run
              "2025-01" payroll_db in
  let r2 := @execute_monthly_allowances constrained_sqlite guild_at_first_run
              "2025-01" (snd r1) in
  fst r2 = Ok (0, 1) /\ snd r2 = snd r1.
Proof. vm_compute. split; reflexivity. Qed.

(** Without the constraint the same members are simply paid again. *)
Example same_members_paid_again :
  let d1 := snd (@execute_monthly_allowances plain_sqlite guild_at_first_run
                   "2025-01" payroll_db) in
  let d2 := snd (@execute_monthly_allowances plain_sqlite guild_at_first_run
                   "2025-01" d1) in
  postings 3 1 d2 = [Dec.of_Z 100; Dec.of_Z 100]
  /\ List.length (rows (monthly_allowance_history d2)) = 2%nat.
Proof. vm_compute. split; reflexivity. Qed.

(** C7, a counterexample: the refill commits the caller's pending writes.
    The caller has inserted user 43 and not committed; the refill's commit
    makes that row durable. *)
Lemma refill_commits_pending_writes :
  let u := {| u_id := 2; u_discord_user_id := 43 |} in
  let c' := snd (@auto_refill_treasury_if_needed plain_sqlite 1 1 1
                   (Some (Dec.of_Z 2000000000)) caller_conn) in
  In u (rows (users (work caller_conn)))
  /\ ~ In u (rows (users (durable caller_conn)))
  /\ In u (rows (users (durable c'))).
Proof.
  vm_compute. split; [ right; left; reflexivity | ].
  split; [ | right; left; reflexivity ].
  intros [H | []]. discriminate H.
Qed.

(** C7, as the code has it: a refill commits the connection it is given.
    After it the file holds the caller's whole working image together with
    the refill transaction and its posting, nothing is left pending, and a
    later rollback or close of the connection keeps all of it. *)
Theorem refill_commits_the_connection (S : Sqlite) (c c' : Conn)
  (treasury_acc_id asset_id guild_id : Z) (required : option Dec.t) :
  auto_refill_treasury_if_needed treasury_acc_id asset_id guild_id required c
  = (Ok true, c') ->
  durable c' = refilled (work c) treasury_acc_id asset_id
  /\ work c' = durable c'
  /\ users (durable c') = users (work c)
  /\ accounts (durable c') = accounts (work c)
  /\ In (refill_entry_row (work c) treasury_acc_id asset_id)
       (rows (ledger_entries (durable c')))
  /\ durable (rollback c') = durable c'
  /\ close (rollback c') = durable c'.
Proof.
  intros Hrun. rewrite auto_refill_run in Hrun.
  destruct (balance_in (work c) treasury_acc_id asset_id) as [bal | e];
    [ | discriminate ].
  destruct (should_refill bal required); [ | discriminate ].
  injection Hrun as <-. cbn [durable work rollback close].
  split; [ reflexivity | ]. split; [ reflexivity | ].
  split; [ reflexivity | ]. split; [ reflexivity | ].
  split; [ | split; reflexivity ].
  unfold refilled. cbn [ledger_entries set_ledger_entries insert rows].
  apply in_or_app. right. left. reflexivity.
Qed.

(** The refill of [caller_conn]. *)
Lemma refill_commits_the_connection_witness :
  let c' := snd (@auto_refill_treasury_if_needed plain_sqlite 1 1 1
                   (Some (Dec.of_Z 2000000000)) caller_conn) in
  durable c' = refilled (work caller_conn) 1 1
  /\ work c' = durable c'
  /\ users (durable c') = users (work caller_conn)
  /\ accounts (durable c') = accounts (work caller_conn)
  /\ In (refill_entry_row (work caller_conn) 1 1)
       (rows (ledger_entries (durable c')))
  /\ durable (rollback c') = durable c'
  /\ close (rollback c') = durable c'.
Proof.
  apply (refill_commits_the_connection plain_sqlite caller_conn _ 1 1 1
           (Some (Dec.of_Z 2000000000))).
  vm_compute. reflexivity.
Defined.

(** ** Asset symbols *)





(** ** Concurrent callers of ensure_user_account *)



Lemma find_insert_or_ignore_some {A : Type} (p q : A -> bool) (row : Z -> A)
  (t : Table A) (a : A) :
  find p (rows t) = Some a -> find p (rows (insert_or_ignore q row t)) = Some a.
Proof.
  intros H. unfold insert_or_ignore. destruct (existsb q (rows t)); [ exact H | ].
  cbn [insert rows]. rewrite find_app_last, H. reflexivity.
Qed.










(** Progress: every step of a call moves it one statement on. *)







(** The coroutine is the four statements run one after the other. *)
Lemma ensure_user_account_as_steps (u g : Z) (c : Conn) :
  run_schedule u g [0; 0; 0; 0]%nat [AtInsertUser] (work c)
  = ([match fst (ensure_user_account u g c) with
      | Ok account_id => Returned account_id
      | Raise e => Failed e
      end], work (snd (ensure_user_account u g c))).
Proof.
  unfold ensure_user_account, upsert_user, bind, execute, query, ret, raise.
  cbn [run_schedule step_nth call_step work durable].
  destruct (select_user u (insert_user u (work c))) as [x | ];
    cbn [run_schedule step_nth call_step work durable fst snd]; [ | reflexivity ].
  destruct (select_account (user_account_name u g) _) as [a | ]; reflexivity.
Qed.



(** Three calls in a row on one connection return the same id. *)
Example ensure_user_account_thrice :
  fst ((a <- ensure_user_account 42 1 ;;
        b <- ensure_user_account 42 1 ;;
        c <- ensure_user_account 42 1 ;;
        ret (a, b, c)) (connect gold_db))
  = Ok (3, 3, 3).
Proof. reflexivity. Qed.

(** * Further properties of the code *)

(** ** Primary keys *)

Lemma keyed_inj {A : Type} (id : A -> Z) (t : Table A) (x y : A) :
  keyed id t -> In x (rows t) -> In y (rows t) -> id x = id y -> x = y.
Proof.
  intros [Hnd _]. induction (rows t) as [ | r l IH ]; cbn; [ tauto | ].
  cbn in Hnd. inversion Hnd as [ | ? ? Hnotin Hnd' ]; subst.
  intros [-> | Hx] [-> | Hy] E.
  - reflexivity.
  - exfalso. apply Hnotin. rewrite E. apply in_map. exact Hy.
  - exfalso. apply Hnotin. rewrite <- E. apply in_map. exact Hx.
  - apply IH; assumption.
Qed.

Lemma keyed_insert {A : Type} (id : A -> Z) (row : Z -> A) (t : Table A) :
  (forall i, id (row i) = i) -> keyed id t -> keyed id (insert row t).
Proof.
  intros Hid [Hnd Hb]. unfold keyed, insert. cbn [rows seq]. split.
  - rewrite map_app. cbn [map]. rewrite Hid.
    apply NoDup_app; [ exact Hnd | repeat constructor; cbn; tauto | ].
    intros a Ha [<- | []]. apply in_map_iff in Ha. destruct Ha as (r & Hr & Hin).
    rewrite Forall_forall in Hb. specialize (Hb r Hin). lia.
  - apply Forall_app. split.
    + eapply Forall_impl; [ | exact Hb ]. cbn. intros r Hr. lia.
    + constructor; [ rewrite Hid; lia | constructor ].
Qed.

Lemma keyed_insert_or_ignore {A : Type} (id : A -> Z) (p : A -> bool)
  (row : Z -> A) (t : Table A) :
  (forall i, id (row i) = i) -> keyed id t -> keyed id (insert_or_ignore p row t).
Proof.
  intros Hid Hk. unfold insert_or_ignore.
  destruct (existsb p (rows t)); [ exact Hk | apply keyed_insert; assumption ].
Qed.

Lemma insert_or_ignore_idem {A : Type} (p : A -> bool) (row : Z -> A) (t : Table A) :
  p (row (seq t + 1)) = true ->
  insert_or_ignore p row (insert_or_ignore p row t) = insert_or_ignore p row t.
Proof.
  intros Hp. unfold insert_or_ignore.
  destruct (existsb p (rows t)) eqn:E.
  - rewrite E. reflexivity.
  - cbn [insert rows]. rewrite existsb_app. cbn [existsb].
    rewrite Hp, orb_true_r. reflexivity.
Qed.

Lemma insert_user_idem (u : Z) (d : DB) :
  insert_user u (insert_user u d) = insert_user u d.
Proof.
  unfold insert_user. cbn [users set_users]. rewrite insert_or_ignore_idem.
  - reflexivity.
  - cbn. apply Z.eqb_refl.
Qed.

(** What [upsert_user] returns is the id of the row it leaves. *)
Lemma upsert_user_spec (u uid : Z) (c c1 : Conn) :
  upsert_user u c = (Ok uid, c1) ->
  c1 = {| durable := durable c; work := insert_user u (work c) |}
  /\ exists x, select_user u (work c1) = Some x /\ u_id x = uid.
Proof.
  unfold upsert_user, bind, execute, query. cbn [work durable].
  destruct (select_user u (insert_user u (work c))) as [x | ] eqn:E;
    unfold ret, raise; intros H; [ | discriminate ].
  injection H as <- <-. split; [ reflexivity | ]. cbn [work]. exists x. split; [ exact E | reflexivity ].
Qed.

(** X1 (database.py, upsert_user): registering a user is idempotent.  The
    call always returns an id; a second call on the same connection returns
    the same id and leaves the connection as it was, and neither call
    commits. *)
Theorem upsert_user_idempotent (u : Z) (c : Conn) :
  exists uid c1,
    upsert_user u c = (Ok uid, c1)
    /\ upsert_user u c1 = (Ok uid, c1)
    /\ durable c1 = durable c.
Proof.
  destruct (upsert_user_run u c) as [uid H]. exists uid. eexists.
  split; [ exact H | ]. split; [ | reflexivity ].
  apply upsert_user_spec in H. destruct H as [_ (x & Hx & Hid)]. cbn [work] in Hx.
  unfold upsert_user, bind, execute, query. cbn [work durable].
  rewrite insert_user_idem, Hx, Hid. reflexivity.
Qed.

Lemma select_user_kept (u v : Z) (d : DB) (x : User) :
  select_user u d = Some x -> select_user u (insert_user v d) = Some x.
Proof.
  unfold select_user, insert_user. cbn [users set_users]. intros H.
  unfold insert_or_ignore. destruct (existsb _ _); [ exact H | ].
  cbn [insert rows]. rewrite find_app_last, H. reflexivity.
Qed.

Lemma insert_user_keyed (u : Z) (d : DB) :
  keyed u_id (users d) -> keyed u_id (users (insert_user u d)).
Proof.
  intros H. unfold insert_user. cbn [users set_users].
  apply keyed_insert_or_ignore; [ reflexivity | exact H ].
Qed.

(** X2 (database.py, upsert_user): two different Discord users get
    different internal ids, on a users table whose ids are distinct and
    were handed out by AUTOINCREMENT. *)
Theorem upsert_user_ids_differ (u1 u2 uid1 uid2 : Z) (c c1 c2 : Conn) :
  keyed u_id (users (work c)) ->
  u1 <> u2 ->
  upsert_user u1 c = (Ok uid1, c1) ->
  upsert_user u2 c1 = (Ok uid2, c2) ->
  uid1 <> uid2.
Proof.
  intros Hk Hne H1 H2.
  apply upsert_user_spec in H1. destruct H1 as [-> (x1 & Hx1 & <-)].
  apply upsert_user_spec in H2. destruct H2 as [-> (x2 & Hx2 & <-)].
  cbn [work] in *.
  apply (select_user_kept u1 u2) in Hx1.
  assert (Hk2 : keyed u_id (users (insert_user u2 (insert_user u1 (work c)))))
    by (do 2 apply insert_user_keyed; exact Hk).
  unfold select_user in Hx1, Hx2.
  apply find_some in Hx1. apply find_some in Hx2.
  destruct Hx1 as [Hin1 Hp1]. destruct Hx2 as [Hin2 Hp2].
  apply Z.eqb_eq in Hp1. apply Z.eqb_eq in Hp2.
  intros E. apply Hne.
  pose proof (keyed_inj _ _ _ _ Hk2 Hin1 Hin2 E) as Hx. subst x2. congruence.
Qed.

Ltac keyed_rows :=
  vm_compute; split;
  [ repeat (constructor;
            [ let H := fresh in
              intros H; cbn in H;
              repeat (destruct H as [H | H]; [ discriminate H | ]); exact H
            | ]); constructor
  | repeat (constructor; [ discriminate | ]); constructor ].

Lemma upsert_user_ids_differ_witness :
  exists uid1 uid2 c1 c2,
    keyed u_id (users (work (connect gold_db)))
    /\ upsert_user 42 (connect gold_db) = (Ok uid1, c1)
    /\ upsert_user 43 c1 = (Ok uid2, c2)
    /\ uid1 <> uid2.
Proof.
  exists 1, 2. do 2 eexists.
  assert (Hk : keyed u_id (users (work (connect gold_db)))) by keyed_rows.
  assert (H1 : upsert_user 42 (connect gold_db)
               = (Ok 1, snd (upsert_user 42 (connect gold_db))))
    by (vm_compute; reflexivity).
  assert (H2 : upsert_user 43 (snd (upsert_user 42 (connect gold_db)))
               = (Ok 2, snd (upsert_user 43 (snd (upsert_user 42 (connect gold_db))))))
    by (vm_compute; reflexivity).
  split; [ exact Hk | ]. split; [ exact H1 | ]. split; [ exact H2 | ].
  exact (upsert_user_ids_differ 42 43 1 2 _ _ _ Hk ltac:(discriminate) H1 H2).
Defined.

(** ** System accounts *)

Lemma insert_account_keyed (uid : option Z) (g : Z) (name type : string) (d : DB) :
  keyed a_id (accounts d) -> keyed a_id (accounts (insert_account uid g name type d)).
Proof.
  intros H. unfold insert_account. cbn [accounts set_accounts].
  apply keyed_insert_or_ignore; [ reflexivity | exact H ].
Qed.

Lemma select_account_inserted (uid : option Z) (g : Z) (name type : string) (d : DB) :
  exists a, select_account name (insert_account uid g name type d) = Some a
            /\ a_name a = name.
Proof.
  unfold select_account, insert_account. cbn [accounts set_accounts].
  rewrite find_insert_or_ignore by (cbn; apply String.eqb_refl).
  destruct (find _ (rows (accounts d))) as [a | ] eqn:E.
  - exists a. split; [ reflexivity | ]. apply find_some in E. destruct E as [_ E].
    apply String.eqb_eq in E. exact E.
  - eexists. split; reflexivity.
Qed.

Lemma select_account_kept (uid : option Z) (g : Z) (name name' type : string)
  (d : DB) (a : Account) :
  select_account name d = Some a ->
  select_account name (insert_account uid g name' type d) = Some a.
Proof.
  unfold select_account, insert_account. cbn [accounts set_accounts].
  apply find_insert_or_ignore_some.
Qed.

Lemma insert_account_present (uid : option Z) (g : Z) (name type : string)
  (d : DB) (a : Account) :
  select_account name d = Some a -> insert_account uid g name type d = d.
Proof.
  unfold select_account, insert_account, insert_or_ignore. intros H.
  destruct (existsb _ _) eqn:E.
  - destruct d; reflexivity.
  - apply find_none_existsb in E. congruence.
Qed.

(** Two account rows found under different names have different ids. *)
Lemma account_ids_differ (d : DB) (n1 n2 : string) (a1 a2 : Account) :
  keyed a_id (accounts d) ->
  select_account n1 d = Some a1 -> select_account n2 d = Some a2 ->
  n1 <> n2 -> a_id a1 <> a_id a2.
Proof.
  intros Hk H1 H2 Hne E. unfold select_account in H1, H2.
  apply find_some in H1. apply find_some in H2.
  destruct H1 as [Hin1 Hp1]. destruct H2 as [Hin2 Hp2].
  apply String.eqb_eq in Hp1. apply String.eqb_eq in Hp2.
  pose proof (keyed_inj _ _ _ _ Hk Hin1 Hin2 E). subst a2. congruence.
Qed.

(** X3 (database.py, ensure_guild_setup, ensure_system_accounts,
    account_id_by_name): after the guild setup the treasury and the burn
    account of the guild are found, under two different ids, and setting
    the guild up a second time changes nothing. *)
Theorem guild_setup_accounts (g : Z) (d : DB) :
  keyed a_id (accounts d) ->
  exists d1 t b,
    ensure_guild_setup g d = (Ok tt, d1)
    /\ account_id_by_name "treasury" g (connect d1) = (Ok t, connect d1)
    /\ account_id_by_name "burn" g (connect d1) = (Ok b, connect d1)
    /\ t <> b
    /\ ensure_guild_setup g d1 = (Ok tt, d1).
Proof.
  intros Hk.
  set (d0 := insert_account None g ("treasury:" ++ str_of_Z g) "treasury" d).
  set (d1 := insert_account None g ("burn:" ++ str_of_Z g) "burn" d0).
  destruct (select_account_inserted None g ("treasury:" ++ str_of_Z g) "treasury" d)
    as (t & Ht & Htn).
  fold d0 in Ht.
  apply (select_account_kept None g _ ("burn:" ++ str_of_Z g) "burn") in Ht. fold d1 in Ht.
  destruct (select_account_inserted None g ("burn:" ++ str_of_Z g) "burn" d0)
    as (b & Hb & Hbn).
  fold d1 in Hb.
  assert (Hk1 : keyed a_id (accounts d1)) by (do 2 apply insert_account_keyed; exact Hk).
  exists d1, (a_id t), (a_id b).
  split; [ reflexivity | ].
  split.
  { unfold account_id_by_name, bind, query. cbn [work connect].
    change ("treasury" ++ ":" ++ str_of_Z g) with ("treasury:" ++ str_of_Z g).
    rewrite Ht. reflexivity. }
  split.
  { unfold account_id_by_name, bind, query. cbn [work connect].
    change ("burn" ++ ":" ++ str_of_Z g) with ("burn:" ++ str_of_Z g).
    rewrite Hb. reflexivity. }
  split.
  { apply (account_ids_differ d1 _ _ t b Hk1 Ht Hb). cbn. intros E. discriminate E. }
  unfold ensure_guild_setup, with_connection, ensure_system_accounts, bind, execute,
    commit, close. cbn [work connect durable].
  f_equal.
  rewrite (insert_account_present _ _ _ _ _ _ Ht).
  rewrite (insert_account_present _ _ _ _ _ _ Hb). reflexivity.
Qed.

Lemma guild_setup_accounts_witness :
  keyed a_id (accounts empty_db)
  /\ exists d1 t b,
       ensure_guild_setup 1 empty_db = (Ok tt, d1)
       /\ account_id_by_name "treasury" 1 (connect d1) = (Ok t, connect d1)
       /\ account_id_by_name "burn" 1 (connect d1) = (Ok b, connect d1)
       /\ t <> b
       /\ ensure_guild_setup 1 d1 = (Ok tt, d1).
Proof.
  assert (Hk : keyed a_id (accounts empty_db)) by (split; constructor).
  split; [ exact Hk | ].
  exact (guild_setup_accounts 1 empty_db Hk).
Defined.

(** ** Assets *)

(** X4 (database.py, create_asset, get_asset, get_asset_info_by_id): an
    asset that was created is found again under the symbol it was created
    with, stored in upper case with the name and the decimals given;
    get_asset_info_by_id on its id returns that symbol and the decimals;
    and what get_asset finds in any other guild is what it found before. *)
Theorem created_asset_lookup (symbol name : string) (g decimals : Z) (c c1 : Conn) :
  keyed as_id (assets (work c)) ->
  create_asset symbol name g decimals c = (Ok tt, c1) ->
  exists a,
    get_asset symbol g c1 = (Ok (Some a), c1)
    /\ as_symbol a = upper symbol /\ as_name a = name /\ as_decimals a = decimals
    /\ get_asset_info_by_id (as_id a) c1 = (Ok (Some (upper symbol, decimals)), c1)
    /\ forall s g', g' <> g -> fst (get_asset s g' c1) = fst (get_asset s g' c).
Proof.
  intros [_ Hb]. unfold create_asset, execute_res, insert_asset.
  destruct (select_asset (upper symbol) g (work c)) eqn:Hnone; [ discriminate | ].
  intros H. injection H as <-.
  exists {| as_id := seq (assets (work c)) + 1; as_guild_id := g;
            as_symbol := upper symbol; as_name := name; as_decimals := decimals |}.
  unfold get_asset, get_asset_info_by_id, query, select_asset, select_asset_by_id.
  cbn [work assets set_assets insert rows as_symbol as_name as_decimals as_id fst].
  unfold select_asset in Hnone.
  split.
  { rewrite find_app_last, Hnone. cbn [as_symbol as_guild_id].
    rewrite String.eqb_refl, Z.eqb_refl. reflexivity. }
  split; [ reflexivity | ]. split; [ reflexivity | ]. split; [ reflexivity | ].
  split.
  { rewrite find_app_last.
    assert (E : find (fun a => as_id a =? seq (assets (work c)) + 1)
                  (rows (assets (work c))) = None).
    { apply find_none_existsb. apply not_true_is_false. intros Hex.
      apply existsb_exists in Hex. destruct Hex as (a & Hin & Ha).
      rewrite Forall_forall in Hb. specialize (Hb a Hin). cbn in Hb.
      apply Z.eqb_eq in Ha. lia. }
    rewrite E. cbn [as_id]. rewrite Z.eqb_refl. reflexivity. }
  intros s g' Hne. f_equal. rewrite find_app_last. cbn [as_symbol as_guild_id].
  replace (g =? g') with false by (symmetry; apply Z.eqb_neq; congruence).
  rewrite andb_false_r.
  match goal with |- context [find ?p ?l] => destruct (find p l) end; reflexivity.
Qed.

Lemma created_asset_lookup_witness :
  keyed as_id (assets (work (connect gold_db)))
  /\ exists a,
       get_asset "silver" 1 (snd (create_asset "silver" "Silver coin" 1 0 (connect gold_db)))
       = (Ok (Some a), snd (create_asset "silver" "Silver coin" 1 0 (connect gold_db)))
       /\ as_symbol a = "SILVER".
Proof.
  assert (Hk : keyed as_id (assets (work (connect gold_db)))) by keyed_rows.
  split; [ exact Hk | ].
  destruct (created_asset_lookup "silver" "Silver coin" 1 0 (connect gold_db)
              (snd (create_asset "silver" "Silver coin" 1 0 (connect gold_db))) Hk
              ltac:(vm_compute; reflexivity))
    as (a & Hg & Hs & _).
  exists a. split; [ exact Hg | exact Hs ].
Defined.

(** ** Rounding of amounts *)

(** A decimal over a power of ten large enough for its exponent. *)
Lemma value_scaled (c e n : Z) :
  0 <= n -> 0 <= e + n ->
  (Dec.value (Dec.mk c e) == (c * 10 ^ (e + n)) # Z.to_pos (10 ^ n))%Q.
Proof.
  intros Hn Hen. unfold Dec.value. cbn [Dec.coeff Dec.expo].
  assert (Hp : 0 < 10 ^ n) by (apply Z.pow_pos_nonneg; lia).
  destruct (0 <=? e) eqn:He.
  - apply Z.leb_le in He. unfold Qeq, inject_Z. cbn [Qnum Qden].
    rewrite Z2Pos.id by exact Hp. rewrite Z.pow_add_r by lia. ring.
  - apply Z.leb_gt in He. unfold Qeq. cbn [Qnum Qden].
    rewrite !Z2Pos.id by (apply Z.pow_pos_nonneg; lia).
    replace n with (- e + (e + n)) at 1 by lia. rewrite Z.pow_add_r by lia. ring.
Qed.

Lemma scaled_le (a b n : Z) :
  0 <= n -> (a # Z.to_pos (10 ^ n) <= b # Z.to_pos (10 ^ n))%Q <-> a <= b.
Proof.
  intros Hn. unfold Qle. cbn [Qnum Qden].
  assert (Hp : 0 < Z.pos (Z.to_pos (10 ^ n))) by lia. split; nia.
Qed.

Lemma scaled_lt (a b n : Z) :
  0 <= n -> (a # Z.to_pos (10 ^ n) < b # Z.to_pos (10 ^ n))%Q <-> a < b.
Proof.
  intros Hn. unfold Qlt. cbn [Qnum Qden].
  assert (Hp : 0 < Z.pos (Z.to_pos (10 ^ n))) by lia. split; nia.
Qed.

Lemma scaled_plus (a b n : Z) :
  ((a # Z.to_pos (10 ^ n)) + (b # Z.to_pos (10 ^ n)) == (a + b) # Z.to_pos (10 ^ n))%Q.
Proof. unfold Qeq, Qplus. cbn [Qnum Qden]. rewrite Pos2Z.inj_mul. ring. Qed.

Lemma value_pos_coeff (x : Dec.t) : (0 < Dec.value x)%Q <-> 0 < Dec.coeff x.
Proof.
  unfold Dec.value. destruct (0 <=? Dec.expo x) eqn:He.
  - apply Z.leb_le in He. unfold Qlt, inject_Z. cbn [Qnum Qden].
    assert (Hp : 0 < 10 ^ Dec.expo x) by (apply Z.pow_pos_nonneg; lia).
    split; nia.
  - unfold Qlt. cbn [Qnum Qden]. lia.
Qed.

(** ROUND_DOWN on a positive amount: the result is the largest multiple of
    the unit that does not exceed it. *)
Lemma quantize_down_bounds (x q : Dec.t) (decimals : Z) :
  Dec.quantize_down x decimals = Some q ->
  (0 < Dec.value x)%Q ->
  (0 <= Dec.value q)%Q /\ (Dec.value q <= Dec.value x)%Q
  /\ (Dec.value x < Dec.value q + Dec.value (Dec.mk 1 (- decimals)))%Q.
Proof.
  intros Hq Hx. apply value_pos_coeff in Hx.
  unfold Dec.quantize_down in Hq. destruct x as [c e]. cbn [Dec.coeff Dec.expo] in *.
  set (t := - decimals) in *.
  set (n := Z.max 0 (Z.max (- e) (- t))).
  assert (Hn : 0 <= n) by lia.
  assert (Hen : 0 <= e + n) by lia.
  assert (Htn : 0 <= t + n) by lia.
  destruct (_ <? _); [ | discriminate ]. injection Hq as <-.
  rewrite (value_scaled c e n Hn Hen), (value_scaled 1 t n Hn Htn).
  assert (H0 : (0 == 0 # Z.to_pos (10 ^ n))%Q) by reflexivity.
  destruct (t <=? e) eqn:Hte.
  - apply Z.leb_le in Hte.
    rewrite (value_scaled _ t n Hn Htn), scaled_plus, H0.
    rewrite !scaled_le, scaled_lt by exact Hn.
    replace (e + n) with ((e - t) + (t + n)) by lia.
    rewrite (Z.pow_add_r 10 (e - t) (t + n)) by lia.
    assert (H1 : 0 < 10 ^ (e - t)) by (apply Z.pow_pos_nonneg; lia).
    assert (H2 : 0 < 10 ^ (t + n)) by (apply Z.pow_pos_nonneg; lia).
    nia.
  - apply Z.leb_gt in Hte.
    rewrite (value_scaled _ t n Hn Htn), scaled_plus, H0.
    rewrite !scaled_le, scaled_lt by exact Hn.
    replace (t + n) with ((t - e) + (e + n)) by lia.
    rewrite (Z.pow_add_r 10 (t - e) (e + n)) by lia.
    assert (H1 : 0 < 10 ^ (t - e)) by (apply Z.pow_pos_nonneg; lia).
    assert (H2 : 0 < 10 ^ (e + n)) by (apply Z.pow_pos_nonneg; lia).
    rewrite Z.quot_div_nonneg by lia.
    pose proof (Z.div_mod c (10 ^ (t - e)) ltac:(lia)) as Hdm.
    pose proof (Z.mod_pos_bound c (10 ^ (t - e)) H1) as Hmb.
    assert (Hd0 : 0 <= c / 10 ^ (t - e)) by (apply Z.div_pos; lia).
    nia.
Qed.

(** An amount that has no more decimal places than the unit is kept as it
    is. *)
Lemma quantize_down_exact (x q : Dec.t) (decimals : Z) :
  Dec.quantize_down x decimals = Some q ->
  - decimals <= Dec.expo x ->
  (Dec.value q == Dec.value x)%Q.
Proof.
  unfold Dec.quantize_down. destruct x as [c e]. cbn [Dec.coeff Dec.expo].
  intros Hq Hte. set (t := - decimals) in *.
  destruct (_ <? _); [ | discriminate ]. injection Hq as <-.
  apply Z.leb_le in Hte. rewrite Hte. apply Z.leb_le in Hte.
  set (n := Z.max 0 (Z.max (- e) (- t))).
  assert (Hn : 0 <= n) by lia.
  assert (Hen : 0 <= e + n) by lia.
  assert (Htn : 0 <= t + n) by lia.
  rewrite (value_scaled c e n Hn Hen), (value_scaled _ t n Hn Htn).
  replace (e + n) with ((e - t) + (t + n)) by lia.
  rewrite (Z.pow_add_r 10 (e - t) (t + n)) by lia.
  rewrite Z.mul_assoc. reflexivity.
Qed.

(** ** /pay, case by case *)

Lemma upsert_user_value (u : Z) (c : Conn) :
  exists uid,
    upsert_user u c
    = (Ok uid, {| durable := durable c; work := insert_user u (work c) |})
    /\ exists x, select_user u (insert_user u (work c)) = Some x /\ u_id x = uid.
Proof.
  destruct (upsert_user_run u c) as [uid H]. exists uid. split; [ exact H | ].
  apply upsert_user_spec in H. destruct H as [_ H]. exact H.
Qed.

Lemma pay_run (S : Sqlite) (d : DB) (g user to : Z) (symbol : string)
  (amt : Dec.t) (memo : option string) (a : Asset) :
  (to =? user) = false ->
  Dec.leb amt (Dec.of_Z 0) = false ->
  select_asset (upper symbol) g d = Some a ->
  exists uid1 uid2 tx d',
    let d1 := insert_account (Some uid1) g (user_account_name user g) "user"
                (insert_user user d) in
    let d2 := insert_account (Some uid2) g (user_account_name to g) "user"
                (insert_user to d1) in
    pay (Some g) user to symbol (Some amt) memo d
    = match balance_in d (user_account_id user g d) (as_id a) with
      | Raise e => (Raise e, d)
      | Ok bal =>
          match Dec.quantize_down amt (as_decimals a) with
          | None => (Raise InvalidOperation, d)
          | Some q =>
              if Dec.ltb bal q then (Ok (PayInsufficient bal), d)
              else (Ok (PaySent q), d' q)
          end
      end
    /\ forall q,
         accounts (d' q) = accounts d2
         /\ assets (d' q) = assets d
         /\ rows (transactions (d' q)) = (rows (transactions d) ++ [tx])%list
         /\ tx_id tx = seq (transactions d) + 1
         /\ tx_kind tx = "transfer"
         /\ rows (ledger_entries (d' q))
            = (rows (ledger_entries d)
                 ++ transfer_entries d (user_account_id user g d)
                      (user_account_id to g d1) (as_id a) q)%list.
Proof.
  intros Hto Hamt Ha.
  destruct (ensure_user_account_run user g (connect d)) as [uid1 E1].
  cbn [work durable connect] in E1.
  set (d1 := insert_account (Some uid1) g (user_account_name user g) "user"
               (insert_user user d)) in *.
  destruct (ensure_user_account_run to g {| durable := d; work := d1 |}) as [uid2 E2].
  cbn [work durable connect] in E2.
  set (d2 := insert_account (Some uid2) g (user_account_name to g) "user"
               (insert_user to d1)) in *.
  destruct (upsert_user_run user {| durable := d; work := d2 |}) as [uid3 E3].
  cbn [work durable] in E3.
  exists uid1, uid2.
  exists {| tx_id := seq (transactions d) + 1; tx_kind := "transfer";
            tx_reference := match memo with Some m => m | None => "" end;
            tx_created_by := Some uid3; tx_unique_hash := None |}.
  eexists (fun q => _).
  split.
  - unfold pay. rewrite Hto, Hamt.
    unfold with_connection, bind at 1, get_asset, query. cbn [work connect].
    rewrite upper_idem, Ha.
    unfold bind at 1. rewrite E1.
    unfold bind at 1. rewrite E2.
    unfold bind at 1, balance_of. cbn [work connect durable].
    rewrite (balance_in_ext S d2 d) by reflexivity.
    destruct (balance_in d _ _) as [bal | e]; [ | reflexivity ].
    destruct (Dec.quantize_down amt (as_decimals a)) as [q | ]; [ | reflexivity ].
    destruct (Dec.ltb bal q); [ reflexivity | ].
    unfold bind at 1. rewrite E3.
    run_statements. reflexivity.
  - intros q.
    cbn [insert_user insert_account set_users set_accounts set_transactions
         set_ledger_entries transactions ledger_entries accounts assets
         insert rows seq tx_id tx_kind].
    repeat split.
    unfold transfer_entries. rewrite <- app_assoc. reflexivity.
Qed.

Lemma pay_outcome (S : Sqlite) (d d' : DB) (guild : option Z)
  (user to : Z) (symbol : string) (amount : option Dec.t) (memo : option string)
  (r : res PayResponse) :
  pay guild user to symbol amount memo d = (r, d') ->
  d' = d
  \/ exists q,
       r = Ok (PaySent q)
       /\ List.length (rows (transactions d'))
          = (List.length (rows (transactions d)) + 1)%nat
       /\ List.length (rows (ledger_entries d'))
          = (List.length (rows (ledger_entries d)) + 2)%nat.
Proof.
  destruct guild as [g | ]; [ | cbn; intros H; injection H as _ <-; left; reflexivity ].
  destruct (to =? user) eqn:Hto.
  { unfold pay. rewrite Hto. intros H; injection H as _ <-; left; reflexivity. }
  destruct amount as [amt | ].
  2:{ unfold pay. rewrite Hto. intros H; injection H as _ <-; left; reflexivity. }
  destruct (Dec.leb amt (Dec.of_Z 0)) eqn:Hamt.
  { unfold pay. rewrite Hto, Hamt. intros H; injection H as _ <-; left; reflexivity. }
  destruct (select_asset (upper symbol) g d) as [a | ] eqn:Ha.
  2:{ unfold pay. rewrite Hto, Hamt.
      unfold with_connection, bind at 1, get_asset, query. cbn [work connect].
      rewrite upper_idem, Ha. cbn. intros H; injection H as _ <-; left; reflexivity. }
  destruct (pay_run S d g user to symbol amt memo a Hto Hamt Ha)
    as (uid1 & uid2 & tx & dq & E & Hd).
  cbv zeta in E, Hd. rewrite E.
  destruct (balance_in d _ _) as [bal | e];
    [ | intros H; injection H as _ <-; left; reflexivity ].
  destruct (Dec.quantize_down amt (as_decimals a)) as [q | ];
    [ | intros H; injection H as _ <-; left; reflexivity ].
  destruct (Dec.ltb bal q); [ intros H; injection H as _ <-; left; reflexivity | ].
  intros H. injection H as <- <-. right. exists q. split; [ reflexivity | ].
  destruct (Hd q) as (_ & _ & Htx & _ & _ & Hle).
  rewrite Htx, Hle, !length_app. split; reflexivity.
Qed.

(** X5 (cogs/balance.py, pay): /pay is all or nothing.  Whatever the
    input, either the database file is left as it was (every refusal and
    every exception), or the answer is the sent message and exactly one
    transaction and two postings were added. *)
Theorem pay_all_or_nothing (S : Sqlite) (d d' : DB) (guild : option Z)
  (user to : Z) (symbol : string) (amount : option Dec.t) (memo : option string)
  (r : res PayResponse) :
  pay guild user to symbol amount memo d = (r, d') ->
  d' = d
  \/ exists q,
       r = Ok (PaySent q)
       /\ List.length (rows (transactions d'))
          = (List.length (rows (transactions d)) + 1)%nat
       /\ List.length (rows (ledger_entries d'))
          = (List.length (rows (ledger_entries d)) + 2)%nat.
Proof. exact (pay_outcome S d d' guild user to symbol amount memo r). Qed.

Lemma pay_all_or_nothing_witness :
  paid_db = alice_db
  \/ exists q,
       Ok (PaySent (Dec.mk 1000 (-2))) = Ok (PaySent q)
       /\ List.length (rows (transactions paid_db))
          = (List.length (rows (transactions alice_db)) + 1)%nat
       /\ List.length (rows (ledger_entries paid_db))
          = (List.length (rows (ledger_entries alice_db)) + 2)%nat.
Proof.
  apply (pay_all_or_nothing plain_sqlite alice_db paid_db (Some 1) 42 43 "gold"
           (Some (Dec.mk 1000 (-2))) None).
  vm_compute. reflexivity.
Defined.

Lemma pay_sent_amount (S : Sqlite) (d d' : DB) (guild : option Z) (user to : Z)
  (symbol : string) (amount : option Dec.t) (memo : option string) (q : Dec.t) :
  pay guild user to symbol amount memo d = (Ok (PaySent q), d') ->
  exists g amt a bal,
    guild = Some g /\ (to =? user) = false /\ amount = Some amt
    /\ Dec.leb amt (Dec.of_Z 0) = false
    /\ select_asset (upper symbol) g d = Some a
    /\ balance_in d (user_account_id user g d) (as_id a) = Ok bal
    /\ Dec.quantize_down amt (as_decimals a) = Some q
    /\ Dec.ltb bal q = false.
Proof.
  destruct guild as [g | ]; [ | discriminate ].
  destruct (to =? user) eqn:Hto; [ unfold pay; rewrite Hto; discriminate | ].
  destruct amount as [amt | ]; [ | unfold pay; rewrite Hto; discriminate ].
  destruct (Dec.leb amt (Dec.of_Z 0)) eqn:Hamt;
    [ unfold pay; rewrite Hto, Hamt; discriminate | ].
  destruct (select_asset (upper symbol) g d) as [a | ] eqn:Ha.
  2:{ unfold pay. rewrite Hto, Hamt.
      unfold with_connection, bind at 1, get_asset, query. cbn [work connect].
      rewrite upper_idem, Ha. discriminate. }
  destruct (pay_run S d g user to symbol amt memo a Hto Hamt Ha)
    as (uid1 & uid2 & tx & dq & E & Hd).
  cbv zeta in E. rewrite E.
  destruct (balance_in d _ _) as [bal | e] eqn:Hbal; [ | discriminate ].
  destruct (Dec.quantize_down amt (as_decimals a)) as [q' | ] eqn:Hq; [ | discriminate ].
  destruct (Dec.ltb bal q') eqn:Hlt; [ discriminate | ].
  intros H. injection H as <- _.
  exists g, amt, a, bal. repeat split; assumption.
Qed.

(** X6 (cogs/balance.py, pay): /pay rounds the amount down to the decimals
    of the asset.  The amount q that is sent has the exponent -decimals,
    0 <= q <= amount < q + one unit of the asset, and q is the amount
    itself when that has no more decimal places than the asset.  The
    decimals of the assets are those /create accepts, 0 to 8. *)
Theorem pay_rounds_down (S : Sqlite) (d d' : DB) (guild : option Z) (user to : Z)
  (symbol : string) (amount : option Dec.t) (memo : option string) (q : Dec.t) :
  (forall a, In a (rows (assets d)) -> 0 <= as_decimals a <= 8) ->
  pay guild user to symbol amount memo d = (Ok (PaySent q), d') ->
  exists g amt a,
    guild = Some g /\ amount = Some amt
    /\ select_asset (upper symbol) g d = Some a
    /\ Dec.expo q = - as_decimals a
    /\ (0 <= Dec.value q)%Q
    /\ (Dec.value q <= Dec.value amt)%Q
    /\ (Dec.value amt < Dec.value q + Dec.value (Dec.mk 1 (- as_decimals a)))%Q
    /\ (- as_decimals a <= Dec.expo amt -> (Dec.value q == Dec.value amt)%Q).
Proof.
  intros _ H. apply pay_sent_amount in H.
  destruct H as (g & amt & a & bal & -> & _ & -> & Hamt & Ha & _ & Hq & _).
  exists g, amt, a. split; [ reflexivity | ]. split; [ reflexivity | ].
  split; [ exact Ha | ].
  assert (Hpos : (0 < Dec.value amt)%Q).
  { apply Qnot_le_lt. intros Hle. rewrite <- (value_of_Z 0) in Hle.
    apply leb_spec in Hle. congruence. }
  split.
  { unfold Dec.quantize_down in Hq. destruct (_ <? _); [ | discriminate ].
    injection Hq as <-. reflexivity. }
  destruct (quantize_down_bounds amt q (as_decimals a) Hq Hpos) as (H0 & H1 & H2).
  split; [ exact H0 | ]. split; [ exact H1 | ]. split; [ exact H2 | ].
  exact (quantize_down_exact amt q (as_decimals a) Hq).
Qed.

Lemma pay_rounds_down_witness :
  (forall a, In a (rows (assets alice_db)) -> 0 <= as_decimals a <= 8)
  /\ exists g amt a,
       Some 1 = Some g /\ Some (Dec.mk 12345 (-4)) = Some amt
       /\ select_asset (upper "gold") g alice_db = Some a
       /\ Dec.expo (Dec.mk 123 (-2)) = - as_decimals a
       /\ (0 <= Dec.value (Dec.mk 123 (-2)))%Q
       /\ (Dec.value (Dec.mk 123 (-2)) <= Dec.value amt)%Q
       /\ (Dec.value amt
           < Dec.value (Dec.mk 123 (-2)) + Dec.value (Dec.mk 1 (- as_decimals a)))%Q
       /\ (- as_decimals a <= Dec.expo amt
           -> (Dec.value (Dec.mk 123 (-2)) == Dec.value amt)%Q).
Proof.
  assert (Hdec : forall a, In a (rows (assets alice_db)) -> 0 <= as_decimals a <= 8).
  { assert (E : rows (assets alice_db)
                = [ {| as_id := 1; as_guild_id := 1; as_symbol := "GOLD";
                       as_name := "Gold coin"; as_decimals := 2 |} ])
      by (vm_compute; reflexivity).
    rewrite E. intros a [<- | []]. cbn. lia. }
  split; [ exact Hdec | ].
  apply (pay_rounds_down plain_sqlite alice_db
           (snd (@pay plain_sqlite (Some 1) 42 43 "gold" (Some (Dec.mk 12345 (-4)))
                   None alice_db))
           (Some 1) 42 43 "gold" (Some (Dec.mk 12345 (-4))) None (Dec.mk 123 (-2)) Hdec).
  vm_compute. reflexivity.
Defined.

(** X7 (cogs/balance.py, pay): an amount below the precision of the asset
    is sent as zero.  The test amount > 0 comes before the rounding, so an
    amount with 0 < amount < one unit passes it, is rounded down to 0, and
    (the balance of the payer being readable and not negative) a transfer
    transaction with two postings of zero is recorded.  The decimals of
    the asset are in the range /create accepts, 0 to 8. *)
Theorem pay_below_precision_sends_zero (S : Sqlite) (d : DB) (g user to : Z)
  (symbol : string) (amt : Dec.t) (memo : option string) (a : Asset) (bal : Dec.t) :
  to <> user ->
  select_asset (upper symbol) g d = Some a ->
  0 <= as_decimals a <= 8 ->
  (0 < Dec.value amt)%Q ->
  (Dec.value amt < Dec.value (Dec.mk 1 (- as_decimals a)))%Q ->
  balance_in d (user_account_id user g d) (as_id a) = Ok bal ->
  (0 <= Dec.value bal)%Q ->
  exists q d',
    pay (Some g) user to symbol (Some amt) memo d = (Ok (PaySent q), d')
    /\ (Dec.value q == 0)%Q
    /\ List.length (rows (transactions d'))
       = (List.length (rows (transactions d)) + 1)%nat
    /\ List.length (rows (ledger_entries d'))
       = (List.length (rows (ledger_entries d)) + 2)%nat.
Proof.
  intros Hto Ha _ Hpos Hsmall Hbal Hnonneg.
  assert (Hto' : (to =? user) = false) by (apply Z.eqb_neq; exact Hto).
  assert (Hamt : Dec.leb amt (Dec.of_Z 0) = false).
  { destruct (Dec.leb amt (Dec.of_Z 0)) eqn:E; [ | reflexivity ].
    apply leb_spec in E. rewrite value_of_Z in E. exfalso.
    exact (Qlt_not_le _ _ Hpos E). }
  assert (Hq : Dec.quantize_down amt (as_decimals a) = Some (Dec.mk 0 (- as_decimals a))).
  { apply value_pos_coeff in Hpos. destruct amt as [c e].
    unfold Dec.quantize_down. cbn [Dec.coeff Dec.expo] in *.
    set (t := - as_decimals a) in *.
    set (n := Z.max 0 (Z.max (- e) (- t))).
    assert (Hn : 0 <= n) by lia.
    assert (Hen : 0 <= e + n) by lia.
    assert (Htn : 0 <= t + n) by lia.
    rewrite (value_scaled c e n Hn Hen), (value_scaled 1 t n Hn Htn) in Hsmall.
    apply scaled_lt in Hsmall; [ | exact Hn ].
    destruct (t <=? e) eqn:Hte.
    - apply Z.leb_le in Hte. exfalso.
      replace (e + n) with ((e - t) + (t + n)) in Hsmall by lia.
      rewrite (Z.pow_add_r 10 (e - t) (t + n)) in Hsmall by lia.
      assert (H1 : 0 < 10 ^ (e - t)) by (apply Z.pow_pos_nonneg; lia).
      assert (H2 : 0 < 10 ^ (t + n)) by (apply Z.pow_pos_nonneg; lia).
      assert (H3 : 1 <= c * 10 ^ (e - t)) by nia.
      rewrite Z.mul_assoc in Hsmall. nia.
    - apply Z.leb_gt in Hte.
      replace (t + n) with ((t - e) + (e + n)) in Hsmall by lia.
      rewrite (Z.pow_add_r 10 (t - e) (e + n)) in Hsmall by lia.
      assert (H1 : 0 < 10 ^ (t - e)) by (apply Z.pow_pos_nonneg; lia).
      assert (H2 : 0 < 10 ^ (e + n)) by (apply Z.pow_pos_nonneg; lia).
      assert (Hc : c < 10 ^ (t - e)) by nia.
      rewrite Z.quot_small by lia. reflexivity. }
  assert (Hz : (Dec.value (Dec.mk 0 (- as_decimals a)) == 0)%Q).
  { unfold Dec.value. cbn [Dec.coeff Dec.expo].
    destruct (0 <=? - as_decimals a); reflexivity. }
  destruct (pay_run S d g user to symbol amt memo a Hto' Hamt Ha)
    as (uid1 & uid2 & tx & dq & E & Hd).
  cbv zeta in E, Hd. rewrite Hbal, Hq in E.
  assert (Hlt : Dec.ltb bal (Dec.mk 0 (- as_decimals a)) = false).
  { destruct (Dec.ltb bal _) eqn:El; [ | reflexivity ].
    apply ltb_spec in El. rewrite Hz in El. exfalso. exact (Qlt_not_le _ _ El Hnonneg). }
  rewrite Hlt in E.
  exists (Dec.mk 0 (- as_decimals a)), (dq (Dec.mk 0 (- as_decimals a))).
  split; [ exact E | ]. split; [ exact Hz | ].
  destruct (Hd (Dec.mk 0 (- as_decimals a))) as (_ & _ & Htx & _ & _ & Hle).
  rewrite Htx, Hle, !length_app. split; reflexivity.
Qed.

Lemma pay_below_precision_sends_zero_witness :
  exists q d',
    @pay plain_sqlite (Some 1) 42 43 "gold" (Some (Dec.mk 1 (-3))) None alice_db
    = (Ok (PaySent q), d')
    /\ (Dec.value q == 0)%Q
    /\ List.length (rows (transactions d'))
       = (List.length (rows (transactions alice_db)) + 1)%nat
    /\ List.length (rows (ledger_entries d'))
       = (List.length (rows (ledger_entries alice_db)) + 2)%nat.
Proof.
  apply (pay_below_precision_sends_zero plain_sqlite alice_db 1 42 43 "gold"
           (Dec.mk 1 (-3)) None
           {| as_id := 1; as_guild_id := 1; as_symbol := "GOLD";
              as_name := "Gold coin"; as_decimals := 2 |}
           (Dec.mk (10 ^ 50) (-49))).
  - discriminate.
  - vm_compute. reflexivity.
  - cbn. lia.
  - vm_compute. reflexivity.
  - vm_compute. reflexivity.
  - vm_compute. reflexivity.
  - vm_compute. discriminate.
Defined.

(** ** Account names *)

Lemma append_length (s t : string) :
  String.length (s ++ t) = (String.length s + String.length t)%nat.
Proof. induction s as [ | c s IH ]; cbn; [ reflexivity | now rewrite IH ]. Qed.

Lemma append_inv_tail (s s' t : string) : s ++ t = s' ++ t -> s = s'.
Proof.
  revert s'. induction s as [ | c s IH ]; intros [ | c' s' ]; cbn; intros H.
  - reflexivity.
  - apply (f_equal String.length) in H. cbn in H. rewrite append_length in H. lia.
  - apply (f_equal String.length) in H. cbn in H. rewrite append_length in H. lia.
  - injection H as -> H. f_equal. apply IH. exact H.
Qed.

Lemma str_of_Z_inj (n m : Z) : str_of_Z n = str_of_Z m -> n = m.
Proof.
  unfold str_of_Z. intros H. apply (f_equal NilEmpty.int_of_string) in H.
  rewrite !NilEmpty.isi in H. injection H as H. apply DecimalZ.to_int_inj. exact H.
Qed.

Lemma user_account_name_inj (u u' g : Z) :
  user_account_name u g = user_account_name u' g -> u = u'.
Proof.
  unfold user_account_name. intros H. cbn in H.
  injection H as H. apply append_inv_tail in H. apply str_of_Z_inj. exact H.
Qed.

Lemma select_account_inserted_id (uid : option Z) (g : Z) (name type : string)
  (d : DB) :
  exists a, select_account name (insert_account uid g name type d) = Some a
            /\ a_id a = account_id_or_next name d.
Proof.
  unfold select_account, insert_account, account_id_or_next, select_account.
  cbn [accounts set_accounts].
  rewrite find_insert_or_ignore by (cbn; apply String.eqb_refl).
  destruct (find _ (rows (accounts d))) as [a | ]; eexists; split; reflexivity.
Qed.

Lemma postings_app (d d' : DB) (es : list LedgerEntry) (acc asset : Z) :
  rows (ledger_entries d') = (rows (ledger_entries d) ++ es)%list ->
  postings acc asset d'
  = (postings acc asset d
       ++ map le_amount
            (filter (fun e => (le_account_id e =? acc) && (le_asset_id e =? asset)) es))%list.
Proof. intros H. unfold postings. rewrite H, filter_app, map_app. reflexivity. Qed.

(** X8 (cogs/balance.py, pay; database.py, ensure_user_account,
    post_ledger): a /pay that is sent moves exactly q.  Afterwards payer
    and payee have accounts with different ids; the postings of the payer
    in the asset gain -q at the end, those of the payee gain q, and the
    postings of every other account or asset are what they were. *)
Theorem pay_moves_amount (S : Sqlite) (d d' : DB) (g user to : Z)
  (symbol : string) (amount : option Dec.t) (memo : option string) (q : Dec.t) :
  keyed a_id (accounts d) ->
  pay (Some g) user to symbol amount memo d = (Ok (PaySent q), d') ->
  exists a payer payee,
    select_asset (upper symbol) g d = Some a
    /\ select_account (user_account_name user g) d' = Some payer
    /\ select_account (user_account_name to g) d' = Some payee
    /\ a_id payer <> a_id payee
    /\ postings (a_id payer) (as_id a) d'
       = (postings (a_id payer) (as_id a) d ++ [Dec.neg q])%list
    /\ postings (a_id payee) (as_id a) d'
       = (postings (a_id payee) (as_id a) d ++ [q])%list
    /\ forall acc asset,
         asset <> as_id a \/ (acc <> a_id payer /\ acc <> a_id payee) ->
         postings acc asset d' = postings acc asset d.
Proof.
  intros Hk H. pose proof (pay_sent_amount S _ _ _ _ _ _ _ _ _ H) as Hs.
  destruct Hs as (g' & amt & a & bal & Hg & Hto & -> & Hamt & Ha & Hbal & Hq & Hlt).
  injection Hg as <-.
  destruct (pay_run S d g user to symbol amt memo a Hto Hamt Ha)
    as (uid1 & uid2 & tx & dq & E & Hd).
  cbv zeta in E, Hd. rewrite E, Hbal, Hq, Hlt in H. injection H as <-.
  destruct (Hd q) as (Hacc & _ & _ & _ & _ & Hle). clear Hd E.
  set (d1 := insert_account (Some uid1) g (user_account_name user g) "user"
               (insert_user user d)) in *.
  set (d2 := insert_account (Some uid2) g (user_account_name to g) "user"
               (insert_user to d1)) in *.
  destruct (select_account_inserted_id (Some uid1) g (user_account_name user g)
              "user" (insert_user user d)) as (payer & Hpayer & Hpid).
  fold d1 in Hpayer.
  change (account_id_or_next (user_account_name user g) (insert_user user d))
    with (user_account_id user g d) in Hpid.
  apply (select_account_kept (Some uid2) g _ (user_account_name to g) "user") in Hpayer.
  change (select_account (user_account_name user g) d2 = Some payer) in Hpayer.
  destruct (select_account_inserted_id (Some uid2) g (user_account_name to g)
              "user" (insert_user to d1)) as (payee & Hpayee & Hqid).
  fold d2 in Hpayee.
  change (account_id_or_next (user_account_name to g) (insert_user to d1))
    with (user_account_id to g d1) in Hqid.
  assert (Hk2 : keyed a_id (accounts d2)).
  { unfold d2. apply insert_account_keyed. change (keyed a_id (accounts d1)).
    unfold d1. apply insert_account_keyed. exact Hk. }
  assert (Hne : a_id payer <> a_id payee).
  { apply (account_ids_differ d2 _ _ payer payee Hk2 Hpayer Hpayee).
    intros En. apply user_account_name_inj in En. apply Z.eqb_neq in Hto. congruence. }
  assert (Hsel : forall n, select_account n (dq q) = select_account n d2).
  { intros n. unfold select_account. rewrite Hacc. reflexivity. }
  exists a, payer, payee.
  split; [ exact Ha | ]. split; [ rewrite Hsel; exact Hpayer | ].
  split; [ rewrite Hsel; exact Hpayee | ]. split; [ exact Hne | ].
  rewrite <- Hpid, <- Hqid in Hle.
  split.
  { rewrite (postings_app d (dq q) _ _ _ Hle). unfold transfer_entries.
    cbn [filter le_account_id le_asset_id map le_amount].
    rewrite !Z.eqb_refl. cbn [andb].
    replace (a_id payee =? a_id payer) with false
      by (symmetry; apply Z.eqb_neq; congruence).
    reflexivity. }
  split.
  { rewrite (postings_app d (dq q) _ _ _ Hle). unfold transfer_entries.
    cbn [filter le_account_id le_asset_id map le_amount].
    rewrite !Z.eqb_refl. cbn [andb].
    replace (a_id payer =? a_id payee) with false
      by (symmetry; apply Z.eqb_neq; congruence).
    reflexivity. }
  intros acc asset Hother.
  rewrite (postings_app d (dq q) _ _ _ Hle). unfold transfer_entries.
  cbn [filter le_account_id le_asset_id map le_amount].
  assert (E1 : (a_id payer =? acc) && (as_id a =? asset) = false).
  { apply andb_false_iff. destruct Hother as [Has | [Hp _]].
    - right. apply Z.eqb_neq. congruence.
    - left. apply Z.eqb_neq. congruence. }
  assert (E2 : (a_id payee =? acc) && (as_id a =? asset) = false).
  { apply andb_false_iff. destruct Hother as [Has | [_ Hp]].
    - right. apply Z.eqb_neq. congruence.
    - left. apply Z.eqb_neq. congruence. }
  rewrite E1, E2. cbn [map]. apply app_nil_r.
Qed.

Lemma pay_moves_amount_witness :
  keyed a_id (accounts alice_db)
  /\ exists a payer payee,
       select_asset (upper "gold") 1 alice_db = Some a
       /\ select_account (user_account_name 42 1) paid_db = Some payer
       /\ select_account (user_account_name 43 1) paid_db = Some payee
       /\ a_id payer <> a_id payee
       /\ postings (a_id payer) (as_id a) paid_db
          = (postings (a_id payer) (as_id a) alice_db ++ [Dec.neg (Dec.mk 1000 (-2))])%list
       /\ postings (a_id payee) (as_id a) paid_db
          = (postings (a_id payee) (as_id a) alice_db ++ [Dec.mk 1000 (-2)])%list
       /\ forall acc asset,
            asset <> as_id a \/ (acc <> a_id payer /\ acc <> a_id payee) ->
            postings acc asset paid_db = postings acc asset alice_db.
Proof.
  assert (Hk : keyed a_id (accounts alice_db)) by keyed_rows.
  split; [ exact Hk | ].
  apply (pay_moves_amount plain_sqlite alice_db paid_db 1 42 43 "gold"
           (Some (Dec.mk 1000 (-2))) None (Dec.mk 1000 (-2)) Hk).
  vm_compute. reflexivity.
Defined.

(** ** The supply of an asset *)

Lemma exact_sum_app (l1 l2 : list Dec.t) :
  (exact_sum (l1 ++ l2) == exact_sum l1 + exact_sum l2)%Q.
Proof.
  induction l1 as [ | x l IH ]; cbn [app exact_sum fold_right].
  - rewrite Qplus_0_l. reflexivity.
  - fold (exact_sum (l ++ l2)). fold (exact_sum l). rewrite IH. apply Qplus_assoc.
Qed.

Lemma supply_app (d d' : DB) (es : list LedgerEntry) (asset : Z) :
  rows (ledger_entries d') = (rows (ledger_entries d) ++ es)%list ->
  (supply asset d'
   == supply asset d
      + exact_sum (map le_amount (filter (fun e => le_asset_id e =? asset) es)))%Q.
Proof.
  intros H. unfold supply. rewrite H, filter_app, map_app. apply exact_sum_app.
Qed.

(** X9 (cogs/balance.py, pay): /pay neither creates nor destroys currency.
    Whatever the input and the outcome, the exact sum of all postings of
    every asset is the same before and after. *)
Theorem pay_conserves_supply (S : Sqlite) (d d' : DB) (guild : option Z)
  (user to : Z) (symbol : string) (amount : option Dec.t) (memo : option string)
  (r : res PayResponse) :
  pay guild user to symbol amount memo d = (r, d') ->
  forall asset, (supply asset d' == supply asset d)%Q.
Proof.
  intros H asset.
  destruct (pay_outcome S d d' guild user to symbol amount memo r H)
    as [-> | (q & -> & _)]; [ reflexivity | ].
  destruct (pay_sent_run S d d' guild user to symbol amount memo q H)
    as (g & a & to_acc & tx & _ & _ & Hq & _ & _ & _ & Hle).
  rewrite (supply_app d d' _ asset Hle), transfer_entries_sum by exact Hq.
  apply Qplus_0_r.
Qed.

Lemma pay_conserves_supply_witness :
  (supply 1 paid_db == supply 1 alice_db)%Q.
Proof.
  apply (pay_conserves_supply plain_sqlite alice_db paid_db (Some 1) 42 43 "gold"
           (Some (Dec.mk 1000 (-2))) None (Ok (PaySent (Dec.mk 1000 (-2))))).
  vm_compute. reflexivity.
Defined.

(** ** /give, case by case *)

Lemma upsert_user_eq (u : Z) (c : Conn) :
  upsert_user u c
  = (Ok match select_user u (insert_user u (work c)) with
        | Some x => u_id x
        | None => 0
        end,
     {| durable := durable c; work := insert_user u (work c) |}).
Proof.
  destruct (upsert_user_value u c) as (uid & E & x & Hx & Hid).
  rewrite E, Hx, Hid. reflexivity.
Qed.

Lemma give_run (S : Sqlite) (d : DB) (g user to : Z) (symbol : string)
  (amt : Dec.t) (memo : option string) (a : Asset) :
  Dec.leb amt (Dec.of_Z 0) = false ->
  select_asset (upper symbol) g d = Some a ->
  exists uid2 tx d',
    let d0 := insert_account (Some uid2) g (user_account_name to g) "user"
                (insert_user to d) in
    give_currency (Some g) user to symbol (Some amt) memo d
    = match select_account (treasury_name g) d with
      | None => (Raise RuntimeError, d)
      | Some t =>
          match quantize_half_even amt (as_decimals a) with
          | None => (Raise InvalidOperation, d)
          | Some q =>
              match balance_in d (a_id t) (as_id a) with
              | Raise e => (Raise e, d)
              | Ok bal => (Ok (GiveSent q), d' t q bal)
              end
          end
      end
    /\ forall t q bal,
         let dr := if should_refill bal (Some q)
                   then refilled d0 (a_id t) (as_id a) else d0 in
         accounts (d' t q bal) = accounts d0
         /\ assets (d' t q bal) = assets d
         /\ rows (transactions (d' t q bal))
            = (rows (transactions dr) ++ [tx t q bal])%list
         /\ tx_id (tx t q bal) = seq (transactions dr) + 1
         /\ tx_kind (tx t q bal) = "issue"
         /\ rows (ledger_entries (d' t q bal))
            = (rows (ledger_entries dr)
                 ++ transfer_entries dr (a_id t) (user_account_id to g d)
                      (as_id a) q)%list.
Proof.
  intros Hamt Ha.
  destruct (ensure_user_account_run to g (connect d)) as [uid2 E2].
  cbn [work durable connect] in E2.
  set (d0 := insert_account (Some uid2) g (user_account_name to g) "user"
               (insert_user to d)) in *.
  exists uid2.
  pose (dr := fun (t : Account) (q bal : Dec.t) =>
                if should_refill bal (Some q)
                then refilled d0 (a_id t) (as_id a) else d0).
  pose (txrow := fun (t : Account) (q bal : Dec.t) =>
          {| tx_id := seq (transactions (dr t q bal)) + 1; tx_kind := "issue";
             tx_reference := match memo with Some m => m | None => "" end;
             tx_created_by :=
               Some match select_user user (insert_user user (dr t q bal)) with
                    | Some x => u_id x
                    | None => 0
                    end;
             tx_unique_hash := None |}).
  exists txrow.
  exists (fun t q bal =>
    set_ledger_entries
      {| rows := (rows (ledger_entries (dr t q bal))
                    ++ transfer_entries (dr t q bal) (a_id t)
                         (user_account_id to g d) (as_id a) q)%list;
         seq := seq (ledger_entries (dr t q bal)) + 1 + 1 |}
      (set_transactions
         {| rows := (rows (transactions (dr t q bal)) ++ [txrow t q bal])%list;
            seq := seq (transactions (dr t q bal)) + 1 |}
         (insert_user user (dr t q bal)))).
  split.
  - unfold give_currency. rewrite Hamt.
    unfold with_connection, bind at 1, get_asset, query. cbn [work connect].
    rewrite upper_idem, Ha.
    unfold bind at 1, account_id_by_name, bind at 1, query. cbn [work connect].
    change ("treasury" ++ ":" ++ str_of_Z g) with (treasury_name g).
    destruct (select_account (treasury_name g) d) as [t | ]; [ | reflexivity ].
    unfold ret at 1. unfold bind at 1. rewrite E2.
    destruct (quantize_half_even amt (as_decimals a)) as [q | ]; [ | reflexivity ].
    unfold bind at 1. rewrite auto_refill_run. cbn [work durable].
    rewrite (balance_in_ext S d0 d) by reflexivity.
    destruct (balance_in d (a_id t) (as_id a)) as [bal | e]; [ | reflexivity ].
    unfold txrow, dr.
    destruct (should_refill bal (Some q)).
    + unfold bind at 1. rewrite upsert_user_eq.
      run_statements. unfold insert, transfer_entries.
      cbn [insert_user set_users set_transactions set_ledger_entries
           transactions ledger_entries rows seq].
      rewrite <- app_assoc. reflexivity.
    + unfold bind at 1. rewrite upsert_user_eq.
      run_statements. unfold insert, transfer_entries.
      cbn [insert_user set_users set_transactions set_ledger_entries
           transactions ledger_entries rows seq].
      rewrite <- app_assoc. reflexivity.
  - intros t q bal. cbv zeta. fold (dr t q bal).
    cbn [set_ledger_entries set_transactions accounts assets transactions
         ledger_entries rows seq insert_user set_users].
    unfold txrow. cbn [tx_id tx_kind].
    repeat split.
    + unfold dr. destruct (should_refill bal (Some q)); reflexivity.
    + unfold dr. destruct (should_refill bal (Some q)); reflexivity.
Qed.

(** X10 (cogs/currency.py, give_currency; database.py,
    auto_refill_treasury_if_needed): /give never refuses for lack of funds.
    With the asset and the treasury account in place, a positive amount
    that rounds to q and a readable treasury balance, the answer is the
    issue of q: the treasury gets the posting -q, after one refill of
    1000000000 when the refill policy asks for it, the recipient gets q on
    an account of its own.  One refill is all there is, so the treasury
    balance goes negative when q exceeds it (the witness). *)
Theorem give_issues_from_treasury (S : Sqlite) (d : DB) (g user to : Z)
  (symbol : string) (amt : Dec.t) (memo : option string) (a : Asset)
  (t : Account) (q bal : Dec.t) :
  keyed a_id (accounts d) ->
  select_asset (upper symbol) g d = Some a ->
  select_account (treasury_name g) d = Some t ->
  (0 < Dec.value amt)%Q ->
  quantize_half_even amt (as_decimals a) = Some q ->
  balance_in d (a_id t) (as_id a) = Ok bal ->
  exists d' payee,
    give_currency (Some g) user to symbol (Some amt) memo d = (Ok (GiveSent q), d')
    /\ select_account (user_account_name to g) d' = Some payee
    /\ a_id payee <> a_id t
    /\ postings (a_id t) (as_id a) d'
       = (postings (a_id t) (as_id a) d
            ++ (if should_refill bal (Some q) then [refill_amount] else [])
            ++ [Dec.neg q])%list
    /\ postings (a_id payee) (as_id a) d'
       = (postings (a_id payee) (as_id a) d ++ [q])%list.
Proof.
  intros Hk Ha Ht Hpos Hq Hbal.
  assert (Hamt : Dec.leb amt (Dec.of_Z 0) = false).
  { destruct (Dec.leb amt (Dec.of_Z 0)) eqn:E; [ | reflexivity ].
    apply leb_spec in E. rewrite value_of_Z in E. exfalso.
    exact (Qlt_not_le _ _ Hpos E). }
  destruct (give_run S d g user to symbol amt memo a Hamt Ha)
    as (uid2 & tx & dq & E & Hd).
  cbv zeta in E, Hd. rewrite Ht, Hq, Hbal in E.
  destruct (Hd t q bal) as (Hacc & _ & _ & _ & _ & Hle). clear Hd.
  set (d0 := insert_account (Some uid2) g (user_account_name to g) "user"
               (insert_user to d)) in *.
  destruct (select_account_inserted_id (Some uid2) g (user_account_name to g)
              "user" (insert_user to d)) as (payee & Hpayee & Hpid).
  fold d0 in Hpayee.
  change (account_id_or_next (user_account_name to g) (insert_user to d))
    with (user_account_id to g d) in Hpid.
  assert (Ht0 : select_account (treasury_name g) d0 = Some t).
  { unfold d0. apply select_account_kept. exact Ht. }
  assert (Hk0 : keyed a_id (accounts d0)).
  { unfold d0. apply insert_account_keyed. exact Hk. }
  assert (Hne : a_id payee <> a_id t).
  { apply (account_ids_differ d0 _ _ payee t Hk0 Hpayee Ht0).
    unfold user_account_name, treasury_name. cbn. intros En. discriminate En. }
  assert (Hrows : rows (ledger_entries (dq t q bal))
                  = (rows (ledger_entries d)
                       ++ (if should_refill bal (Some q)
                           then [refill_entry_row d (a_id t) (as_id a)] else [])
                       ++ transfer_entries
                            (if should_refill bal (Some q)
                             then refilled d0 (a_id t) (as_id a) else d0)
                            (a_id t) (a_id payee) (as_id a) q)%list).
  { rewrite Hle, Hpid. destruct (should_refill bal (Some q)).
    - unfold refilled. cbn [ledger_entries set_ledger_entries insert rows].
      rewrite <- app_assoc. reflexivity.
    - reflexivity. }
  exists (dq t q bal), payee.
  split; [ exact E | ].
  split; [ unfold select_account; rewrite Hacc; exact Hpayee | ].
  split; [ exact Hne | ].
  split.
  - rewrite (postings_app d (dq t q bal) _ _ _ Hrows).
    rewrite filter_app, map_app. f_equal. f_equal.
    + destruct (should_refill bal (Some q)); [ | reflexivity ].
      cbn [filter refill_entry_row le_account_id le_asset_id].
      rewrite !Z.eqb_refl. reflexivity.
    + unfold transfer_entries.
      cbn [filter le_account_id le_asset_id map le_amount].
      rewrite !Z.eqb_refl. cbn [andb].
      replace (a_id payee =? a_id t) with false
        by (symmetry; apply Z.eqb_neq; exact Hne).
      reflexivity.
  - rewrite (postings_app d (dq t q bal) _ _ _ Hrows).
    rewrite filter_app, map_app. f_equal.
    replace (map le_amount (filter _ (if should_refill bal (Some q) then _ else _)))
      with (@nil Dec.t).
    + unfold transfer_entries.
      cbn [filter le_account_id le_asset_id map le_amount app].
      rewrite !Z.eqb_refl. cbn [andb].
      replace (a_id t =? a_id payee) with false
        by (symmetry; apply Z.eqb_neq; congruence).
      reflexivity.
    + destruct (should_refill bal (Some q)); [ | reflexivity ].
      cbn [filter refill_entry_row le_account_id le_asset_id].
      replace (a_id t =? a_id payee) with false
        by (symmetry; apply Z.eqb_neq; congruence).
      reflexivity.
Qed.

(** The treasury of [gold_db] holds 1000000000; /give of 3000000000.005
    refills it once and leaves it at -1000000000. *)
Lemma give_issues_from_treasury_witness :
  exists d' payee,
    @give_currency plain_sqlite (Some 1) 42 43 "gold"
      (Some (Dec.mk 3000000000005 (-3))) None gold_db
    = (Ok (GiveSent (Dec.mk 300000000000 (-2))), d')
    /\ select_account (user_account_name 43 1) d' = Some payee
    /\ a_id payee <> 1
    /\ postings 1 1 d'
       = [Dec.of_Z 1000000000; Dec.of_Z 1000000000; Dec.mk (-300000000000) (-2)]
    /\ postings (a_id payee) 1 d' = [Dec.mk 300000000000 (-2)].
Proof.
  destruct (give_issues_from_treasury plain_sqlite gold_db 1 42 43 "gold"
              (Dec.mk 3000000000005 (-3)) None
              {| as_id := 1; as_guild_id := 1; as_symbol := "GOLD";
                 as_name := "Gold coin"; as_decimals := 2 |}
              {| a_id := 1; a_user_id := None; a_guild_id := 1;
                 a_name := "treasury:1"; a_type := "treasury" |}
              (Dec.mk 300000000000 (-2)) (Dec.of_Z 1000000000)
              ltac:(keyed_rows) ltac:(vm_compute; reflexivity)
              ltac:(vm_compute; reflexivity) ltac:(vm_compute; reflexivity)
              ltac:(vm_compute; reflexivity) ltac:(vm_compute; reflexivity))
    as (d' & payee & E & Hp & Hne & Ht & Hu).
  exists d', payee. cbn [a_id as_id] in *.
  split; [ exact E | ]. split; [ exact Hp | ]. split; [ exact Hne | ].
  split; [ rewrite Ht; vm_compute; reflexivity | ].
  rewrite Hu.
  assert (Hin : forall acc, acc <> 1 -> postings acc 1 gold_db = []).
  { intros acc Hacc. unfold postings.
    replace (rows (ledger_entries gold_db))
      with [ {| le_id := 1; le_tx_id := 1; le_account_id := 1; le_asset_id := 1;
                le_amount := Dec.of_Z 1000000000 |} ] by (vm_compute; reflexivity).
    cbn [filter le_account_id le_asset_id].
    replace (1 =? acc) with false by (symmetry; apply Z.eqb_neq; congruence).
    reflexivity. }
  rewrite (Hin _ Hne). reflexivity.
Defined.

Lemma nearest_even_bounds (n d : Z) :
  0 <= n -> 0 < d ->
  - d <= 2 * (Dec.nearest_even n d * d - n) <= d.
Proof.
  intros Hn Hd. unfold Dec.nearest_even.
  pose proof (Z.div_mod n d ltac:(lia)) as Hdm.
  pose proof (Z.mod_pos_bound n d Hd) as Hmb.
  set (k := n / d) in *. set (r := n mod d) in *. clearbody k r. subst n.
  destruct (2 * r ?= d) eqn:C.
  - apply Z.compare_eq in C. destruct (Z.even k); lia.
  - change (2 * r < d) in C. lia.
  - change (2 * r > d) in C. lia.
Qed.

(** ROUND_HALF_EVEN: the result is within half a unit of the amount. *)
Lemma quantize_half_even_bounds (x q : Dec.t) (decimals : Z) :
  quantize_half_even x decimals = Some q ->
  Dec.expo q = (if 0 <=? decimals then - decimals else 0)
  /\ (Dec.value q + Dec.value q
      <= Dec.value x + Dec.value x + Dec.value (Dec.mk 1 (Dec.expo q)))%Q
  /\ (Dec.value x + Dec.value x
      <= Dec.value q + Dec.value q + Dec.value (Dec.mk 1 (Dec.expo q)))%Q
  /\ (Dec.expo q <= Dec.expo x -> (Dec.value q == Dec.value x)%Q).
Proof.
  unfold quantize_half_even. destruct x as [c e]. cbn [Dec.coeff Dec.expo].
  set (t := if 0 <=? decimals then - decimals else 0).
  destruct (_ <? _); [ | discriminate ]. intros Hq. injection Hq as <-.
  cbn [Dec.expo]. split; [ reflexivity | ].
  assert (Hexact : t <= e ->
            (Dec.value (Dec.mk (if t <=? e then c * 10 ^ (e - t)
                                else Z.sgn c * Dec.nearest_even (Z.abs c) (10 ^ (t - e))) t)
             == Dec.value (Dec.mk c e))%Q).
  { intros Hte. apply Z.leb_le in Hte. rewrite Hte. apply Z.leb_le in Hte.
    set (n := Z.max 0 (Z.max (- e) (- t))).
    assert (Hn : 0 <= n) by lia.
    assert (Hen : 0 <= e + n) by lia.
    assert (Htn : 0 <= t + n) by lia.
    rewrite (value_scaled c e n Hn Hen), (value_scaled _ t n Hn Htn).
    replace (e + n) with ((e - t) + (t + n)) by lia.
    rewrite (Z.pow_add_r 10 (e - t) (t + n)) by lia.
    rewrite Z.mul_assoc. reflexivity. }
  match goal with |- ?A /\ ?B /\ _ =>
    enough (Hb : A /\ B)
      by (destruct Hb as [Hb1 Hb2];
          split; [ exact Hb1 | split; [ exact Hb2 | exact Hexact ] ]) end.
  clear Hexact.
  set (n := Z.max 0 (Z.max (- e) (- t))).
  assert (Hn : 0 <= n) by lia.
  assert (Hen : 0 <= e + n) by lia.
  assert (Htn : 0 <= t + n) by lia.
  rewrite (value_scaled c e n Hn Hen), (value_scaled 1 t n Hn Htn).
  rewrite (value_scaled _ t n Hn Htn), !scaled_plus, !scaled_le by exact Hn.
  destruct (t <=? e) eqn:Hte.
  - apply Z.leb_le in Hte.
    replace (e + n) with ((e - t) + (t + n)) by lia.
    rewrite (Z.pow_add_r 10 (e - t) (t + n)) by lia.
    assert (H2 : 0 < 10 ^ (t + n)) by (apply Z.pow_pos_nonneg; lia).
    nia.
  - apply Z.leb_gt in Hte.
    replace (t + n) with ((t - e) + (e + n)) by lia.
    rewrite (Z.pow_add_r 10 (t - e) (e + n)) by lia.
    assert (H1 : 0 < 10 ^ (t - e)) by (apply Z.pow_pos_nonneg; lia).
    assert (H2 : 0 < 10 ^ (e + n)) by (apply Z.pow_pos_nonneg; lia).
    pose proof (nearest_even_bounds (Z.abs c) (10 ^ (t - e)) ltac:(lia) H1) as Hb.
    set (m := Dec.nearest_even (Z.abs c) (10 ^ (t - e))) in *.
    set (K := 10 ^ (t - e)) in *. set (P := 10 ^ (e + n)) in *.
    destruct (Z.lt_trichotomy c 0) as [Hc | [Hc | Hc]].
    + rewrite Z.sgn_neg by exact Hc. rewrite Z.abs_neq in Hb by lia. nia.
    + subst c. cbn [Z.sgn Z.abs] in *. nia.
    + rewrite Z.sgn_pos by exact Hc. rewrite Z.abs_eq in Hb by lia. nia.
Qed.

Lemma give_sent_amount (S : Sqlite) (d d' : DB) (guild : option Z) (user to : Z)
  (symbol : string) (amount : option Dec.t) (memo : option string) (q : Dec.t) :
  give_currency guild user to symbol amount memo d = (Ok (GiveSent q), d') ->
  exists g amt a,
    guild = Some g /\ amount = Some amt
    /\ Dec.leb amt (Dec.of_Z 0) = false
    /\ select_asset (upper symbol) g d = Some a
    /\ quantize_half_even amt (as_decimals a) = Some q.
Proof.
  destruct guild as [g | ]; [ | discriminate ].
  destruct amount as [amt | ]; [ | discriminate ].
  destruct (Dec.leb amt (Dec.of_Z 0)) eqn:Hamt;
    [ unfold give_currency; rewrite Hamt; discriminate | ].
  destruct (select_asset (upper symbol) g d) as [a | ] eqn:Ha.
  2:{ unfold give_currency. rewrite Hamt.
      unfold with_connection, bind at 1, get_asset, query. cbn [work connect].
      rewrite upper_idem, Ha. discriminate. }
  destruct (give_run S d g user to symbol amt memo a Hamt Ha)
    as (uid2 & tx & dq & E & _).
  cbv zeta in E. rewrite E.
  destruct (select_account (treasury_name g) d) as [t | ]; [ | discriminate ].
  destruct (quantize_half_even amt (as_decimals a)) as [q' | ] eqn:Hq; [ | discriminate ].
  destruct (balance_in d _ _) as [bal | e]; [ | discriminate ].
  intros H. injection H as <- _.
  exists g, amt, a. repeat split; assumption.
Qed.

(** X11 (cogs/currency.py, give_currency): /give rounds the amount half to
    even (the default of Decimal.quantize), where /pay rounds down.  The
    amount q that is issued is within half a unit of the amount asked for,
    and is that amount when it has no more decimal places than q. *)
Theorem give_rounds_half_even (S : Sqlite) (d d' : DB) (guild : option Z)
  (user to : Z) (symbol : string) (amount : option Dec.t) (memo : option string)
  (q : Dec.t) :
  give_currency guild user to symbol amount memo d = (Ok (GiveSent q), d') ->
  exists g amt a,
    guild = Some g /\ amount = Some amt
    /\ select_asset (upper symbol) g d = Some a
    /\ Dec.expo q = (if 0 <=? as_decimals a then - as_decimals a else 0)
    /\ (Dec.value q + Dec.value q
        <= Dec.value amt + Dec.value amt + Dec.value (Dec.mk 1 (Dec.expo q)))%Q
    /\ (Dec.value amt + Dec.value amt
        <= Dec.value q + Dec.value q + Dec.value (Dec.mk 1 (Dec.expo q)))%Q
    /\ (Dec.expo q <= Dec.expo amt -> (Dec.value q == Dec.value amt)%Q).
Proof.
  intros H. apply give_sent_amount in H.
  destruct H as (g & amt & a & -> & -> & _ & Ha & Hq).
  exists g, amt, a. split; [ reflexivity | ]. split; [ reflexivity | ].
  split; [ exact Ha | ]. exact (quantize_half_even_bounds amt q (as_decimals a) Hq).
Qed.

(** /give of 0.125 GOLD (two decimals) issues 0.12, /pay of 0.125 would
    send 0.12 as well, /give of 0.135 issues 0.14. *)
Lemma give_rounds_half_even_witness :
  exists g amt a,
    Some 1 = Some g /\ Some (Dec.mk 135 (-3)) = Some amt
    /\ select_asset (upper "gold") g gold_db = Some a
    /\ Dec.expo (Dec.mk 14 (-2)) = (if 0 <=? as_decimals a then - as_decimals a else 0)
    /\ (Dec.value (Dec.mk 14 (-2)) + Dec.value (Dec.mk 14 (-2))
        <= Dec.value amt + Dec.value amt
           + Dec.value (Dec.mk 1 (Dec.expo (Dec.mk 14 (-2)))))%Q
    /\ (Dec.value amt + Dec.value amt
        <= Dec.value (Dec.mk 14 (-2)) + Dec.value (Dec.mk 14 (-2))
           + Dec.value (Dec.mk 1 (Dec.expo (Dec.mk 14 (-2)))))%Q
    /\ (Dec.expo (Dec.mk 14 (-2)) <= Dec.expo amt
        -> (Dec.value (Dec.mk 14 (-2)) == Dec.value amt)%Q).
Proof.
  apply (give_rounds_half_even plain_sqlite gold_db
           (snd (@give_currency plain_sqlite (Some 1) 42 43 "gold"
                   (Some (Dec.mk 135 (-3))) None gold_db))
           (Some 1) 42 43 "gold" (Some (Dec.mk 135 (-3))) None (Dec.mk 14 (-2))).
  vm_compute. reflexivity.
Defined.

(** ** Deleting a currency *)

Lemma confirm_delete_run (view : CurrencyDeleteConfirmView) (user : Z) (d : DB) :
  confirm_delete view user d
  = if user =? dv_user view
    then (Ok DeleteDone,
          delete_asset (as_id (dv_asset_info view))
            (delete_ledger_entries (as_id (dv_asset_info view)) d))
    else (Ok DeleteNotOwner, d).
Proof.
  unfold confirm_delete. destruct (user =? dv_user view); reflexivity.
Qed.

(** X12 (models.py, CurrencyDeleteConfirmView.confirm_delete and
    _execute_deletion): pressed by anyone but the user who ran /delete, the
    button changes nothing.  Pressed by that user it removes the asset row
    and every posting in the asset, so that every balance in it reads 0;
    postings in other assets and the other asset rows stay; the
    transactions, the accounts and the monthly allowance settings are not
    touched. *)
Theorem confirm_delete_effect (S : Sqlite) (view : CurrencyDeleteConfirmView)
  (user : Z) (d : DB) :
  exists r d',
    confirm_delete view user d = (Ok r, d')
    /\ (user <> dv_user view -> r = DeleteNotOwner /\ d' = d)
    /\ (user = dv_user view ->
        r = DeleteDone
        /\ select_asset_by_id (as_id (dv_asset_info view)) d' = None
        /\ (forall acc,
              balance_in d' acc (as_id (dv_asset_info view)) = Ok (Dec.of_Z 0))
        /\ (forall acc asset, asset <> as_id (dv_asset_info view) ->
              postings acc asset d' = postings acc asset d)
        /\ (forall a, as_id a <> as_id (dv_asset_info view) ->
              (In a (rows (assets d')) <-> In a (rows (assets d))))
        /\ transactions d' = transactions d
        /\ accounts d' = accounts d
        /\ monthly_allowances d' = monthly_allowances d).
Proof.
  rewrite confirm_delete_run. set (id := as_id (dv_asset_info view)).
  destruct (user =? dv_user view) eqn:E.
  - apply Z.eqb_eq in E. eexists. eexists. split; [ reflexivity | ].
    split; [ intros Hne; contradiction | ]. intros _.
    split; [ reflexivity | ].
    split.
    { unfold select_asset_by_id, delete_asset. cbn [assets set_assets rows].
      apply find_none_existsb. apply not_true_is_false. intros Hex.
      apply existsb_exists in Hex. destruct Hex as (a & Hin & Ha).
      apply filter_In in Hin. destruct Hin as [_ Hn]. rewrite Ha in Hn. discriminate. }
    split.
    { intros acc. apply balance_in_no_postings.
      unfold postings, delete_asset, delete_ledger_entries.
      cbn [ledger_entries set_assets set_ledger_entries rows].
      replace (filter _ (filter _ _)) with (@nil LedgerEntry); [ reflexivity | ].
      symmetry. apply filter_none. apply Forall_forall. intros e He.
      apply filter_In in He. destruct He as [_ He].
      apply negb_true_iff in He. rewrite He. apply andb_false_r. }
    split.
    { intros acc asset Hne. unfold postings, delete_asset, delete_ledger_entries.
      cbn [ledger_entries set_assets set_ledger_entries rows]. f_equal.
      induction (rows (ledger_entries d)) as [ | e l IH ]; [ reflexivity | ].
      cbn [filter]. destruct (le_asset_id e =? id) eqn:Ee; cbn [negb filter].
      - apply Z.eqb_eq in Ee.
        replace (le_asset_id e =? asset) with false
          by (symmetry; apply Z.eqb_neq; congruence).
        rewrite andb_false_r. exact IH.
      - destruct (_ && _); [ f_equal | ]; exact IH. }
    split.
    { intros a Hne. unfold delete_asset, delete_ledger_entries.
      cbn [assets set_assets set_ledger_entries rows]. rewrite filter_In.
      split; [ tauto | ]. intros Hin. split; [ exact Hin | ].
      apply negb_true_iff. apply Z.eqb_neq. exact Hne. }
    repeat split.
  - apply Z.eqb_neq in E. eexists. eexists. split; [ reflexivity | ].
    split; [ intros _; split; reflexivity | ]. intros He. contradiction.
Qed.

(** X13 (models.py, _execute_deletion; cogs/currency.py, create_currency):
    a currency that was deleted can be created again under the same symbol.
    The new asset gets a fresh id, not the id of the deleted one, and its
    treasury balance is exactly 1000000000: nothing of the old ledger comes
    back.  The hypotheses are the constraints of the schema
    (UNIQUE(guild_id, symbol), AUTOINCREMENT ids) and that postings refer
    to assets that were created. *)
Theorem recreate_after_delete (S : Sqlite) (d : DB) (g user decimals : Z)
  (symbol name : string) (a : Asset) :
  symbols_unique d ->
  asset_ids_bounded d ->
  keyed as_id (assets d) ->
  select_asset (upper symbol) g d = Some a ->
  exists d1 d2 a',
    confirm_delete {| dv_symbol := upper symbol; dv_guild_id := g;
                      dv_user := user; dv_asset_info := a |} user d
    = (Ok DeleteDone, d1)
    /\ create_currency (Some g) user symbol name decimals d1
       = (Ok (Created (upper symbol)), d2)
    /\ select_asset (upper symbol) g d2 = Some a'
    /\ as_id a' = seq (assets d) + 1
    /\ as_id a' <> as_id a
    /\ balance_in d2 (account_id_or_next (treasury_name g) d) (as_id a')
       = Ok (Dec.of_Z 1000000000).
Proof.
  intros Huniq Hb Hk Ha.
  set (d1 := delete_asset (as_id a) (delete_ledger_entries (as_id a) d)).
  assert (Hdel : confirm_delete {| dv_symbol := upper symbol; dv_guild_id := g;
                                   dv_user := user; dv_asset_info := a |} user d
                 = (Ok DeleteDone, d1)).
  { rewrite confirm_delete_run. cbn [dv_user dv_asset_info]. rewrite Z.eqb_refl.
    reflexivity. }
  assert (Hnone : select_asset (upper symbol) g d1 = None).
  { unfold select_asset, d1, delete_asset. cbn [assets set_assets rows].
    apply find_none_existsb. apply not_true_is_false. intros Hex.
    apply existsb_exists in Hex. destruct Hex as (b & Hin & Hp).
    apply filter_In in Hin. destruct Hin as [Hin Hn].
    unfold delete_ledger_entries in Hin. cbn [assets set_ledger_entries] in Hin.
    apply andb_true_iff in Hp. destruct Hp as [Hs Hg].
    apply String.eqb_eq in Hs. apply Z.eqb_eq in Hg.
    unfold select_asset in Ha. apply find_some in Ha. destruct Ha as [Hina Hpa].
    apply andb_true_iff in Hpa. destruct Hpa as [Hsa Hga].
    apply String.eqb_eq in Hsa. apply Z.eqb_eq in Hga.
    assert (Eab : b = a) by (apply Huniq; congruence).
    subst b. rewrite Z.eqb_refl in Hn. discriminate. }
  destruct (create_currency_run d1 g user decimals symbol name Hnone)
    as (d2 & uid & t & Hcreate & Hsel & Ht & Htid & Htx & Hle).
  exists d1, d2. eexists.
  split; [ exact Hdel | ]. split; [ exact Hcreate | ]. split; [ exact Hsel | ].
  cbn [as_id].
  split; [ reflexivity | ].
  split.
  { destruct Hk as [_ Hbound]. rewrite Forall_forall in Hbound.
    unfold select_asset in Ha. apply find_some in Ha. destruct Ha as [Hina _].
    specialize (Hbound a Hina). cbn in Hbound.
    change (seq (assets d1)) with (seq (assets d)). lia. }
  assert (Hb1 : asset_ids_bounded d1).
  { unfold asset_ids_bounded, d1, delete_asset, delete_ledger_entries.
    cbn [assets ledger_entries set_assets set_ledger_entries rows seq].
    apply Forall_forall. intros e He. apply filter_In in He. destruct He as [He _].
    unfold asset_ids_bounded in Hb. rewrite Forall_forall in Hb. exact (Hb e He). }
  pose proof (initial_issue_postings d1 d2 g Hb1 Hle) as Hpost.
  change (account_id_or_next (treasury_name g) d1)
    with (account_id_or_next (treasury_name g) d) in Hpost.
  change (seq (assets d1)) with (seq (assets d)) in *.
  unfold balance_in. rewrite Hpost. reflexivity.
Qed.

Lemma recreate_after_delete_witness :
  exists d1 d2 a',
    confirm_delete {| dv_symbol := upper "gold"; dv_guild_id := 1; dv_user := 42;
                      dv_asset_info :=
                        {| as_id := 1; as_guild_id := 1; as_symbol := "GOLD";
                           as_name := "Gold coin"; as_decimals := 2 |} |} 42 alice_db
    = (Ok DeleteDone, d1)
    /\ create_currency (Some 1) 42 "gold" "New gold" 0 d1
       = (Ok (Created (upper "gold")), d2)
    /\ select_asset (upper "gold") 1 d2 = Some a'
    /\ as_id a' = seq (assets alice_db) + 1
    /\ as_id a' <> 1
    /\ @balance_in plain_sqlite d2 (account_id_or_next (treasury_name 1) alice_db)
         (as_id a')
       = Ok (Dec.of_Z 1000000000).
Proof.
  apply (recreate_after_delete plain_sqlite alice_db 1 42 0 "gold" "New gold"
           {| as_id := 1; as_guild_id := 1; as_symbol := "GOLD";
              as_name := "Gold coin"; as_decimals := 2 |}).
  - intros a b Ha Hb _ _.
    assert (E : rows (assets alice_db)
                = [ {| as_id := 1; as_guild_id := 1; as_symbol := "GOLD";
                       as_name := "Gold coin"; as_decimals := 2 |} ])
      by (vm_compute; reflexivity).
    rewrite E in Ha, Hb. destruct Ha as [<- | []]. destruct Hb as [<- | []].
    reflexivity.
  - unfold asset_ids_bounded. vm_compute.
    repeat (constructor; [ discriminate | ]). constructor.
  - keyed_rows.
  - vm_compute. reflexivity.
Defined.

(** ** The expiry sweep *)

Lemma filter_filter {A : Type} (f g : A -> bool) (l : list A) :
  filter f (filter g l) = filter (fun a => g a && f a) l.
Proof.
  induction l as [ | a l IH ]; [ reflexivity | ]. cbn [filter].
  destruct (g a); cbn [filter andb]; [ destruct (f a); [ f_equal | ]; exact IH | exact IH ].
Qed.

Lemma strip_expired_run (bot : list Guild) (refused : Z -> Z -> Z -> bool)
  (expired : list ExpiredPurchase) (c : Conn) :
  strip_expired bot refused expired c
  = (Ok tt,
     {| durable := durable c;
        work :=
          set_role_purchases
            {| rows :=
                 filter
                   (fun p =>
                      negb (existsb
                              (fun x => expiry_deletes bot refused x
                                        && (pu_id p =? ex_purchase_id x)) expired))
                   (rows (role_purchases (work c)));
               seq := seq (role_purchases (work c)) |} (work c) |}).
Proof.
  revert c. induction expired as [ | x rest IH ]; intros c.
  - cbn [strip_expired existsb negb]. unfold ret. f_equal.
    destruct c as [dur w]. cbn [work durable]. f_equal.
    assert (E : forall l : list RolePurchase, filter (fun _ => true) l = l).
    { induction l as [ | a l IHl ]; [ reflexivity | cbn; now rewrite IHl ]. }
    rewrite E. destruct w as [? ? ? ? ? ? rp ? ?]. destruct rp. reflexivity.
  - assert (Hdel : (_ <- execute (delete_purchase (ex_purchase_id x)) ;;
                    strip_expired bot refused rest) c
                   = (Ok tt,
                      {| durable := durable c;
                         work := set_role_purchases
                           {| rows := filter
                                (fun p => negb (pu_id p =? ex_purchase_id x)
                                          && negb (existsb
                                               (fun y => expiry_deletes bot refused y
                                                         && (pu_id p =? ex_purchase_id y))
                                               rest))
                                (rows (role_purchases (work c)));
                              seq := seq (role_purchases (work c)) |} (work c) |})).
    { unfold bind, execute. rewrite IH. cbn [work durable].
      unfold delete_purchase. cbn [role_purchases set_role_purchases rows seq].
      rewrite filter_filter. reflexivity. }
    assert (Hkeep : expiry_deletes bot refused x = false ->
                    strip_expired bot refused rest c
                    = (Ok tt,
                       {| durable := durable c;
                          work := set_role_purchases
                            {| rows := filter
                                 (fun p => negb (existsb
                                    (fun x => expiry_deletes bot refused x
                                              && (pu_id p =? ex_purchase_id x))
                                    (x :: rest)))
                                 (rows (role_purchases (work c)));
                               seq := seq (role_purchases (work c)) |} (work c) |})).
    { intros Hx. rewrite IH. cbn [existsb]. rewrite Hx. reflexivity. }
    assert (Hdrop : expiry_deletes bot refused x = true ->
                    (_ <- execute (delete_purchase (ex_purchase_id x)) ;;
                     strip_expired bot refused rest) c
                    = (Ok tt,
                       {| durable := durable c;
                          work := set_role_purchases
                            {| rows := filter
                                 (fun p => negb (existsb
                                    (fun x => expiry_deletes bot refused x
                                              && (pu_id p =? ex_purchase_id x))
                                    (x :: rest)))
                                 (rows (role_purchases (work c)));
                               seq := seq (role_purchases (work c)) |} (work c) |})).
    { intros Hx. rewrite Hdel. cbn [existsb]. rewrite Hx. f_equal. f_equal. f_equal.
      f_equal. apply filter_ext. intros p. cbn [andb]. rewrite negb_orb. reflexivity. }
    cbn [strip_expired]. unfold expiry_deletes in Hkeep, Hdrop.
    destruct (find (fun g => g_id g =? ex_guild_id x) bot) as [guild | ];
      [ | apply Hkeep; reflexivity ].
    destruct (find (fun m => m_id m =? ex_discord_user_id x) (g_members guild))
      as [member | ]; [ | apply Hdrop; reflexivity ].
    destruct (existsb (Z.eqb (ex_role_id x)) (g_roles guild)); cbn [negb andb] in *;
      [ | apply Hdrop; reflexivity ].
    destruct (existsb (Z.eqb (ex_role_id x)) (m_roles member)
              && refused (g_id guild) (m_id member) (ex_role_id x)); cbn [negb] in *;
      [ apply Hkeep; reflexivity | apply Hdrop; reflexivity ].
Qed.

Lemma expired_purchases_in (now : Z) (d : DB) (x : ExpiredPurchase) :
  In x (expired_purchases now d) <->
  exists rp pl u,
    In rp (rows (role_purchases d))
    /\ find (fun pl => rp_id pl =? pu_plan_id rp) (rows (role_plans d)) = Some pl
    /\ find (fun u => u_id u =? pu_user_id rp) (rows (users d)) = Some u
    /\ pu_expires_at rp <= now
    /\ x = {| ex_purchase_id := pu_id rp; ex_guild_id := pu_guild_id rp;
              ex_role_id := rp_role_id pl;
              ex_discord_user_id := u_discord_user_id u |}.
Proof.
  unfold expired_purchases. rewrite in_flat_map. split.
  - intros (rp & Hin & Hx).
    destruct (find _ (rows (role_plans d))) as [pl | ] eqn:Hpl; [ | destruct Hx ].
    destruct (find _ (rows (users d))) as [u | ] eqn:Hu; [ | destruct Hx ].
    destruct (pu_expires_at rp <=? now) eqn:Ht; [ | destruct Hx ].
    destruct Hx as [<- | []]. exists rp, pl, u. apply Z.leb_le in Ht.
    repeat split; assumption.
  - intros (rp & pl & u & Hin & Hpl & Hu & Ht & ->). exists rp. split; [ exact Hin | ].
    rewrite Hpl, Hu. apply Z.leb_le in Ht. rewrite Ht. left. reflexivity.
Qed.

Lemma expiry_sweep_spec (bot : list Guild)
  (refused : Z -> Z -> Z -> bool) (now : Z) (d : DB) :
  keyed pu_id (role_purchases d) ->
  exists d',
    check_expired_roles bot refused now d = (Ok tt, d')
    /\ (forall p, In p (rows (role_purchases d')) -> In p (rows (role_purchases d)))
    /\ (forall p, In p (rows (role_purchases d)) -> now < pu_expires_at p ->
          In p (rows (role_purchases d')))
    /\ (forall p, In p (rows (role_purchases d)) ->
          find (fun g => g_id g =? pu_guild_id p) bot = None ->
          In p (rows (role_purchases d')))
    /\ (forall p pl u guild,
          In p (rows (role_purchases d)) ->
          pu_expires_at p <= now ->
          find (fun pl => rp_id pl =? pu_plan_id p) (rows (role_plans d)) = Some pl ->
          find (fun u => u_id u =? pu_user_id p) (rows (users d)) = Some u ->
          find (fun g => g_id g =? pu_guild_id p) bot = Some guild ->
          (forall m,
             find (fun m => m_id m =? u_discord_user_id u) (g_members guild) = Some m ->
             refused (g_id guild) (m_id m) (rp_role_id pl) = false) ->
          ~ In p (rows (role_purchases d')))
    /\ ledger_entries d' = ledger_entries d
    /\ transactions d' = transactions d
    /\ role_plans d' = role_plans d.
Proof.
  intros Hk. unfold check_expired_roles, with_connection, bind at 1, query.
  cbn [work connect]. unfold bind at 1. rewrite strip_expired_run.
  unfold commit, close. cbn [work durable connect].
  eexists. split; [ reflexivity | ].
  cbn [role_purchases set_role_purchases rows ledger_entries transactions role_plans].
  assert (Hsame : forall p x,
            In p (rows (role_purchases d)) -> In x (expired_purchases now d) ->
            (pu_id p =? ex_purchase_id x) = true ->
            pu_expires_at p <= now /\ ex_guild_id x = pu_guild_id p
            /\ exists pl u,
                 find (fun pl => rp_id pl =? pu_plan_id p) (rows (role_plans d)) = Some pl
                 /\ find (fun u => u_id u =? pu_user_id p) (rows (users d)) = Some u
                 /\ ex_role_id x = rp_role_id pl
                 /\ ex_discord_user_id x = u_discord_user_id u).
  { intros p x Hp Hx Hid. apply expired_purchases_in in Hx.
    destruct Hx as (rp & pl & u & Hin & Hpl & Hu & Ht & ->).
    cbn [ex_purchase_id] in Hid. apply Z.eqb_eq in Hid.
    assert (E : p = rp) by (apply (keyed_inj pu_id _ _ _ Hk Hp Hin Hid)). subst rp.
    split; [ exact Ht | ]. split; [ reflexivity | ].
    exists pl, u. repeat split; assumption. }
  split.
  { intros p Hp. apply filter_In in Hp. tauto. }
  split.
  { intros p Hp Hlate. apply filter_In. split; [ exact Hp | ].
    apply negb_true_iff. apply not_true_is_false. intros Hex.
    apply existsb_exists in Hex. destruct Hex as (x & Hx & Hc).
    apply andb_true_iff in Hc. destruct Hc as [_ Hid].
    destruct (Hsame p x Hp Hx Hid) as [Ht _]. lia. }
  split.
  { intros p Hp Hguild. apply filter_In. split; [ exact Hp | ].
    apply negb_true_iff. apply not_true_is_false. intros Hex.
    apply existsb_exists in Hex. destruct Hex as (x & Hx & Hc).
    apply andb_true_iff in Hc. destruct Hc as [Hdel Hid].
    destruct (Hsame p x Hp Hx Hid) as (_ & Hg & _).
    unfold expiry_deletes in Hdel. rewrite Hg, Hguild in Hdel. discriminate. }
  split.
  { intros p pl u guild Hp Ht Hpl Hu Hguild Hallowed Hin.
    apply filter_In in Hin. destruct Hin as [_ Hkeep].
    apply negb_true_iff in Hkeep.
    assert (Hex : existsb
              (fun x => expiry_deletes bot refused x && (pu_id p =? ex_purchase_id x))
              (expired_purchases now d) = true).
    { apply existsb_exists.
      exists {| ex_purchase_id := pu_id p; ex_guild_id := pu_guild_id p;
                ex_role_id := rp_role_id pl;
                ex_discord_user_id := u_discord_user_id u |}.
      split.
      - apply expired_purchases_in. exists p, pl, u. repeat split; assumption.
      - cbn [ex_purchase_id]. rewrite Z.eqb_refl, andb_true_r.
        unfold expiry_deletes.
        cbn [ex_guild_id ex_discord_user_id ex_role_id]. rewrite Hguild.
        destruct (find _ (g_members guild)) as [m | ]; [ | reflexivity ].
        rewrite (Hallowed m eq_refl). rewrite andb_false_r. reflexivity. }
    congruence. }
  repeat split.
Qed.

(** X14 (cogs/role_expiry.py, check_expired_roles): what the expiry sweep
    does to the purchase records, on the clock of the handlers.  It adds
    none; it keeps every record that has not expired and every record of a
    guild the bot does not know; it deletes an expired record (joined to
    its plan and its user) of a known guild unless the removal of the role
    was refused; the ledger, the transactions and the plans are untouched. *)
Theorem expiry_sweep_removes_expired (bot : list Guild)
  (refused : Z -> Z -> Z -> bool) (now : Z) (d : DB) :
  keyed pu_id (role_purchases d) ->
  exists d',
    check_expired_roles bot refused now d = (Ok tt, d')
    /\ (forall p, In p (rows (role_purchases d')) -> In p (rows (role_purchases d)))
    /\ (forall p, In p (rows (role_purchases d)) -> now < pu_expires_at p ->
          In p (rows (role_purchases d')))
    /\ (forall p, In p (rows (role_purchases d)) ->
          find (fun g => g_id g =? pu_guild_id p) bot = None ->
          In p (rows (role_purchases d')))
    /\ (forall p pl u guild,
          In p (rows (role_purchases d)) ->
          pu_expires_at p <= now ->
          find (fun pl => rp_id pl =? pu_plan_id p) (rows (role_plans d)) = Some pl ->
          find (fun u => u_id u =? pu_user_id p) (rows (users d)) = Some u ->
          find (fun g => g_id g =? pu_guild_id p) bot = Some guild ->
          (forall m,
             find (fun m => m_id m =? u_discord_user_id u) (g_members guild) = Some m ->
             refused (g_id guild) (m_id m) (rp_role_id pl) = false) ->
          ~ In p (rows (role_purchases d')))
    /\ ledger_entries d' = ledger_entries d
    /\ transactions d' = transactions d
    /\ role_plans d' = role_plans d.
Proof. exact (expiry_sweep_spec bot refused now d). Qed.

Lemma expiry_sweep_removes_expired_witness :
  keyed pu_id (role_purchases purchased_db)
  /\ exists d',
       check_expired_roles guild_at_first_run (fun _ _ _ => false) 24 purchased_db
       = (Ok tt, d')
       /\ (forall p, In p (rows (role_purchases d')) ->
             In p (rows (role_purchases purchased_db)))
       /\ ledger_entries d' = ledger_entries purchased_db.
Proof.
  assert (Hk : keyed pu_id (role_purchases purchased_db)) by keyed_rows.
  split; [ exact Hk | ].
  destruct (expiry_sweep_removes_expired guild_at_first_run (fun _ _ _ => false) 24
              purchased_db Hk) as (d' & E & Hsub & _ & _ & _ & Hl & _).
  exists d'. split; [ exact E | ]. split; [ exact Hsub | exact Hl ].
Defined.

(** ** A purchase and its expiry *)

Lemma role_purchase_record (S : Sqlite) (d d' : DB) (panel_id plan_id g user now : Z)
  (roles : list Z) (r : PurchaseResponse) :
  role_plan_callback panel_id plan_id g user now roles d = (Ok r, d') ->
  r = Purchased \/ r = PurchasedRoleMissing ->
  exists pl x,
    select_plan plan_id panel_id d = Some pl
    /\ In x (rows (users d'))
    /\ rows (role_purchases d')
       = (rows (role_purchases d)
            ++ [ {| pu_id := seq (role_purchases d) + 1; pu_user_id := u_id x;
                    pu_plan_id := rp_id pl; pu_guild_id := g;
                    pu_expires_at := now + rp_duration_hours pl |} ])%list
    /\ seq (role_purchases d') = seq (role_purchases d) + 1
    /\ role_plans d' = role_plans d
    /\ r = (if existsb (Z.eqb (rp_role_id pl)) roles
            then Purchased else PurchasedRoleMissing).
Proof.
  unfold role_plan_callback, with_connection, bind at 1, query. cbn [work connect].
  destruct (select_plan plan_id panel_id d) as [p | ] eqn:Hp.
  2:{ intros H [-> | ->]; discriminate H. }
  unfold bind at 1, get_asset, query. cbn [work connect].
  destruct (select_asset (upper (rp_currency_symbol p)) g d) as [a | ] eqn:Ha.
  2:{ intros H [-> | ->]; discriminate H. }
  unfold bind at 1.
  destruct (upsert_user_value user (connect d)) as (uid & E & x & Hx & Hid).
  rewrite E. clear E. cbn [work connect durable] in *.
  unfold bind at 1.
  match goal with |- context [ensure_user_account user g ?c] =>
    destruct (ensure_user_account_run user g c) as [uid1 E] end.
  rewrite E. clear E.
  unfold bind at 1, balance_of. cbn [work connect durable].
  destruct (balance_in _ _ _) as [bal | e].
  2:{ intros H; discriminate H. }
  destruct (Dec.ltb bal (rp_price p)).
  { intros H [-> | ->]; discriminate H. }
  unfold bind at 1, account_id_by_name, bind at 1, query. cbn [work durable].
  destruct (select_account _ _) as [treasury | ].
  2:{ intros H; discriminate H. }
  run_statements.
  intros H _.
  assert (Hd : d' = snd (Ok r, d')) by reflexivity.
  assert (Hr : Ok r = fst (Ok r, d')) by reflexivity.
  rewrite <- H in Hd, Hr.
  clear H. exists p, x.
  split; [ reflexivity | ].
  rewrite Hd.
  destruct (existsb (Z.eqb (rp_role_id p)) roles); cbn [snd fst] in *;
    injection Hr as ->;
    cbn [insert_account set_accounts set_transactions
         set_ledger_entries set_role_purchases transactions ledger_entries
         role_purchases role_plans users insert rows seq];
    rewrite Hid;
    (split; [ | repeat split ]);
    unfold select_user in Hx; apply find_some in Hx; destruct Hx as [Hx _];
    rewrite insert_user_idem; exact Hx.
Qed.

Lemma find_exists {A : Type} (f : A -> bool) (l : list A) (x : A) :
  In x l -> f x = true -> exists y, find f l = Some y.
Proof.
  intros Hin Hf. destruct (find f l) as [y | ] eqn:E; [ exists y; reflexivity | ].
  pose proof (find_none f l E x Hin). congruence.
Qed.

(** X15 (models.py, RolePlanSelectDropdown.callback; cogs/role_expiry.py,
    check_expired_roles): a purchase and its expiry.  A purchase made at
    hour now under a plan of h hours leaves a record that expires at
    now + h; every sweep before that hour keeps the record, and a sweep at
    or after it, in a guild the bot knows and where no removal is refused,
    deletes it. *)
Theorem purchased_role_expires (S : Sqlite) (d d1 : DB)
  (panel_id plan_id g user now : Z) (roles : list Z) (r : PurchaseResponse) :
  keyed pu_id (role_purchases d) ->
  role_plan_callback panel_id plan_id g user now roles d = (Ok r, d1) ->
  r = Purchased \/ r = PurchasedRoleMissing ->
  exists pl p,
    select_plan plan_id panel_id d = Some pl
    /\ In p (rows (role_purchases d1))
    /\ pu_guild_id p = g
    /\ pu_plan_id p = rp_id pl
    /\ pu_expires_at p = now + rp_duration_hours pl
    /\ (forall bot refused t,
          t < now + rp_duration_hours pl ->
          In p (rows (role_purchases (snd (check_expired_roles bot refused t d1)))))
    /\ (forall bot t guild,
          now + rp_duration_hours pl <= t ->
          find (fun x => g_id x =? g) bot = Some guild ->
          ~ In p (rows (role_purchases
                          (snd (check_expired_roles bot (fun _ _ _ => false) t d1))))).
Proof.
  intros Hk Hrun Hr.
  destruct (role_purchase_record S d d1 panel_id plan_id g user now roles r Hrun Hr)
    as (pl & x & Hpl & Hx & Hrows & Hseq & Hplans & _).
  set (p := {| pu_id := seq (role_purchases d) + 1; pu_user_id := u_id x;
               pu_plan_id := rp_id pl; pu_guild_id := g;
               pu_expires_at := now + rp_duration_hours pl |}) in *.
  assert (Hin : In p (rows (role_purchases d1))).
  { rewrite Hrows. apply in_or_app. right. left. reflexivity. }
  assert (Hk1 : keyed pu_id (role_purchases d1)).
  { pose proof (keyed_insert pu_id
                  (fun i => {| pu_id := i; pu_user_id := u_id x;
                               pu_plan_id := rp_id pl; pu_guild_id := g;
                               pu_expires_at := now + rp_duration_hours pl |})
                  (role_purchases d) ltac:(reflexivity) Hk) as Hi.
    unfold keyed in *. unfold insert in Hi. cbn [rows seq] in Hi.
    rewrite Hrows, Hseq. exact Hi. }
  exists pl, p. split; [ exact Hpl | ]. split; [ exact Hin | ].
  split; [ reflexivity | ]. split; [ reflexivity | ]. split; [ reflexivity | ].
  split.
  - intros bot refused t Ht.
    destruct (expiry_sweep_spec bot refused t d1 Hk1) as (d' & E & _ & Hkeep & _).
    rewrite E. cbn [snd]. apply Hkeep; [ exact Hin | exact Ht ].
  - intros bot t guild Ht Hguild.
    destruct (expiry_sweep_spec bot (fun _ _ _ => false) t d1 Hk1)
      as (d' & E & _ & _ & _ & Hdrop & _).
    rewrite E. cbn [snd].
    unfold select_plan in Hpl. apply find_some in Hpl. destruct Hpl as [Hplin Hplp].
    apply andb_true_iff in Hplp. destruct Hplp as [Hplid _].
    destruct (find_exists (fun q => rp_id q =? pu_plan_id p) (rows (role_plans d1)) pl)
      as [pl' Hpl'].
    { rewrite Hplans. exact Hplin. }
    { cbn [pu_plan_id p]. apply Z.eqb_refl. }
    destruct (find_exists (fun u => u_id u =? pu_user_id p) (rows (users d1)) x Hx)
      as [u' Hu'].
    { cbn [pu_user_id p]. apply Z.eqb_refl. }
    apply (Hdrop p pl' u' guild Hin Ht Hpl' Hu' Hguild).
    intros m _. reflexivity.
Qed.

(** User 42 buys plan 2 (24 hours) at hour 0: the sweeps of hours 1 to 23
    keep the record, the sweep of hour 24 removes it. *)
Lemma purchased_role_expires_witness :
  keyed pu_id (role_purchases shop_db)
  /\ exists pl p,
       select_plan 2 1 shop_db = Some pl
       /\ In p (rows (role_purchases purchased_db))
       /\ pu_guild_id p = 1
       /\ pu_plan_id p = rp_id pl
       /\ pu_expires_at p = 0 + rp_duration_hours pl
       /\ (forall bot refused t,
             t < 0 + rp_duration_hours pl ->
             In p (rows (role_purchases
                           (snd (check_expired_roles bot refused t purchased_db)))))
       /\ (forall bot t guild,
             0 + rp_duration_hours pl <= t ->
             find (fun x => g_id x =? 1) bot = Some guild ->
             ~ In p (rows (role_purchases
                             (snd (check_expired_roles bot (fun _ _ _ => false) t
                                     purchased_db))))).
Proof.
  assert (Hk : keyed pu_id (role_purchases shop_db)) by keyed_rows.
  split; [ exact Hk | ].
  apply (purchased_role_expires plain_sqlite shop_db purchased_db 1 2 1 42 0 [7; 8]
           Purchased Hk).
  - vm_compute. reflexivity.
  - left. reflexivity.
Defined.

(** X16 (models.py, RolePlanSelectDropdown.callback): when the role of the
    plan no longer exists in the guild, the buyer is charged all the same.
    The answer that reports the missing role comes after the commit: the
    price has moved from the buyer to the treasury and the purchase is
    recorded. *)
Theorem purchase_charged_without_role (S : Sqlite) (d d' : DB)
  (panel_id plan_id g user now : Z) (roles : list Z) :
  role_plan_callback panel_id plan_id g user now roles d
  = (Ok PurchasedRoleMissing, d') ->
  exists pl a treasury p,
    select_plan plan_id panel_id d = Some pl
    /\ existsb (Z.eqb (rp_role_id pl)) roles = false
    /\ select_asset (upper (rp_currency_symbol pl)) g d = Some a
    /\ select_account (treasury_name g) d = Some treasury
    /\ rows (ledger_entries d')
       = (rows (ledger_entries d)
            ++ transfer_entries d (user_account_id user g d) (a_id treasury)
                 (as_id a) (rp_price pl))%list
    /\ In p (rows (role_purchases d'))
    /\ pu_plan_id p = rp_id pl
    /\ pu_expires_at p = now + rp_duration_hours pl.
Proof.
  intros H.
  destruct (role_purchase_run S d d' panel_id plan_id g user now roles _ H
              ltac:(right; reflexivity))
    as (pl & a & treasury & tx & Hpl & Ha & Ht & _ & _ & _ & Hle).
  destruct (role_purchase_record S d d' panel_id plan_id g user now roles _ H
              ltac:(right; reflexivity))
    as (pl' & x & Hpl' & _ & Hrows & _ & _ & Hr).
  assert (E : pl' = pl) by congruence. subst pl'.
  exists pl, a, treasury. eexists.
  split; [ exact Hpl | ].
  split; [ destruct (existsb _ roles); [ discriminate Hr | reflexivity ] | ].
  split; [ exact Ha | ]. split; [ exact Ht | ]. split; [ exact Hle | ].
  split; [ rewrite Hrows; apply in_or_app; right; left; reflexivity | ].
  split; reflexivity.
Qed.

(** Plan 2 of [shop_db] grants role 8; in a guild that has only role 7 the
    buyer is charged all the same. *)
Lemma purchase_charged_without_role_witness :
  exists pl a treasury p,
    select_plan 2 1 shop_db = Some pl
    /\ existsb (Z.eqb (rp_role_id pl)) [7] = false
    /\ select_asset (upper (rp_currency_symbol pl)) 1 shop_db = Some a
    /\ select_account (treasury_name 1) shop_db = Some treasury
    /\ rows (ledger_entries
               (snd (@role_plan_callback plain_sqlite 1 2 1 42 0 [7] shop_db)))
       = (rows (ledger_entries shop_db)
            ++ transfer_entries shop_db (user_account_id 42 1 shop_db) (a_id treasury)
                 (as_id a) (rp_price pl))%list
    /\ In p (rows (role_purchases
                     (snd (@role_plan_callback plain_sqlite 1 2 1 42 0 [7] shop_db))))
    /\ pu_plan_id p = rp_id pl
    /\ pu_expires_at p = 0 + rp_duration_hours pl.
Proof.
  apply (purchase_charged_without_role plain_sqlite shop_db
           (snd (@role_plan_callback plain_sqlite 1 2 1 42 0 [7] shop_db))
           1 2 1 42 0 [7]).
  vm_compute. reflexivity.
Defined.

(** ** Who the monthly sweep pays *)

Lemma pay_members_none (S : Sqlite) (s : MonthlyAllowance) (ym : string)
  (members : list Member) (counts : Z * Z) (c : Conn) :
  Forall (fun m => eligible s m = false) members ->
  pay_members s ym members counts c = (Ok counts, c).
Proof.
  induction 1 as [ | m rest Hm _ IH ]; [ reflexivity | ].
  cbn [pay_members]. unfold eligible in Hm. rewrite Hm. exact IH.
Qed.

Lemma pay_settings_none (S : Sqlite) (bot : list Guild) (ym : string)
  (settings : list MonthlyAllowance) (counts : Z * Z) (c : Conn) :
  (forall s guild m,
     In s settings ->
     find (fun g => g_id g =? ma_guild_id s) bot = Some guild ->
     In m (g_members guild) -> eligible s m = false) ->
  pay_settings bot ym settings counts c = (Ok counts, c).
Proof.
  induction settings as [ | s rest IH ]; intros H; [ reflexivity | ].
  cbn [pay_settings].
  assert (Hrest : pay_settings bot ym rest counts c = (Ok counts, c)).
  { apply IH. intros s' guild m Hs'. apply H. right. exact Hs'. }
  destruct (find (fun g => g_id g =? ma_guild_id s) bot) as [guild | ] eqn:Hg;
    [ | exact Hrest ].
  destruct (existsb (Z.eqb (ma_role_id s)) (g_roles guild)); [ | exact Hrest ].
  unfold bind. rewrite pay_members_none.
  - exact Hrest.
  - apply Forall_forall. intros m Hm. apply (H s guild m); [ left; reflexivity | exact Hg | exact Hm ].
Qed.

(** X17 (cogs/monthly_allowance.py, execute_monthly_allowances): a sweep
    that finds no member to pay writes nothing.  When, for every enabled
    setting whose guild the bot knows, every member lacks the role or is a
    bot, the sweep reports no payment and no failure and the database file
    is unchanged. *)
Theorem sweep_without_eligible_members (S : Sqlite) (bot : list Guild)
  (year_month : string) (d : DB) :
  (forall s guild m,
     In s (rows (monthly_allowances d)) -> ma_enabled s = true ->
     find (fun g => g_id g =? ma_guild_id s) bot = Some guild ->
     In m (g_members guild) ->
     eligible s m = false) ->
  execute_monthly_allowances bot year_month d = (Ok (0, 0), d).
Proof.
  intros H. unfold execute_monthly_allowances, with_connection, bind at 1, query.
  cbn [work connect]. rewrite pay_settings_none; [ reflexivity | ].
  intros s guild m Hs. apply filter_In in Hs. destruct Hs as [Hs He].
  apply H; assumption.
Qed.

(** In [payroll_db] role 7 carries an allowance; a guild whose only holder
    of the role is a bot is not paid. *)
Lemma sweep_without_eligible_members_witness :
  @execute_monthly_allowances plain_sqlite
    [ {| g_id := 1; g_roles := [7];
         g_members := [ {| m_id := 42; m_roles := [8]; m_bot := false |};
                        {| m_id := 50; m_roles := [7]; m_bot := true |} ] |} ]
    "2025-01" payroll_db
  = (Ok (0, 0), payroll_db).
Proof.
  apply sweep_without_eligible_members.
  intros s guild m Hs He Hg Hm.
  assert (E : rows (monthly_allowances payroll_db)
              = [ {| ma_id := 1; ma_guild_id := 1; ma_role_id := 7; ma_asset_id := 1;
                     ma_amount := Dec.of_Z 100; ma_enabled := true |} ])
    by reflexivity.
  rewrite E in Hs. destruct Hs as [<- | []].
  cbn in Hg. injection Hg as <-. cbn in Hm.
  destruct Hm as [<- | [<- | []]]; reflexivity.
Defined.

Lemma pay_members_without_bots (S : Sqlite) (s : MonthlyAllowance) (ym : string)
  (members : list Member) (counts : Z * Z) (c : Conn) :
  pay_members s ym (filter (fun m => negb (m_bot m)) members) counts c
  = pay_members s ym members counts c.
Proof.
  revert counts c. induction members as [ | m rest IH ]; intros counts c;
    [ reflexivity | ].
  cbn [filter pay_members]. destruct (m_bot m) eqn:Hb; cbn [negb].
  - rewrite andb_false_r. apply IH.
  - cbn [pay_members]. rewrite Hb. cbn [negb].
    destruct (existsb (Z.eqb (ma_role_id s)) (m_roles m) && true); [ | apply IH ].
    unfold bind, query.
    destruct (select_history _ _ _ _ _ _); [ apply IH | ].
    unfold try_except.
    destruct (transfer_allowance _ _ _ _ _ _ c) as [[u | e] c']; apply IH.
Qed.

Lemma find_without_bots (id : Z) (bot : list Guild) :
  find (fun g => g_id g =? id) (map without_bots bot)
  = option_map without_bots (find (fun g => g_id g =? id) bot).
Proof.
  induction bot as [ | g rest IH ]; [ reflexivity | ].
  cbn [map find without_bots g_id]. destruct (g_id g =? id); [ reflexivity | exact IH ].
Qed.

Lemma pay_settings_without_bots (S : Sqlite) (bot : list Guild) (ym : string)
  (settings : list MonthlyAllowance) (counts : Z * Z) (c : Conn) :
  pay_settings (map without_bots bot) ym settings counts c
  = pay_settings bot ym settings counts c.
Proof.
  revert counts c. induction settings as [ | s rest IH ]; intros counts c;
    [ reflexivity | ].
  cbn [pay_settings]. rewrite find_without_bots.
  destruct (find (fun g => g_id g =? ma_guild_id s) bot) as [guild | ];
    cbn [option_map]; [ | apply IH ].
  cbn [without_bots g_roles g_members].
  destruct (existsb (Z.eqb (ma_role_id s)) (g_roles guild)); [ | apply IH ].
  unfold bind. rewrite pay_members_without_bots.
  destruct (pay_members s ym (g_members guild) counts c) as [[counts' | e] c'];
    [ apply IH | reflexivity ].
Qed.

(** X18 (cogs/monthly_allowance.py, execute_monthly_allowances): bots are
    never paid.  The sweep over the guilds with their bot members removed
    gives the same report and the same database as the sweep over the
    guilds as they are. *)
Theorem sweep_never_pays_bots (S : Sqlite) (bot : list Guild) (year_month : string)
  (d : DB) :
  execute_monthly_allowances (map without_bots bot) year_month d
  = execute_monthly_allowances bot year_month d.
Proof.
  unfold execute_monthly_allowances, with_connection, bind, query.
  cbn [work connect]. rewrite pay_settings_without_bots. reflexivity.
Qed.

(** ** utils.py: paid hours *)

Lemma make_value (m e : Z) :
  Z.abs m < 2 ^ 53 -> e < 0 ->
  (B64.value (B64.make m e) == m # Z.to_pos (2 ^ (- e)))%Q.
Proof.
  intros Hm He. unfold B64.make.
  generalize (eq_refl (Z.abs m <? 2 ^ 53)).
  generalize (Z.abs m <? 2 ^ 53) at 2 3.
  intros b Hb. destruct b.
  - unfold B64.value. cbn [B64.mant B64.expo].
    replace (0 <=? e) with false by (symmetry; apply Z.leb_gt; exact He).
    reflexivity.
  - apply Z.ltb_ge in Hb. lia.
Qed.

(** Rounding a positive quotient below [2^50] to a double: the significand
    is the quotient scaled by a power of two into [2^52, 2^53), rounded to
    the nearest integer. *)
Lemma round_small (n d : Z) :
  0 < n -> 0 < d -> n < 2 ^ 50 * d ->
  exists k,
    2 <= k
    /\ 2 ^ 52 * d <= n * 2 ^ k < 2 ^ 53 * d
    /\ (B64.value (B64.round (n # Z.to_pos d))
        == Dec.nearest_even (n * 2 ^ k) d # Z.to_pos (2 ^ k))%Q.
Proof.
  intros Hn Hd Hsmall.
  pose proof (Z.log2_spec n Hn) as Ha. pose proof (Z.log2_spec d Hd) as Hb.
  pose proof (Z.log2_nonneg n) as Ha0. pose proof (Z.log2_nonneg d) as Hb0.
  set (a := Z.log2 n) in *. set (b := Z.log2 d) in *.
  rewrite <- Z.add_1_r in Ha, Hb.
  assert (Hab : a <= b + 50).
  { assert (H : 2 ^ a < 2 ^ (b + 51)).
    { replace (b + 51) with (50 + (b + 1)) by lia. rewrite Z.pow_add_r by lia. nia. }
    apply Z.pow_lt_mono_r_iff in H; lia. }
  set (k0 := b + 52 - a).
  assert (Hk0 : 2 <= k0) by (unfold k0; lia).
  assert (Hup0 : n * 2 ^ k0 < 2 ^ 53 * d).
  { assert (H : n * 2 ^ k0 < 2 ^ (a + 1) * 2 ^ k0).
    { apply Z.mul_lt_mono_pos_r; [ apply Z.pow_pos_nonneg; lia | lia ]. }
    rewrite <- Z.pow_add_r in H by lia.
    replace (a + 1 + k0) with (53 + b) in H by (unfold k0; lia).
    rewrite Z.pow_add_r in H by lia.
    assert (H53 : 0 < 2 ^ 53) by (apply Z.pow_pos_nonneg; lia). nia. }
  assert (Hlow0 : 2 ^ 51 * d < n * 2 ^ k0).
  { assert (H : 2 ^ a * 2 ^ k0 <= n * 2 ^ k0).
    { apply Z.mul_le_mono_nonneg_r; [ apply Z.pow_nonneg; lia | lia ]. }
    rewrite <- Z.pow_add_r in H by lia.
    replace (a + k0) with (51 + (b + 1)) in H by (unfold k0; lia).
    rewrite Z.pow_add_r in H by lia.
    assert (H51 : 0 < 2 ^ 51) by (apply Z.pow_pos_nonneg; lia). nia. }
  unfold B64.round. cbn [Qnum Qden].
  rewrite (Z.abs_eq n) by lia. rewrite (Z2Pos.id d) by exact Hd.
  replace (n =? 0) with false by (symmetry; apply Z.eqb_neq; lia).
  fold a b. replace (a - b - 52) with (- k0) by (unfold k0; lia).
  unfold B64.scaled at 1.
  replace (0 <=? - k0) with false by (symmetry; apply Z.leb_gt; lia).
  rewrite Z.opp_involutive.
  rewrite (Z.sgn_pos n) by exact Hn.
  pose (fin := fun k : Z =>
          let '(n1, d1) := B64.scaled n d (- k) in
          let m := Dec.nearest_even n1 d1 in
          let '(m0, e) := if m =? 2 ^ 53 then (2 ^ 52, - k + 1) else (m, - k) in
          B64.make (1 * m0) e).
  assert (Hfinish : forall k, 2 <= k -> 2 ^ 52 * d <= n * 2 ^ k < 2 ^ 53 * d ->
            (B64.value (fin k)
             == Dec.nearest_even (n * 2 ^ k) d # Z.to_pos (2 ^ k))%Q).
  { intros k Hk Hbounds. unfold fin, B64.scaled.
    replace (0 <=? - k) with false by (symmetry; apply Z.leb_gt; lia).
    rewrite Z.opp_involutive. cbv zeta.
    assert (Hpos : 0 <= n * 2 ^ k) by (apply Z.mul_nonneg_nonneg; [ lia | apply Z.pow_nonneg; lia ]).
    pose proof (nearest_even_bounds (n * 2 ^ k) d Hpos Hd) as Hne.
    set (m := Dec.nearest_even (n * 2 ^ k) d) in *.
    assert (Hm : 2 ^ 52 <= m <= 2 ^ 53).
    { change (2 ^ 52) with 4503599627370496 in *.
      change (2 ^ 53) with 9007199254740992 in *. nia. }
    destruct (m =? 2 ^ 53) eqn:Em.
    - apply Z.eqb_eq in Em. rewrite make_value by (cbn; lia).
      rewrite Em. unfold Qeq. cbn [Qnum Qden].
      rewrite !Z2Pos.id by (apply Z.pow_pos_nonneg; lia).
      replace (- (- k + 1)) with (k - 1) by lia.
      replace (2 ^ k) with (2 * 2 ^ (k - 1)).
      + change (2 ^ 53) with (2 * 2 ^ 52). ring.
      + replace k with (1 + (k - 1)) at 2 by lia. rewrite Z.pow_add_r by lia. reflexivity.
    - apply Z.eqb_neq in Em. rewrite make_value by lia.
      rewrite Z.opp_involutive, Z.mul_1_l. reflexivity. }
  destruct (n * 2 ^ k0 / d <? 2 ^ 52) eqn:Et.
  - apply Z.ltb_lt in Et. exists (k0 + 1).
    assert (Hlt : n * 2 ^ k0 < 2 ^ 52 * d).
    { destruct (Z_lt_le_dec (n * 2 ^ k0) (2 ^ 52 * d)) as [H | H]; [ exact H | ].
      assert (2 ^ 52 <= n * 2 ^ k0 / d) by (apply Z.div_le_lower_bound; lia). lia. }
    assert (Hb1 : 2 ^ 52 * d <= n * 2 ^ (k0 + 1) < 2 ^ 53 * d).
    { rewrite Z.pow_add_r by lia. change (2 ^ 1) with 2.
      change (2 ^ 52) with (2 * 2 ^ 51). change (2 ^ 53) with (2 * 2 ^ 52) at 1.
      lia. }
    split; [ lia | ]. split; [ exact Hb1 | ].
    replace (- k0 - 1) with (- (k0 + 1)) by lia.
    apply (Hfinish (k0 + 1)); [ lia | exact Hb1 ].
  - apply Z.ltb_ge in Et. exists k0.
    assert (Hge : 2 ^ 52 * d <= n * 2 ^ k0).
    { pose proof (Z.mul_div_le (n * 2 ^ k0) d Hd). nia. }
    split; [ lia | ]. split; [ lia | ].
    apply (Hfinish k0); [ lia | lia ].
Qed.

Lemma ceil_true_div_15 (minutes : Z) :
  15 <= minutes < 2 ^ 50 ->
  ceil (true_div minutes 15) = (minutes + 14) / 15.
Proof.
  intros Hm. unfold ceil, true_div.
  destruct (round_small minutes 15 ltac:(lia) ltac:(lia) ltac:(lia))
    as (k & Hk & Hb & Hv).
  change (Z.to_pos 15) with 15%positive in *.
  rewrite (Qceiling_comp _ _ Hv).
  assert (HE : 0 < 2 ^ k) by (apply Z.pow_pos_nonneg; lia).
  assert (Hpos : 0 <= minutes * 2 ^ k) by nia.
  pose proof (nearest_even_bounds (minutes * 2 ^ k) 15 Hpos ltac:(lia)) as Hne.
  set (M := Dec.nearest_even (minutes * 2 ^ k) 15) in *.
  set (E := 2 ^ k) in *.
  set (c := (minutes + 14) / 15).
  assert (Hc : 15 * c - 14 <= minutes <= 15 * c).
  { pose proof (Z.div_mod (minutes + 14) 15 ltac:(lia)) as Hdm.
    pose proof (Z.mod_pos_bound (minutes + 14) 15 ltac:(lia)) as Hmb.
    fold c in Hdm. lia. }
  assert (HE8 : 60 < E).
  { change (2 ^ 52) with 4503599627370496 in Hb.
    change (2 ^ 50) with 1125899906842624 in Hm. nia. }
  assert (Hhi : M <= c * E) by nia.
  assert (Hlo : (c - 1) * E < M) by nia.
  unfold Qceiling, Qfloor, Qopp. cbn [Qnum Qden].
  rewrite Z2Pos.id by exact HE.
  assert (Hdiv : - M / E = - c).
  { symmetry. apply (Z.div_unique_pos (- M) E (- c) (c * E - M)); lia. }
  rewrite Hdiv. lia.
Qed.

Lemma true_div_quarters (c : Z) :
  1 <= c < 2 ^ 50 ->
  (B64.value (true_div (c * 15) 60) == c * 15 # 60)%Q.
Proof.
  intros Hc. unfold true_div.
  destruct (round_small (c * 15) 60 ltac:(lia) ltac:(lia) ltac:(lia))
    as (k & Hk & Hb & Hv).
  change (Z.to_pos 60) with 60%positive in *.
  rewrite Hv.
  assert (Hk2 : 2 ^ k = 4 * 2 ^ (k - 2)).
  { replace k with (2 + (k - 2)) at 1 by lia. rewrite Z.pow_add_r by lia. reflexivity. }
  assert (HE : 0 < 2 ^ (k - 2)) by (apply Z.pow_pos_nonneg; lia).
  assert (Hn : c * 15 * 2 ^ k = c * 2 ^ (k - 2) * 60) by (rewrite Hk2; ring).
  unfold Dec.nearest_even. rewrite Hn, Z.mod_mul, Z.div_mul by lia.
  cbn [Z.mul Z.compare]. unfold Qeq. cbn [Qnum Qden].
  rewrite Z2Pos.id by lia. rewrite Hk2. ring.
Qed.

(** X19 (utils.py, calculate_hours_15min_ceil): the paid hours are the
    minutes rounded up to the next quarter of an hour, exactly.  Below 15
    minutes the result is 0.0; from 15 minutes on it is the double that
    equals ceil(minutes / 15) * 15 / 60, the two floating-point divisions
    losing nothing.  So 29 minutes count as 0.5 hours and 59 as 1.0. *)
Theorem hours_round_up_to_quarter (minutes : Z) :
  minutes < 2 ^ 50 ->
  (B64.value (calculate_hours_15min_ceil minutes)
   == (if minutes <? 15 then 0 else (minutes + 14) / 15 * 15) # 60)%Q.
Proof.
  intros Hm. unfold calculate_hours_15min_ceil, SALARY_MIN_MINUTES,
    SALARY_UNIT_MINUTES, SALARY_HOUR_TO_MINUTES.
  destruct (minutes <? 15) eqn:E; [ reflexivity | ].
  apply Z.ltb_ge in E. rewrite ceil_true_div_15 by lia.
  apply true_div_quarters.
  assert (H1 : 1 <= (minutes + 14) / 15) by (apply Z.div_le_lower_bound; lia).
  assert (H2 : (minutes + 14) / 15 <= minutes)
    by (apply Z.div_le_upper_bound; lia).
  lia.
Qed.

Lemma hours_round_up_to_quarter_witness :
  (B64.value (calculate_hours_15min_ceil 29) == 1 # 2)%Q.
Proof.
  rewrite (hours_round_up_to_quarter 29) by (vm_compute; reflexivity).
  vm_compute. reflexivity.
Defined.
